(** * The asynchronous task lifecycle of the report server

    A shallow embedding of the task store, the stage pipeline, the
    submission and status endpoints (src/server.js and the serverless
    variant src/api/server.js) and of the client poller
    (src/standalone_image_test_server.js), followed by the properties
    of the task lifecycle.

    Time is explicit: every function that reads [Date.now()] takes the
    reading as an argument [now] (milliseconds).  A [created_at] ISO string
    is represented by the millisecond count it encodes, which is what
    [new Date(task.created_at).getTime()] gives back. *)

From stdpp Require Import base gmap strings list fin_maps pretty.
From Stdlib Require Import Ascii String ZArith QArith Lia.

Local Open Scope string_scope.
Local Open Scope Z_scope.

(** ** JavaScript values used by the servers *)

Module Js.

(** A JSON value, as produced by [JSON.parse] or written as an object
    literal; [JNull] also stands for [undefined]. *)
#[local] Unset Elimination Schemes.
Inductive Json : Type :=
  | JNull
  | JBool (b : bool)
  | JNum (n : Q)
  | JStr (s : string)
  | JArr (items : list Json)
  | JObj (fields : list (string * Json)).
#[local] Set Elimination Schemes.

(** JavaScript truthiness, as used by [||], [&&], [!] and [if]. *)
Definition truthy (v : Json) : bool :=
  match v with
  | JNull => false
  | JBool b => b
  | JNum n => negb (Qeq_bool n 0)
  | JStr s => negb (String.eqb s "")
  | JArr _ | JObj _ => true
  end.

(** [obj.key] on an object; a key that is not there reads as [undefined],
    which [JNull] stands for. *)
Fixpoint assoc (key : string) (fields : list (string * Json)) : Json :=
  match fields with
  | [] => JNull
  | (k, v) :: rest => if String.eqb k key then v else assoc key rest
  end.

(** Property access [v.key]: [None] is the TypeError of reading a property
    of [null] or [undefined]. *)
Definition getField (key : string) (v : Json) : option Json :=
  match v with
  | JNull => None
  | JObj fields => Some (assoc key fields)
  | _ => Some JNull
  end.

(** An [Error] object; only its [message] is ever read. *)
Record Error := mkError { message : string }.

(** What [await f(...)] observes of an async call. *)
Inductive Promise (A : Type) : Type :=
  | Resolved (value : A)
  | Rejected (reason : Error).
Arguments Resolved {A} value.
Arguments Rejected {A} reason.

(** White space of ECMAScript ([WhiteSpace] and [LineTerminator]) on the
    UTF-8 bytes of a string: [all_whitespace s] says that [s.trim()] is the
    empty string. *)
Definition byte (n : N) (c : ascii) : bool := (N_of_ascii c =? n)%N.

Definition ascii_whitespace (c : ascii) : bool :=
  let n := N_of_ascii c in
  ((9 <=? n) && (n <=? 13) || (n =? 32))%N.

Fixpoint all_whitespace (s : string) : bool :=
  match s with
  | EmptyString => true
  | String c rest =>
      if ascii_whitespace c then all_whitespace rest
      else
        match rest with
        | String c2 rest2 =>
            (* U+00A0 *)
            if byte 194 c && byte 160 c2 then all_whitespace rest2
            else
              match rest2 with
              | String c3 rest3 =>
                  let n3 := N_of_ascii c3 in
                  if (* U+1680 *)
                     byte 225 c && byte 154 c2 && byte 128 c3
                     (* U+2000 .. U+200A, U+2028, U+2029, U+202F *)
                     || byte 226 c && byte 128 c2 &&
                        ((128 <=? n3) && (n3 <=? 138) || (n3 =? 168)
                         || (n3 =? 169) || (n3 =? 175))%N
                     (* U+205F *)
                     || byte 226 c && byte 129 c2 && byte 159 c3
                     (* U+3000 *)
                     || byte 227 c && byte 128 c2 && byte 128 c3
                     (* U+FEFF *)
                     || byte 239 c && byte 187 c2 && byte 191 c3
                  then all_whitespace rest3
                  else false
              | EmptyString => false
              end
        | EmptyString => false
        end
  end.

(** [a || b] on strings: the first one unless it is empty. *)
Definition or_str (a b : string) : string :=
  if String.eqb a "" then b else a.

End Js.

(** ** The task store

    [taskStorage], [TaskStatus], [createTask], [getTask], [setTaskResult]
    and [setTaskError] are the same text in src/server.js (lines 60-135) and
    src/api/server.js (lines 43-95); [updateTaskStatus] and [cleanupOldTasks]
    exist in src/server.js only. *)

Module TaskStore.
Import Js.

Inductive TaskStatus : Type := PENDING | PROCESSING | COMPLETED | FAILED.

#[global] Instance TaskStatus_eq_dec : EqDecision TaskStatus.
Proof. solve_decision. Defined.

(** The string each member of the enumeration stands for. *)
Definition status_string (s : TaskStatus) : string :=
  match s with
  | PENDING => "pending"
  | PROCESSING => "processing"
  | COMPLETED => "completed"
  | FAILED => "failed"
  end.

Definition terminal (s : TaskStatus) : bool :=
  match s with
  | COMPLETED | FAILED => true
  | PENDING | PROCESSING => false
  end.

(** The value stored by [task.error = error.message || error]: the message
    when it is a non-empty string, the error object itself otherwise. *)
Inductive ErrorField : Type :=
  | ErrMessage (m : string)
  | ErrObject (e : Error).

Section Store.

(** [Input] is the type of the snapshot given to [createTask], [Result]
    the type of the payload given to [setTaskResult]. *)
Context {Input Result : Type}.

Record Task := mkTask {
  id : string;
  status : TaskStatus;
  progress : Z;
  current_step : string;
  created_at : Z;
  updated_at : Z;
  input_data : Input;
  result : option Result;
  error : option ErrorField;
  processing_time : Z
}.

(** One property written by [Object.assign(task, data)]. *)
Inductive TaskField : Type :=
  | F_status (v : TaskStatus)
  | F_progress (v : Z)
  | F_current_step (v : string)
  | F_updated_at (v : Z)
  | F_result (v : option Result)
  | F_error (v : option ErrorField)
  | F_processing_time (v : Z).

Definition assignField (task : Task) (f : TaskField) : Task :=
  match f with
  | F_status v =>
      mkTask (id task) v (progress task) (current_step task) (created_at task)
             (updated_at task) (input_data task) (result task) (error task)
             (processing_time task)
  | F_progress v =>
      mkTask (id task) (status task) v (current_step task) (created_at task)
             (updated_at task) (input_data task) (result task) (error task)
             (processing_time task)
  | F_current_step v =>
      mkTask (id task) (status task) (progress task) v (created_at task)
             (updated_at task) (input_data task) (result task) (error task)
             (processing_time task)
  | F_updated_at v =>
      mkTask (id task) (status task) (progress task) (current_step task)
             (created_at task) v (input_data task) (result task) (error task)
             (processing_time task)
  | F_result v =>
      mkTask (id task) (status task) (progress task) (current_step task)
             (created_at task) (updated_at task) (input_data task) v
             (error task) (processing_time task)
  | F_error v =>
      mkTask (id task) (status task) (progress task) (current_step task)
             (created_at task) (updated_at task) (input_data task)
             (result task) v (processing_time task)
  | F_processing_time v =>
      mkTask (id task) (status task) (progress task) (current_step task)
             (created_at task) (updated_at task) (input_data task)
             (result task) (error task) v
  end.

(** [Object.assign(task, data)]: the properties of [data] in order. *)
Definition Object_assign (task : Task) (data : list TaskField) : Task :=
  foldl assignField task data.

(** [createTask]: [taskId] is the value of [uuidv4()]; the two readings of
    the clock, for [created_at] and [updated_at], are one instant [now]. *)
Definition createTask (taskId : string) (now : Z) (initialData : Input)
    (taskStorage : gmap string Task) : string * gmap string Task :=
  let task := {|
    id := taskId;
    status := PENDING;
    progress := 0;
    current_step := "";
    created_at := now;
    updated_at := now;
    input_data := initialData;
    result := None;
    error := None;
    processing_time := 0
  |} in
  (taskId, <[taskId := task]> taskStorage).

Definition updateTaskStatus (taskId : string) (status' : TaskStatus)
    (currentStep : string) (progress' : Z) (data : list TaskField) (now : Z)
    (taskStorage : gmap string Task) : bool * gmap string Task :=
  match taskStorage !! taskId with
  | None => (false, taskStorage)
  | Some task =>
      let task1 := assignField task (F_status status') in
      let task2 := assignField task1 (F_current_step currentStep) in
      let task3 := assignField task2 (F_progress progress') in
      let task4 := assignField task3 (F_updated_at now) in
      (true, <[taskId := Object_assign task4 data]> taskStorage)
  end.

Definition getTask (taskId : string) (taskStorage : gmap string Task)
    : option Task :=
  taskStorage !! taskId.

Definition setTaskResult (taskId : string) (result' : Result) (now : Z)
    (taskStorage : gmap string Task) : gmap string Task :=
  match taskStorage !! taskId with
  | Some task =>
      let task1 := assignField task (F_result (Some result')) in
      let task2 := assignField task1 (F_status COMPLETED) in
      let task3 := assignField task2 (F_progress 100) in
      let task4 :=
        assignField task3 (F_processing_time (now - created_at task3)) in
      <[taskId := assignField task4 (F_updated_at now)]> taskStorage
  | None => taskStorage
  end.

Definition errorField (error' : Error) : ErrorField :=
  if String.eqb (message error') "" then ErrObject error'
  else ErrMessage (message error').

Definition setTaskError (taskId : string) (error' : Error) (now : Z)
    (taskStorage : gmap string Task) : gmap string Task :=
  match taskStorage !! taskId with
  | Some task =>
      let task1 := assignField task (F_error (Some (errorField error'))) in
      let task2 := assignField task1 (F_status FAILED) in
      let task3 :=
        assignField task2 (F_processing_time (now - created_at task2)) in
      <[taskId := assignField task3 (F_updated_at now)]> taskStorage
  | None => taskStorage
  end.

(** [cleanupOldTasks]: the loop deletes the entries it visits whose
    creation time is before [oneHourAgo] and keeps the rest. *)
Definition cleanupOldTasks (now : Z) (taskStorage : gmap string Task)
    : gmap string Task :=
  let oneHourAgo := now - 3600000 in
  filter (fun entry => ¬ (created_at entry.2 < oneHourAgo)) taskStorage.

(** The period of [setInterval(cleanupOldTasks, 1800000)]. *)
Definition cleanupInterval : Z := 1800000.

(** A call of a pipeline on the task store.  (src/api/server.js has no
    [updateTaskStatus]; its pipeline makes the last two calls only.) *)
Inductive StoreOp : Type :=
  | OpUpdateTaskStatus (status : TaskStatus) (currentStep : string)
                       (progress : Z)
  | OpSetTaskResult (result : Result)
  | OpSetTaskError (error : Error).

(** What a store call does to [taskStorage] at clock reading [now]. *)
Definition perform (taskId : string) (now : Z) (op : StoreOp)
    (taskStorage : gmap string Task) : gmap string Task :=
  match op with
  | OpUpdateTaskStatus status currentStep progress =>
      (updateTaskStatus taskId status currentStep progress [] now
         taskStorage).2
  | OpSetTaskResult result => setTaskResult taskId result now taskStorage
  | OpSetTaskError error => setTaskError taskId error now taskStorage
  end.

(** A whole run of a pipeline with nothing in between: the store calls in
    order, the [k]-th at clock reading [clock k]. *)
Fixpoint performAll (taskId : string) (clock : nat → Z) (k : nat)
    (ops : list StoreOp) (taskStorage : gmap string Task)
    : gmap string Task :=
  match ops with
  | [] => taskStorage
  | op :: rest =>
      performAll taskId clock (S k) rest
        (perform taskId (clock k) op taskStorage)
  end.

End Store.

Arguments Task : clear implicits.
Arguments TaskField : clear implicits.
Arguments StoreOp : clear implicits.
Arguments OpUpdateTaskStatus {Result} status currentStep progress.
Arguments OpSetTaskError {Result} error.

End TaskStore.

(** ** Effects of a pipeline

    A pipeline run is a sequence of task-store calls separated by awaited
    collaborator calls.  [M Op A] is the computation type of such code: the
    store calls made so far, in order, and how the code completed (normally
    with a value, or by a [throw]).  The store calls are kept as data so that
    they can be replayed against the shared store interleaved with other
    handlers. *)

Module Effects.
Import Js.

Inductive Completion (A : Type) : Type :=
  | Normal (value : A)
  | Throw (e : Error).
Arguments Normal {A} value.
Arguments Throw {A} e.

Record M (Op A : Type) : Type := mkM {
  calls : list Op;              (* the store calls made, in order *)
  completion : Completion A     (* how the code completed *)
}.
Arguments mkM {Op A} calls completion.
Arguments calls {Op A} m.
Arguments completion {Op A} m.

Section Monad.
Context {Op : Type}.

Definition ret {A} (a : A) : M Op A := mkM [] (Normal a).

Definition bind {A B} (k : A → M Op B) (m : M Op A) : M Op B :=
  match completion m with
  | Normal a =>
      let rest := k a in
      mkM (calls m ++ calls rest)%list (completion rest)
  | Throw e => mkM (calls m) (Throw e)
  end.

Definition throw {A} (e : Error) : M Op A := mkM [] (Throw e).

(** [try { m } catch (e) { handler e }] *)
Definition tryCatch {A} (m : M Op A) (handler : Error → M Op A) : M Op A :=
  match completion m with
  | Normal a => m
  | Throw e =>
      let handled := handler e in
      mkM (calls m ++ calls handled)%list (completion handled)
  end.

Definition await {A} (p : Promise A) : M Op A :=
  match p with
  | Resolved v => ret v
  | Rejected e => throw e
  end.

(** One call of a task-store function. *)
Definition call (op : Op) : M Op unit := mkM [op] (Normal tt).

#[global] Instance M_ret : MRet (M Op) := @ret.
#[global] Instance M_bind : MBind (M Op) := @bind.

End Monad.

End Effects.

(** ** src/server.js: the stage pipeline and its endpoints *)

Module Server.
Import Js TaskStore Effects.

Record UserInfo := mkUserInfo {
  nickname : string;
  profession : string;
  age : string;
  bioOrChatHistory : string
}.

(** An uploaded file as multer describes it; [on_disk] is what
    [fs.existsSync(file.path)] answers when the pipeline looks. *)
Record File := mkFile {
  path : string;
  filename : string;
  size : Z;
  on_disk : bool
}.

(** What [classifyImageWithGPT4o] resolves to. *)
Record Classification := mkClassification {
  c_classification : string;
  c_success : bool;
  c_error : string
}.

(** What the three image analysers resolve to, and what the pipeline
    pushes on [imageAnalyses].  [a_texts] holds the descriptive properties
    ([extracted_conversations], [scene_description], [confidence], ...). *)
Record Analysis := mkAnalysis {
  a_filename : string;
  a_classification : option string;
  a_analysis_type : option string;
  a_texts : list (string * Json);
  a_success : bool;
  a_error : option string
}.

Record OptimizationStats := mkOptimizationStats {
  original_length : Z;
  enhanced_length : Z;
  expansion_ratio : Q
}.

(** What [enhanceQueryWithAI] resolves to. *)
Record QueryOptimization := mkQueryOptimization {
  q_success : bool;
  q_error : option string;
  original_query : string;
  enhanced_query : string;
  token_usage : Z;
  optimization_stats : OptimizationStats
}.

(** The JSON document handed to the retrieval process. *)
Record RagInput := mkRagInput {
  rag_nickname : string;
  rag_profession : string;
  rag_age : string;
  rag_bio : string;
  rag_bioOrChatHistory : string;
  rag_image_infos : list Analysis;
  rag_diagnostic_mode : bool
}.

(** How the spawned retrieval process ends, as seen by the promise of
    [callRAGSystem]: the first of its callbacks to settle it. *)
Inductive ProcessRun : Type :=
  | SpawnThrows (e : Error)                     (* the executor's try block throws *)
  | ErrorEvent (e : Error)                      (* pythonProcess.on('error') *)
  | CloseEvent (code : option Z) (outputData errorData : string)
                                                (* pythonProcess.on('close') *)
  | Timeout.                                    (* the 300000 ms timer *)

(** The external collaborators of the pipeline.  The four image functions,
    the query expander and the report generator are asynchronous calls to the
    language-model provider; the pipeline only sees what they settle to.
    [parseOutput] is [JSON.parse(outputData.trim())] ([None]: it throws), and
    [ragLogThrows data] says whether the statistics logging of
    [callRAGSystem] (lines 914-958), which only prints, throws on [data]. *)
Record Collaborators := mkCollaborators {
  classifyImageWithGPT4o : string → string → Promise Classification;
  analyzeChatImageWithGPT4o : string → string → Promise Analysis;
  analyzePhotoImageWithGPT4o : string → string → Promise Analysis;
  analyzeImageWithGPT4o : string → string → Promise Analysis;
  enhanceQueryWithAI : UserInfo → list Analysis → Promise QueryOptimization;
  generateFinalReportWithGPT4o :
    UserInfo → list Analysis → Json → Promise Json;
  ragSystemReady : bool;
  RAG_DIAGNOSTIC_MODE : bool;
  spawn : RagInput → ProcessRun;
  parseOutput : string → option Json;
  ragLogThrows : Json → bool
}.

Definition generateFallbackReport : Json :=
  JObj [
    ("risk_level", JStr "中等风险");
    ("key_findings", JObj [
       ("system_status", JStr "深度分析系统暂时不可用，使用备用分析逻辑");
       ("basic_analysis", JStr "已对提供的基本信息进行初步评估，建议保持谨慎态度")]);
    ("final_suggestion", JStr "由于深度分析系统暂时不可用，建议在交往过程中多观察对方的行为模式，注意是否存在不一致或令人担忧的迹象。如需专业建议，请咨询情感专家。");
    ("confidence_level", JStr "低");
    ("note", JStr "本报告为系统备用分析，建议稍后重试以获取更准确的评估")
  ].

(** [callRAGSystem]: every callback settles the promise with [resolve]. *)
Definition callRAGSystem (env : Collaborators) (userInfo : UserInfo)
    (imageInfos : list Analysis) (enhancedQuery : option string)
    : Promise Json :=
  let actualQuery :=
    or_str (default "" enhancedQuery) (or_str (bioOrChatHistory userInfo) "") in
  let inputData := {|
    rag_nickname := or_str (nickname userInfo) "";
    rag_profession := or_str (profession userInfo) "";
    rag_age := or_str (age userInfo) "";
    rag_bio := actualQuery;
    rag_bioOrChatHistory := actualQuery;
    rag_image_infos := imageInfos;
    rag_diagnostic_mode := RAG_DIAGNOSTIC_MODE env
  |} in
  match spawn env inputData with
  | CloseEvent code outputData errorData =>
      if decide (code = Some 0) then
        match parseOutput env outputData with
        | Some result =>
            match getField "success" result with
            | Some success =>
                if truthy success then
                  let ragData := default JNull (getField "data" result) in
                  if ragLogThrows env ragData
                  then Resolved generateFallbackReport
                  else Resolved ragData
                else
                  let fallback_report :=
                    default JNull (getField "fallback_report" result) in
                  Resolved (if truthy fallback_report then fallback_report
                            else generateFallbackReport)
            | None => Resolved generateFallbackReport
            end
        | None => Resolved generateFallbackReport
        end
      else Resolved generateFallbackReport
  | ErrorEvent error => Resolved generateFallbackReport
  | Timeout => Resolved generateFallbackReport
  | SpawnThrows error => Resolved generateFallbackReport
  end.

Record AnalysisStats := mkAnalysisStats {
  images_processed : Z;
  images_successful : Z;
  query_optimization_success : bool;
  query_enhancement_token_usage : Z;
  rag_status : string;
  final_analysis_status : string
}.

(** The object given to [setTaskResult].  Its [timestamp] and the two
    renderings of the elapsed time are clock readings that nothing reads
    back; they are not represented. *)
Record Response := mkResponse {
  r_success : bool;
  r_user_info : UserInfo;
  r_image_analyses : list Analysis;
  r_query_optimization : QueryOptimization;
  r_rag_knowledge : Json;
  r_final_report : Json;
  r_task_id : string;
  r_analysis_stats : AnalysisStats
}.

(** The snapshot given to [createTask] by the submission endpoint. *)
Record InputData := mkInputData {
  i_userInfo : UserInfo;
  filesCount : Z;
  submittedAt : Z
}.

(** [Math.round((num / den) * 20)] for [0 <= num < den]: the nearest
    integer to [20 * num / den], halves going up.  (The double arithmetic of
    the source gives this integer for every [den] up to 2000 at least; multer
    accepts 10 files.) *)
Definition Math_round_share (num den : Z) : Z :=
  (2 * (20 * num) + den) `div` (2 * den).

(** The error marker pushed when classification or analysis of one image
    throws (lines 1437-1448). *)
Definition imageErrorMarker (file : File) (imageError : Error) : Analysis := {|
  a_filename := filename file;
  a_classification := Some "error";
  a_analysis_type := Some "error";
  a_texts := [
    ("extracted_conversations", JStr ("图片分析失败: " ++ message imageError));
    ("scene_description", JStr "分析不可用");
    ("confidence", JStr "低")];
  a_success := false;
  a_error := Some (message imageError)
|}.

(** The inner [try]/[catch] of the loop (lines 1414-1449): what is pushed
    on [imageAnalyses] for one file. *)
Definition classifyAndAnalyze (env : Collaborators) (file : File)
    : M (StoreOp Response) Analysis :=
  tryCatch
    (classification ←
       await (classifyImageWithGPT4o env (path file) (filename file));
     (if negb (c_success classification)
      then throw (mkError ("图片分类失败: " ++ c_error classification))
      else mret tt);;
     analysis ←
       (if String.eqb (c_classification classification) "chat" then
          await (analyzeChatImageWithGPT4o env (path file) (filename file))
        else if String.eqb (c_classification classification) "photo" then
          await (analyzePhotoImageWithGPT4o env (path file) (filename file))
        else
          analysis ←
            await (analyzeImageWithGPT4o env (path file) (filename file));
          mret {| a_filename := a_filename analysis;
                  a_classification := a_classification analysis;
                  a_analysis_type := Some "unknown";
                  a_texts := a_texts analysis;
                  a_success := a_success analysis;
                  a_error := a_error analysis |});
     mret {| a_filename := a_filename analysis;
             a_classification := Some (c_classification classification);
             a_analysis_type := a_analysis_type analysis;
             a_texts := a_texts analysis;
             a_success := a_success analysis;
             a_error := a_error analysis |})
    (fun imageError => mret (imageErrorMarker file imageError)).

(** The [for] loop of stage 2 (lines 1409-1457) from index [i] on; [total]
    is [validImageFiles.length]. *)
Fixpoint imageLoop (env : Collaborators) (total : Z) (i : Z)
    (files : list File) (imageAnalyses : list Analysis)
    : M (StoreOp Response) (list Analysis) :=
  match files with
  | [] => mret imageAnalyses
  | file :: rest =>
      let progress := 30 + Math_round_share i total in
      call (OpUpdateTaskStatus PROCESSING
              ("处理第 " ++ pretty (i + 1) ++ "/" ++ pretty total ++ " 张图片")
              progress);;
      pushed ← classifyAndAnalyze env file;
      (* fs.unlinkSync(file.path) inside its own try/catch *)
      imageLoop env total (i + 1) rest (imageAnalyses ++ [pushed])%list
  end.

(** The properties that stage 6 copies from each analysis. *)
Definition copiedTexts : list string := [
  "extracted_conversations"; "communication_patterns"; "emotional_indicators";
  "scene_description"; "person_analysis"; "lifestyle_indicators";
  "notable_details"; "safety_assessment"; "red_flags"; "overall_assessment";
  "confidence"].

Definition copyAnalysis (analysis : Analysis) : Analysis := {|
  a_filename := a_filename analysis;
  a_classification := a_classification analysis;
  a_analysis_type := a_analysis_type analysis;
  a_texts := map (fun key => (key, assoc key (a_texts analysis))) copiedTexts;
  a_success := a_success analysis;
  a_error := a_error analysis
|}.

(** The stand-in for [queryOptimizationResult] when it is still [null]. *)
Definition queryOptimizationNotRun (userInfo : UserInfo) : QueryOptimization := {|
  q_success := false;
  q_error := Some "查询优化未执行";
  original_query := or_str (bioOrChatHistory userInfo) "";
  enhanced_query := or_str (bioOrChatHistory userInfo) "";
  token_usage := 0;
  optimization_stats := mkOptimizationStats 0 0 1
|}.

Definition validImageFile (file : File) : bool :=
  negb (String.eqb (path file) "") && on_disk file && (0 <? size file).

(** Step 2 (lines 1398-1460): classification and analysis of the images. *)
Definition analyzeImages (env : Collaborators) (uploadedFiles : list File)
    : M (StoreOp Response) (list Analysis) :=
  let validImageFiles := filter (fun file => validImageFile file) uploadedFiles in
  if 0 <? Z.of_nat (List.length validImageFiles) then
    call (OpUpdateTaskStatus PROCESSING
            ("分析 " ++ pretty (Z.of_nat (List.length validImageFiles)) ++ " 张图片")
            30);;
    imageLoop env (Z.of_nat (List.length validImageFiles)) 0 validImageFiles []
  else
    call (OpUpdateTaskStatus PROCESSING "无图片需要分析" 50);;
    mret [].

(** Step 3 (lines 1462-1486): query expansion.  The value is the pair of
    [queryOptimizationResult] and [enhancedQuery] after the step. *)
Definition expandQuery (env : Collaborators) (userInfo : UserInfo)
    (imageAnalyses : list Analysis)
    : M (StoreOp Response) (option QueryOptimization * option string) :=
  call (OpUpdateTaskStatus PROCESSING "AI查询优化中" 55);;
  query ← tryCatch
    (queryOptimizationResult ←
       await (enhanceQueryWithAI env userInfo imageAnalyses);
     mret (Some queryOptimizationResult,
           Some (enhanced_query queryOptimizationResult)))
    (fun enhanceError =>
       mret (None,
             Some (or_str (bioOrChatHistory userInfo)
                     (nickname userInfo ++ " " ++ profession userInfo
                      ++ " 情感安全分析"))));
  call (OpUpdateTaskStatus PROCESSING "AI查询优化完成" 58);;
  mret query.

(** Step 4 (lines 1488-1503): knowledge retrieval. *)
Definition retrieveKnowledge (env : Collaborators) (userInfo : UserInfo)
    (imageAnalyses : list Analysis) (enhancedQuery : option string)
    : M (StoreOp Response) Json :=
  call (OpUpdateTaskStatus PROCESSING "RAG知识库检索中" 60);;
  ragKnowledge ←
    (if ragSystemReady env then
       tryCatch
         (await (callRAGSystem env userInfo imageAnalyses enhancedQuery))
         (fun ragError => mret generateFallbackReport)
     else mret generateFallbackReport);
  call (OpUpdateTaskStatus PROCESSING "RAG知识检索完成" 70);;
  mret ragKnowledge.

(** Step 5 (lines 1505-1514): the final report. *)
Definition synthesize (env : Collaborators) (userInfo : UserInfo)
    (imageAnalyses : list Analysis) (ragKnowledge : Json)
    : M (StoreOp Response) Json :=
  call (OpUpdateTaskStatus PROCESSING "最终分析生成中" 80);;
  tryCatch
    (await (generateFinalReportWithGPT4o env userInfo imageAnalyses ragKnowledge))
    (fun finalError => mret generateFallbackReport).

(** The [response] object of step 6 (lines 1522-1596). *)
Definition buildResponse (env : Collaborators) (taskId : string)
    (userInfo : UserInfo) (imageAnalyses : list Analysis)
    (queryOptimizationResult : option QueryOptimization)
    (ragKnowledge finalReport : Json) : Response := {|
  r_success := true;
  r_user_info := userInfo;
  r_image_analyses := map copyAnalysis imageAnalyses;
  r_query_optimization :=
    default (queryOptimizationNotRun userInfo) queryOptimizationResult;
  r_rag_knowledge := ragKnowledge;
  r_final_report := finalReport;
  r_task_id := taskId;
  r_analysis_stats := {|
    images_processed := Z.of_nat (List.length imageAnalyses);
    images_successful :=
      Z.of_nat (List.length (filter (fun a => a_success a = true) imageAnalyses));
    query_optimization_success :=
      from_option q_success false queryOptimizationResult;
    query_enhancement_token_usage :=
      from_option token_usage 0 queryOptimizationResult;
    rag_status := if ragSystemReady env then "active" else "fallback";
    final_analysis_status :=
      if truthy finalReport then "success" else "fallback"
  |}
|}.

(** The [try] block of [processAnalysisTask] (lines 1386-1599): the six
    steps in order. *)
Definition stageSequence (env : Collaborators) (taskId : string)
    (userInfo : UserInfo) (uploadedFiles : list File)
    : M (StoreOp Response) unit :=
  call (OpUpdateTaskStatus PROCESSING "开始数据验证" 10);;
  (* step 1 *)
  (if all_whitespace (nickname userInfo)
   then throw (mkError "昵称不能为空，这是进行情感安全分析的基础信息")
   else mret tt);;
  call (OpUpdateTaskStatus PROCESSING "输入数据验证完成" 20);;
  imageAnalyses ← analyzeImages env uploadedFiles;
  query ← expandQuery env userInfo imageAnalyses;
  let queryOptimizationResult := query.1 in
  let enhancedQuery := query.2 in
  ragKnowledge ← retrieveKnowledge env userInfo imageAnalyses enhancedQuery;
  finalReport ← synthesize env userInfo imageAnalyses ragKnowledge;
  (* step 6 *)
  call (OpUpdateTaskStatus PROCESSING "构建最终响应" 90);;
  call (OpSetTaskResult
          (buildResponse env taskId userInfo imageAnalyses
             queryOptimizationResult ragKnowledge finalReport)).

(** [processAnalysisTask]: the stage sequence under the top-level
    [try]/[catch] (lines 1601-1618), whose handler removes the temporary
    files and calls [setTaskError]. *)
Definition processAnalysisTask (env : Collaborators) (taskId : string)
    (userInfo : UserInfo) (uploadedFiles : list File) : M (StoreOp Response) unit :=
  tryCatch (stageSequence env taskId userInfo uploadedFiles)
           (fun error => call (OpSetTaskError error)).

(** *** The endpoints *)

(** The parsed multipart request: text fields that may be missing, and the
    files multer accepted. *)
Record Request := mkRequest {
  body_nickname : option string;
  body_profession : option string;
  body_age : option string;
  body_bioOrChatHistory : option string;
  files : option (list File)
}.

(** The JSON answer of the submission endpoint; [None] is a key that is
    not in the object. *)
Record SubmitResponse := mkSubmitResponse {
  http_status : Z;
  s_success : bool;
  s_error : option string;
  s_task_id : option string;
  s_estimated_time : option string;
  s_status_check_url : option string
}.

(** The server process: the task store, the pipelines started by
    [setImmediate] that have not finished (for each task id the store calls
    its run has still to make), and the identifiers [uuidv4()] has given
    out so far. *)
Record ServerState := mkServerState {
  taskStorage : gmap string (Task InputData Response);
  inflight : gmap string (list (StoreOp Response));
  issued : gset string
}.

Definition initialState : ServerState := mkServerState ∅ ∅ ∅.

(** [app.post('/api/generate_warning_report')] (lines 1696-1782).  [taskId]
    is what [uuidv4()] returns if it is called, [env] how the collaborators
    will behave for this task. *)
Definition generate_warning_report (env : Collaborators) (taskId : string)
    (now : Z) (req : Request) (σ : ServerState)
    : SubmitResponse * ServerState :=
  let userInfo := {|
    nickname := or_str (default "" (body_nickname req)) "";
    profession := or_str (default "" (body_profession req)) "";
    age := or_str (default "" (body_age req)) "";
    bioOrChatHistory := or_str (default "" (body_bioOrChatHistory req)) ""
  |} in
  if all_whitespace (nickname userInfo) then
    ({| http_status := 400;
        s_success := false;
        s_error := Some "昵称不能为空，这是进行情感安全分析的基础信息";
        s_task_id := None;
        s_estimated_time := None;
        s_status_check_url := None |}, σ)
  else
    let uploadedFiles := default [] (files req) in
    let created :=
      createTask taskId now
        {| i_userInfo := userInfo;
           filesCount := Z.of_nat (List.length uploadedFiles);
           submittedAt := now |}
        (taskStorage σ) in
    let estimatedTime :=
      Z.max 30 (Z.of_nat (List.length uploadedFiles) * 20 + 60) in
    ({| http_status := 200;
        s_success := true;
        s_error := None;
        s_task_id := Some created.1;
        s_estimated_time := Some (pretty estimatedTime ++ " 秒");
        s_status_check_url := Some ("/api/report_status/" ++ created.1) |},
     {| taskStorage := created.2;
        inflight :=
          <[created.1 :=
              calls (processAnalysisTask env created.1 userInfo uploadedFiles)]>
            (inflight σ);
        issued := {[taskId]} ∪ issued σ |}).

(** The body of a 200 answer of the status endpoint. *)
Record StatusPayload := mkStatusPayload {
  st_success : bool;
  st_task_id : string;
  st_status : string;
  st_progress : Z;
  st_current_step : string;
  st_created_at : Z;
  st_updated_at : Z;
  st_completed : option bool;
  st_failed : option bool;
  st_result : option Response;
  st_error : option ErrorField;
  st_processing_time : option Z;
  st_fallback_report : option Json;
  st_message : option string
}.

Inductive StatusResponse : Type :=
  | NotFound (error : string) (task_id : string)      (* status 404 *)
  | Ok (payload : StatusPayload).                     (* status 200 *)

(** [app.get('/api/report_status/:taskId')] (lines 1952-2006). *)
Definition report_status (taskId : string) (σ : ServerState) : StatusResponse :=
  match getTask taskId (taskStorage σ) with
  | None => NotFound "任务不存在或已过期" taskId
  | Some task =>
      let response := mkStatusPayload true taskId (status_string (status task))
        (progress task) (current_step task) (created_at task) (updated_at task)
      in
      if bool_decide (status task = COMPLETED) && bool_decide (is_Some (result task))
      then
        Ok (response (Some true) None (result task) None
              (Some (processing_time task)) None None)
      else if bool_decide (status task = FAILED) then
        Ok (response (Some true) (Some true) None (error task)
              (Some (processing_time task)) (Some generateFallbackReport) None)
      else
        Ok (response (Some false) None None None None None
              (Some (or_str (current_step task) "任务处理中...")))
  end.

(** One handler or callback of the process running to its next await.
    Between two store calls of one pipeline anything else may run. *)
Inductive step : ServerState → ServerState → Prop :=
  | step_submit env taskId now req σ :
      taskId ∉ issued σ →
      step σ (generate_warning_report env taskId now req σ).2
  | step_pipeline taskId now op rest σ :
      inflight σ !! taskId = Some (op :: rest) →
      step σ {| taskStorage := perform taskId now op (taskStorage σ);
                inflight := <[taskId := rest]> (inflight σ);
                issued := issued σ |}
  | step_cleanup now σ :
      step σ {| taskStorage := cleanupOldTasks now (taskStorage σ);
                inflight := inflight σ;
                issued := issued σ |}
  | step_status (taskId : string) σ :
      step σ σ.

Definition reachable (σ : ServerState) : Prop := rtc step initialState σ.

End Server.

(** ** src/api/server.js: the serverless variant *)

Module Api.
Import Js TaskStore Effects.

Record UserInfo := mkUserInfo {
  nickname : string;
  profession : string;
  age : string;
  bioOrChatHistory : string
}.

(** How the inline python process ends; spawn is given a 30 s [timeout],
    after which the process is killed and closes without an exit code. *)
Inductive ProcessRun : Type :=
  | SpawnThrows (e : Error)                    (* the promise executor throws *)
  | ErrorEvent (e : Error)                     (* pythonProcess.on('error') *)
  | CloseEvent (code : option Z) (outputData errorData : string).

(** The external collaborators: the spawned process, [JSON.parse] ([None]:
    it throws) and the chat completion, which settles to the text of the
    first choice or rejects. *)
Record Collaborators := mkCollaborators {
  spawn : string → string → ProcessRun;
  JSON_parse : string → option Json;
  chat_completion : UserInfo → Json → Promise string
}.

Definition ragFallback (error answer : string) : Json :=
  JObj [("error", JStr error); ("answer", JStr answer);
        ("sources", JArr []); ("sources_count", JNum 0)].

(** [callRAGSystemVercel] (lines 98-208).  An exception inside the promise
    executor rejects the promise, which the [try] around [return new
    Promise(...)] does not observe. *)
Definition callRAGSystemVercel (env : Collaborators) (query context : string)
    : Promise Json :=
  match spawn env query context with
  | SpawnThrows e => Rejected e
  | CloseEvent code outputData errorData =>
      if bool_decide (code = Some 0) && negb (all_whitespace outputData) then
        match JSON_parse env outputData with
        | Some result => Resolved result
        | None =>
            Resolved (ragFallback "解析响应失败"
                        "系统暂时无法访问知识库，请稍后重试。")
        end
      else
        Resolved (ragFallback "RAG查询失败"
                    "基于一般经验的建议：建议您在表达观点时注意方式方法，保持开放和理解的态度。")
  | ErrorEvent error =>
      Resolved (ragFallback (message error) "系统暂时不可用，请稍后重试。")
  end.

(** [generateFinalReport] (lines 211-273): both [try] blocks end in a
    [return]. *)
Definition generateFinalReport (env : Collaborators) (userInfo : UserInfo)
    (ragResult : Json) : Promise Json :=
  let unavailable :=
    JObj [("risk_level", JStr "无法评估");
          ("key_findings", JObj [("system_error", JStr "系统暂时不可用")]);
          ("final_suggestion", JStr "请稍后重试或联系技术支持。");
          ("confidence_level", JStr "低")] in
  match getField "answer" ragResult with
  | None => Resolved unavailable
  | Some answer =>
      match chat_completion env userInfo answer with
      | Rejected error => Resolved unavailable
      | Resolved reportText =>
          match JSON_parse env reportText with
          | Some report => Resolved report
          | None =>
              Resolved (JObj [
                ("risk_level", JStr "中等风险");
                ("key_findings", JObj [
                   ("bio_analysis", JStr "基于用户描述进行了基础分析。");
                   ("behavior_patterns", JStr "需要更多信息进行深入评估。")]);
                ("final_suggestion", JStr "建议在交往过程中保持理性观察，注意沟通方式的平衡。");
                ("confidence_level", JStr "中")])
          end
      end
  end.

Record RagAnalysis := mkRagAnalysis {
  ra_status : string;
  sources_count : Json;
  knowledge_answer : Json;
  knowledge_references : Json
}.

(** The object given to [setTaskResult] (its [timestamp] and the constant
    [system_info] are not represented). *)
Record Result := mkResult {
  r_success : bool;
  r_user_info : UserInfo;
  r_rag_analysis : RagAnalysis;
  r_final_report : Json
}.

Definition or_json (a b : Json) : Json := if truthy a then a else b.

(** The [try] block of [processAnalysisVercel] (lines 351-383). *)
Definition stageSequence (env : Collaborators) (taskId : string)
    (userInfo : UserInfo) : M (StoreOp Result) unit :=
  ragResult ←
    await (callRAGSystemVercel env (bioOrChatHistory userInfo)
             ("用户基本信息: " ++ nickname userInfo ++ ", " ++ profession userInfo
              ++ ", " ++ age userInfo ++ "岁"));
  finalReport ← await (generateFinalReport env userInfo ragResult);
  match ragResult with
  | JNull => throw (mkError "Cannot read properties of null (reading 'error')")
  | _ =>
      let field key := default JNull (getField key ragResult) in
      let result := {|
        r_success := true;
        r_user_info := userInfo;
        r_rag_analysis := {|
          ra_status := if truthy (field "error") then "error" else "active";
          sources_count := or_json (field "sources_count") (JNum 0);
          knowledge_answer := or_json (field "answer") (JStr "");
          knowledge_references := or_json (field "sources") (JArr [])
        |};
        r_final_report := finalReport
      |} in
      call (OpSetTaskResult result)
  end.

Definition processAnalysisVercel (env : Collaborators) (taskId : string)
    (userInfo : UserInfo) : M (StoreOp Result) unit :=
  tryCatch (stageSequence env taskId userInfo)
           (fun error => call (OpSetTaskError error)).

Record Request := mkRequest {
  body_nickname : option string;
  body_profession : option string;
  body_age : option string;
  body_bioOrChatHistory : option string
}.

Record SubmitResponse := mkSubmitResponse {
  http_status : Z;
  s_success : bool;
  s_error : option string;
  s_task_id : option string;
  s_estimated_time : option string;
  s_status_check_url : option string
}.

Record ServerState := mkServerState {
  taskStorage : gmap string (Task UserInfo Result);
  inflight : gmap string (list (StoreOp Result))
}.

(** [app.post('/api/generate_warning_report')] (lines 312-346): the task is
    created from whatever the body holds. *)
Definition generate_warning_report (env : Collaborators) (taskId : string)
    (now : Z) (req : Request) (σ : ServerState)
    : SubmitResponse * ServerState :=
  let userInfo := {|
    nickname := or_str (default "" (body_nickname req)) "";
    profession := or_str (default "" (body_profession req)) "";
    age := or_str (default "" (body_age req)) "";
    bioOrChatHistory := or_str (default "" (body_bioOrChatHistory req)) ""
  |} in
  let created := createTask taskId now userInfo (taskStorage σ) in
  ({| http_status := 200;
      s_success := true;
      s_error := None;
      s_task_id := Some created.1;
      s_estimated_time := Some "30 秒";
      s_status_check_url := Some ("/api/report_status/" ++ created.1) |},
   {| taskStorage := created.2;
      inflight :=
        <[created.1 := calls (processAnalysisVercel env created.1 userInfo)]>
          (inflight σ) |}).

Record StatusPayload := mkStatusPayload {
  st_success : bool;
  st_task_id : string;
  st_status : string;
  st_progress : Z;
  st_current_step : string;
  st_created_at : Z;
  st_updated_at : Z;
  st_completed : option bool;
  st_failed : option bool;
  st_result : option Result;
  st_error : option ErrorField;
  st_processing_time : option Z;
  st_fallback_report : option Json;
  st_message : option string
}.

Inductive StatusResponse : Type :=
  | NotFound (error : string) (task_id : string)
  | Ok (payload : StatusPayload).

(** [app.get('/api/report_status/:taskId')] (lines 392-429). *)
Definition report_status (taskId : string) (σ : ServerState) : StatusResponse :=
  match getTask taskId (taskStorage σ) with
  | None => NotFound "任务不存在或已过期" taskId
  | Some task =>
      let response := mkStatusPayload true taskId (status_string (status task))
        (progress task) (current_step task) (created_at task) (updated_at task)
      in
      if bool_decide (status task = COMPLETED)
         && bool_decide (is_Some (result task))
      then
        Ok (response (Some true) None (result task) None
              (Some (processing_time task)) None None)
      else if bool_decide (status task = FAILED) then
        Ok (response (Some true) (Some true) None (error task) None None None)
      else
        Ok (response (Some false) None None None None None
              (Some (or_str (current_step task) "任务处理中...")))
  end.

End Api.

(** ** The client poller (src/standalone_image_test_server.js, lines 1431-1521) *)

Module Client.
Import Js Effects.

(** The body of a 200 answer of the status endpoint, as the poller reads
    it. *)
Record StatusResult := mkStatusResult {
  sr_status : string;
  sr_progress : Z;
  sr_current_step : string;
  sr_completed : bool;
  sr_failed : bool;
  sr_error : string;
  sr_result : Json
}.

(** What one round trip to the status endpoint gives. *)
Inductive Poll : Type :=
  | FetchRejects (e : Error)          (* [fetch] or [.json()] rejects *)
  | NotOk (status : Z) (statusText : string)
  | Answer (statusResult : StatusResult).

(** The locally held progress indicator. *)
Record TaskStatus := mkTaskStatus {
  ui_taskId : string;
  ui_status : string;
  ui_progress : Z;
  ui_currentStep : string
}.

(** What the poller does that can be observed from outside. *)
Inductive Event : Type :=
  | Fetch (i : nat)                   (* the request of iteration [i] *)
  | SetTaskStatus (s : TaskStatus)
  | Sleep (ms : Z).

Definition maxPolls : nat := 60.
Definition pollInterval : Z := 5000.

Definition or_Z (a b : Z) : Z := if a =? 0 then b else a.

(** The two errors the poller makes itself. *)
Definition statusQueryFailed (status : Z) (statusText : string) : Error :=
  mkError ("状态查询失败: " ++ pretty status ++ " " ++ statusText).

Definition timeoutError : Error := mkError "任务执行超时，请稍后重试".

(** One iteration of the [for] loop: [Some result] is the [return] of the
    function, [None] goes on to the next iteration. *)
Definition pollIteration (responses : nat → Poll) (taskId : string) (i : nat)
    : M Event (option Json) :=
  tryCatch
    (call (Fetch i);;
     statusResult ←
       match responses i with
       | FetchRejects e => throw e
       | NotOk status statusText =>
           throw (statusQueryFailed status statusText)
       | Answer statusResult => mret statusResult
       end;
     call (SetTaskStatus
             (mkTaskStatus taskId "processing"
                (or_Z (sr_progress statusResult) 0)
                (or_str (sr_current_step statusResult) "处理中...")));;
     if sr_completed statusResult then
       if sr_failed statusResult then
         call (SetTaskStatus (mkTaskStatus taskId "failed" 0 "任务执行失败"));;
         throw (mkError (or_str (sr_error statusResult) "分析任务失败"))
       else
         call (SetTaskStatus (mkTaskStatus taskId "completed" 100 "分析完成"));;
         mret (Some (sr_result statusResult))
     else
       (if bool_decide (i < maxPolls - 1)%nat
        then call (Sleep pollInterval)
        else mret tt);;
       mret None)
    (fun pollError =>
       if bool_decide (i = maxPolls - 1)%nat then
         call (SetTaskStatus (mkTaskStatus taskId "failed" 0 "轮询失败"));;
         throw pollError
       else
         call (Sleep 2000);;
         mret None).

(** The [for] loop from iteration [i] on, with [remaining = maxPolls - i]
    iterations to go, and the code after it. *)
Fixpoint pollFrom (responses : nat → Poll) (taskId : string)
    (remaining i : nat) : M Event Json :=
  match remaining with
  | O =>
      call (SetTaskStatus (mkTaskStatus taskId "failed" 0 "任务超时"));;
      throw timeoutError
  | S remaining' =>
      returned ← pollIteration responses taskId i;
      match returned with
      | Some result => mret result
      | None => pollFrom responses taskId remaining' (S i)
      end
  end.

Definition pollTaskStatus (responses : nat → Poll) (taskId : string)
    : M Event Json :=
  call (SetTaskStatus (mkTaskStatus taskId "processing" 0 "开始处理任务..."));;
  pollFrom responses taskId maxPolls 0.

End Client.

(** ** Predicates of the lifecycle *)

Module Lifecycle.
Import Js TaskStore Effects.

Section Scripts.
Context {Result : Type}.

(** [ascending lo hi ops]: [ops] are calls of [updateTaskStatus] with
    status [processing] whose progress values start at [lo] or above, do
    not decrease, and end at [hi] or below. *)
Fixpoint ascending (lo hi : Z) (ops : list (StoreOp Result)) : Prop :=
  match ops with
  | [] => lo ≤ hi
  | OpUpdateTaskStatus st _ q :: rest =>
      st = PROCESSING ∧ lo ≤ q ∧ ascending q hi rest
  | _ => False
  end.

(** [finishing p rem]: what is left of a run whose last progress write
    was [p]: further [processing] updates that do not decrease and stay at
    90 or below, then exactly one terminal write, then nothing. *)
Fixpoint finishing (p : Z) (rem : list (StoreOp Result)) : Prop :=
  match rem with
  | [] => False
  | OpUpdateTaskStatus st _ q :: rest =>
      st = PROCESSING ∧ p ≤ q ≤ 90 ∧ finishing q rest
  | OpSetTaskResult _ :: rest => rest = []
  | OpSetTaskError _ :: rest => rest = []
  end.

(** A run that has not started: it begins by setting [processing]. *)
Definition starting (rem : list (StoreOp Result)) : Prop :=
  match rem with
  | OpUpdateTaskStatus st _ q :: rest =>
      st = PROCESSING ∧ 0 ≤ q ≤ 90 ∧ finishing q rest
  | _ => False
  end.

(** A task record next to what its pipeline has still to do. *)
Definition task_ok {Input} (task : Task Input Result)
    (rem : list (StoreOp Result)) : Prop :=
  match status task with
  | PENDING =>
      progress task = 0 ∧ result task = None ∧ error task = None
      ∧ starting rem
  | PROCESSING =>
      0 ≤ progress task ≤ 90 ∧ result task = None ∧ error task = None
      ∧ finishing (progress task) rem
  | COMPLETED =>
      progress task = 100 ∧ is_Some (result task) ∧ error task = None
      ∧ rem = []
  | FAILED =>
      0 ≤ progress task ≤ 90 ∧ result task = None ∧ is_Some (error task)
      ∧ rem = []
  end.

End Scripts.

(** What a store call does to the record it finds. *)
Definition performTask {Input Result} (now : Z) (op : StoreOp Result)
    (task : Task Input Result) : Task Input Result :=
  match op with
  | OpUpdateTaskStatus st currentStep q =>
      mkTask (id task) st q currentStep (created_at task) now
             (input_data task) (result task) (error task)
             (processing_time task)
  | OpSetTaskResult r =>
      mkTask (id task) COMPLETED 100 (current_step task) (created_at task) now
             (input_data task) (Some r) (error task) (now - created_at task)
  | OpSetTaskError e =>
      mkTask (id task) FAILED (progress task) (current_step task)
             (created_at task) now (input_data task) (result task)
             (Some (errorField e)) (now - created_at task)
  end.

(** The record after a whole run, the [k]-th call at clock reading
    [clock k]. *)
Fixpoint performAllTask {Input Result} (clock : nat → Z) (k : nat)
    (ops : list (StoreOp Result)) (task : Task Input Result)
    : Task Input Result :=
  match ops with
  | [] => task
  | op :: rest => performAllTask clock (S k) rest (performTask (clock k) op task)
  end.

(** What an awaited call leaves in a variable whose [catch] assigns
    [fallback]. *)
Definition settled_or {A} (fallback : A) (p : Promise A) : A :=
  match p with
  | Resolved v => v
  | Rejected _ => fallback
  end.

Section Outcomes.
Import Server.
Variable env : Collaborators.

(** The values the steps of the pipeline leave behind. *)
Definition queryOf (userInfo : UserInfo) (imageAnalyses : list Analysis)
    : option QueryOptimization * option string :=
  match enhanceQueryWithAI env userInfo imageAnalyses with
  | Resolved q => (Some q, Some (enhanced_query q))
  | Rejected _ =>
      (None,
       Some (or_str (bioOrChatHistory userInfo)
               (nickname userInfo ++ " " ++ profession userInfo
                ++ " 情感安全分析")))
  end.

Definition knowledgeOf (userInfo : UserInfo) (imageAnalyses : list Analysis)
    (enhancedQuery : option string) : Json :=
  if ragSystemReady env then
    settled_or generateFallbackReport
      (callRAGSystem env userInfo imageAnalyses enhancedQuery)
  else generateFallbackReport.

Definition reportOf (userInfo : UserInfo) (imageAnalyses : list Analysis)
    (ragKnowledge : Json) : Json :=
  settled_or generateFallbackReport
    (generateFinalReportWithGPT4o env userInfo imageAnalyses ragKnowledge).

Definition responseOf (taskId : string) (userInfo : UserInfo)
    (imageAnalyses : list Analysis) : Response :=
  let query := queryOf userInfo imageAnalyses in
  let ragKnowledge := knowledgeOf userInfo imageAnalyses query.2 in
  buildResponse env taskId userInfo imageAnalyses query.1 ragKnowledge
    (reportOf userInfo imageAnalyses ragKnowledge).

(** A call that failed: the promise rejected, or it resolved to an object
    that reports failure. *)
Definition failed {A} (ok : A → bool) (p : Promise A) : Prop :=
  match p with
  | Rejected _ => True
  | Resolved v => ok v = false
  end.

(** The retrieval process failed: it could not be started, raised an
    error, timed out, exited with a code other than 0, printed something
    that is not JSON, or printed a reply whose [success] is not truthy. *)
Definition retrieval_failed (run : ProcessRun) : Prop :=
  match run with
  | CloseEvent code outputData _ =>
      code ≠ Some 0
      ∨ match parseOutput env outputData with
        | None => True
        | Some reply =>
            match getField "success" reply with
            | None => True
            | Some success => truthy success = false
            end
        end
  | _ => True
  end.

(** Every collaborator call the pipeline makes fails.  (Once
    classification fails the three analysers are not called.)  The report
    generator fails by rejecting or by resolving to the fallback report of
    its own [catch]. *)
Record collaborators_fail : Prop := {
  classification_fails :
    ∀ filePath name, failed c_success (classifyImageWithGPT4o env filePath name);
  expansion_fails :
    ∀ userInfo imageAnalyses,
      failed q_success (enhanceQueryWithAI env userInfo imageAnalyses);
  retrieval_fails : ∀ input, retrieval_failed (spawn env input);
  synthesis_fails :
    ∀ userInfo imageAnalyses ragKnowledge,
      settled_or generateFallbackReport
        (generateFinalReportWithGPT4o env userInfo imageAnalyses ragKnowledge)
      = generateFallbackReport
}.

(** A retrieval payload that is a fallback: the fixed report, or the
    [fallback_report] the failing process sent itself. *)
Definition fallback_knowledge (v : Json) : Prop :=
  v = generateFallbackReport
  ∨ ∃ input outputData errorData reply,
      spawn env input = CloseEvent (Some 0) outputData errorData
      ∧ parseOutput env outputData = Some reply
      ∧ getField "fallback_report" reply = Some v.

(** An image analysis that is the marker of a failure. *)
Definition error_marked (a : Analysis) : Prop :=
  a_success a = false ∧ a_classification a = Some "error".

(** A result made of fallbacks only. *)
Definition fallback_based (response : Response) : Prop :=
  Forall error_marked (r_image_analyses response)
  ∧ q_success (r_query_optimization response) = false
  ∧ fallback_knowledge (r_rag_knowledge response)
  ∧ r_final_report response = generateFallbackReport.

End Outcomes.

(** The invariant of the server of src/server.js: identifiers in use were
    given out by [uuidv4()], and every record agrees with what is left of
    its pipeline. *)
Definition invariant (σ : Server.ServerState) : Prop :=
  (∀ taskId, is_Some (Server.taskStorage σ !! taskId) → taskId ∈ Server.issued σ)
  ∧ (∀ taskId, is_Some (Server.inflight σ !! taskId) → taskId ∈ Server.issued σ)
  ∧ (∀ taskId task, Server.taskStorage σ !! taskId = Some task →
       task_ok task (default [] (Server.inflight σ !! taskId))).

(** *** The poller, seen from outside *)

Section Poller.
Import Client.

(** The number of requests among the events. *)
Fixpoint fetches (events : list Event) : nat :=
  match events with
  | [] => O
  | Fetch _ :: rest => S (fetches rest)
  | _ :: rest => fetches rest
  end.

(** The waits among the events, in order. *)
Fixpoint waits (events : list Event) : list Z :=
  match events with
  | [] => []
  | Sleep ms :: rest => ms :: waits rest
  | _ :: rest => waits rest
  end.

(** What a caller and the network see of a run: the waits, the number of
    requests, and how the call ended. *)
Definition observe (run : M Event Json) : list Z * nat * Completion Json :=
  (waits (calls run), fetches (calls run), completion run).

Definition after (ms : option Z) (later : list Z * nat * Completion Json)
    : list Z * nat * Completion Json :=
  (match ms with Some w => w :: later.1.1 | None => later.1.1 end,
   S later.1.2, later.2).

(** The contract of the poller, poll by poll, from poll [i] on with
    [remaining] polls left: a non-terminal answer is followed by a wait of
    5 s and a failed request by a wait of 2 s, unless it was the 60th
    poll; an answer reporting completed and not failed ends the run with
    its result; when the 60th poll fails its error is thrown, and when it
    is answered without a terminal status the timeout error is thrown.
    The contract says nothing ([None]) about a run in which an answer
    reports a failed task. *)
Fixpoint contractFrom (responses : nat → Poll) (remaining i : nat)
    : option (list Z * nat * Completion Json) :=
  match remaining with
  | O => Some ([], O, Throw timeoutError)
  | S remaining' =>
      let lastPoll := bool_decide (i = 59)%nat in
      let later := contractFrom responses remaining' (S i) in
      match responses i with
      | Answer statusResult =>
          if sr_completed statusResult then
            if sr_failed statusResult then None
            else Some ([], 1%nat, Normal (sr_result statusResult))
          else
            after (if bool_decide (i < 59)%nat then Some 5000 else None)
              <$> later
      | FetchRejects e =>
          if lastPoll then Some ([], 1%nat, Throw e)
          else after (Some 2000) <$> later
      | NotOk status statusText =>
          if lastPoll
          then Some ([], 1%nat, Throw (statusQueryFailed status statusText))
          else after (Some 2000) <$> later
      end
  end.

Definition pollerContract (responses : nat → Poll)
    : option (list Z * nat * Completion Json) :=
  contractFrom responses 60 0.

End Poller.

End Lifecycle.

(** ** Concrete runs, used to exercise the statements *)

Module Scenario.
Import Js TaskStore Effects.

Definition down : Error := mkError "service unavailable".

(** Collaborators that all fail: the language-model calls reject and the
    retrieval process times out. *)
Definition failing : Server.Collaborators := {|
  Server.classifyImageWithGPT4o := fun _ _ => Rejected down;
  Server.analyzeChatImageWithGPT4o := fun _ _ => Rejected down;
  Server.analyzePhotoImageWithGPT4o := fun _ _ => Rejected down;
  Server.analyzeImageWithGPT4o := fun _ _ => Rejected down;
  Server.enhanceQueryWithAI := fun _ _ => Rejected down;
  Server.generateFinalReportWithGPT4o := fun _ _ _ => Rejected down;
  Server.ragSystemReady := true;
  Server.RAG_DIAGNOSTIC_MODE := false;
  Server.spawn := fun _ => Server.Timeout;
  Server.parseOutput := fun _ => None;
  Server.ragLogThrows := fun _ => false
|}.

Definition alice : Server.UserInfo := Server.mkUserInfo "Alice" "" "" "".

Definition photo : Server.File := Server.mkFile "uploads/a.png" "a.png" 2048 true.

Definition aliceRequest : Server.Request :=
  Server.mkRequest (Some "Alice") None None None (Some [photo]).

Definition blankRequest : Server.Request :=
  Server.mkRequest (Some "   ") (Some "engineer") None None None.

(** The server after Alice's submission at time 1000. *)
Definition submitted : Server.ServerState :=
  (Server.generate_warning_report failing "task-1" 1000 aliceRequest
     Server.initialState).2.

Definition aliceTask : Task Server.InputData Server.Response :=
  mkTask "task-1" PENDING 0 "" 1000 1000
    (Server.mkInputData alice 1 1000) None None 0.

Definition aliceScript : list (StoreOp Server.Response) :=
  calls (Server.processAnalysisTask failing "task-1" alice [photo]).

(** The server after the first store call of her pipeline at time 1001. *)
Definition started : Server.ServerState := {|
  Server.taskStorage :=
    perform "task-1" 1001
      (OpUpdateTaskStatus PROCESSING "开始数据验证" 10)
      (Server.taskStorage submitted);
  Server.inflight := <["task-1" := tail aliceScript]> (Server.inflight submitted);
  Server.issued := Server.issued submitted
|}.

Definition ticking (k : nat) : Z := 2000 + Z.of_nat k.

(** The server after all store calls of her pipeline. *)
Definition finished : Server.ServerState := {|
  Server.taskStorage :=
    performAll "task-1" ticking 0 aliceScript (Server.taskStorage submitted);
  Server.inflight := <["task-1" := []]> (Server.inflight submitted);
  Server.issued := Server.issued submitted
|}.

Definition aliceDone : Task Server.InputData Server.Response :=
  Lifecycle.performAllTask ticking 0 aliceScript aliceTask.

(** The sweep of one hour and one millisecond after her submission. *)
Definition sweepTime : Z := 1000 + 3600000 + 1.

Definition swept : Server.ServerState := {|
  Server.taskStorage := cleanupOldTasks sweepTime (Server.taskStorage submitted);
  Server.inflight := Server.inflight submitted;
  Server.issued := Server.issued submitted
|}.

(** A store that holds a failed task, for each of the two servers. *)
Definition failedTask : Task Server.InputData Server.Response :=
  mkTask "task-2" FAILED 10 "开始数据验证" 1000 1500
    (Server.mkInputData alice 0 1000) None
    (Some (ErrMessage "昵称不能为空，这是进行情感安全分析的基础信息")) 500.

Definition withFailed : Server.ServerState :=
  Server.mkServerState {["task-2" := failedTask]} ∅ {["task-2"]}.

Definition blankUser : Api.UserInfo := Api.mkUserInfo "" "" "" "".

Definition vercelFailedTask : Task Api.UserInfo Api.Result :=
  mkTask "task-2" FAILED 0 "" 1000 1500 blankUser None
    (Some (ErrMessage "spawn python3 ENOENT")) 500.

Definition vercelWithFailed : Api.ServerState :=
  Api.mkServerState {["task-2" := vercelFailedTask]} ∅.

Definition vercelBlankRequest : Api.Request :=
  Api.mkRequest (Some "") None None None.

(** Collaborators of the serverless variant that work. *)
Definition working : Api.Collaborators := {|
  Api.spawn := fun _ _ => Api.CloseEvent (Some 0) "{}" "";
  Api.JSON_parse := fun _ => Some (JObj []);
  Api.chat_completion := fun _ _ => Resolved "{}"
|}.

Definition vercelEmpty : Api.ServerState := Api.mkServerState ∅ ∅.

(** Status streams for the poller. *)
Definition blips : nat → Client.Poll :=
  fun _ => Client.FetchRejects (mkError "network blip").

Definition failedAnswer : Client.StatusResult :=
  Client.mkStatusResult "failed" 10 "开始数据验证" true true "boom" JNull.

Definition alwaysFailed : nat → Client.Poll :=
  fun _ => Client.Answer failedAnswer.

Definition doneAnswer : Client.StatusResult :=
  Client.mkStatusResult "completed" 100 "构建最终响应" true false ""
    (JObj [("success", JBool true)]).

Definition runningAnswer : Client.StatusResult :=
  Client.mkStatusResult "processing" 60 "RAG知识库检索中" false false "" JNull.

(** A blip, then an answer in progress, then the completed answer. *)
Definition blipThenDone (i : nat) : Client.Poll :=
  match i with
  | O => Client.FetchRejects (mkError "network blip")
  | S O => Client.Answer runningAnswer
  | _ => Client.Answer doneAnswer
  end.

End Scenario.

(** ** Further predicates on the servers *)

Module Coverage.
Import Js TaskStore Effects.

(** The record [createTask] stores. *)
Definition freshTask {Input Result} (taskId : string) (now : Z)
    (input : Input) : Task Input Result :=
  mkTask taskId PENDING 0 "" now now input None None 0.

(** A store call that is a [processing] update or [setTaskResult]. *)
Definition progress_or_result {Result} (op : StoreOp Result) : Prop :=
  match op with
  | OpUpdateTaskStatus st _ _ => st = PROCESSING
  | OpSetTaskResult _ => True
  | OpSetTaskError _ => False
  end.

(** Behind the submission endpoint of src/server.js: no pipeline in
    flight has [setTaskError] among the store calls it has still to make,
    and no record is [failed]. *)
Definition never_failing (σ : Server.ServerState) : Prop :=
  (∀ taskId rem, Server.inflight σ !! taskId = Some rem →
     Forall progress_or_result rem)
  ∧ (∀ taskId task, Server.taskStorage σ !! taskId = Some task →
       status task ≠ FAILED).

(** The sum of the waits of a run, in milliseconds. *)
Definition totalWait (waits : list Z) : Z := foldr Z.add 0 waits.

(** The last value given to the progress indicator. *)
Fixpoint lastIndicator (events : list Client.Event) : option Client.TaskStatus :=
  match events with
  | [] => None
  | Client.SetTaskStatus s :: rest =>
      match lastIndicator rest with
      | Some later => Some later
      | None => Some s
      end
  | _ :: rest => lastIndicator rest
  end.

End Coverage.

(** ** src/api/server.js: the endpoints beside the task lifecycle *)

Module ApiEndpoints.
Import Js.

(** *** [app.get('/api/rag-status')] (lines 288-309)

    [process_env name] is [process.env[name]]; [None] stands for
    [undefined]. *)

Definition requiredVars : list string :=
  ["CLOUDFLARE_ACCOUNT_ID"; "R2_ACCESS_KEY_ID"; "R2_SECRET_ACCESS_KEY";
   "BUCKET_NAME"].

(** The truthiness of [process.env[varName]]. *)
Definition configured (process_env : string → option string)
    (varName : string) : bool :=
  match process_env varName with
  | Some value => negb (String.eqb value "")
  | None => false
  end.

Record RagStatus := mkRagStatus {
  rag_system_ready : bool;
  storage_type : string;
  environment_variables : list (string * string);
  missing_variables : list string;
  instructions : string
}.

(** The body of the [forEach]: one more entry of [envStatus], and one more
    of [missingVars] when the variable is not set. *)
Definition checkVar (process_env : string → option string)
    (acc : list (string * string) * list string) (varName : string)
    : list (string * string) * list string :=
  let value := configured process_env varName in
  ((acc.1 ++ [(varName, if value then "已配置" else "缺失")])%list,
   if value then acc.2 else (acc.2 ++ [varName])%list).

Definition rag_status (process_env : string → option string) : RagStatus :=
  let checked := foldl (checkVar process_env) ([], []) requiredVars in
  let missingVars := checked.2 in
  {| rag_system_ready := bool_decide (List.length missingVars = 0%nat);
     storage_type := "cloudflare_r2_vercel";
     environment_variables := checked.1;
     missing_variables := missingVars;
     instructions :=
       if bool_decide (List.length missingVars = 0%nat)
       then "R2 RAG系统已配置，Vercel环境就绪"
       else "需要在Vercel项目设置中配置环境变量: "
            ++ String.concat ", " missingVars |}.

(** *** [app.post('/api/post_date_debrief')] (lines 432-487)

    The request after multer: the text field, and the audio file if one
    was uploaded.  [coach_completion userInput] is what
    [(await openai.chat.completions.create(...)).choices[0].message.content]
    gives for the prompt built from [userInput]: the content, or the error
    that the call or the property access throws. *)

Record AudioFile := mkAudioFile {
  originalname : string;
  size : Z
}.

Record DebriefRequest := mkDebriefRequest {
  body_user_input : option string;
  file : option AudioFile
}.

Record DebriefResponse := mkDebriefResponse {
  d_status : Z;
  d_success : bool;
  d_error : option string;
  d_response : option Json
}.

Definition post_date_debrief (coach_completion : string → Promise Json)
    (req : DebriefRequest) : DebriefResponse :=
  let userInput := or_str (default "" (body_user_input req)) "" in
  if all_whitespace userInput then
    mkDebriefResponse 400 false (Some "请提供咨询内容") None
  else
    match coach_completion userInput with
    | Resolved coachResponse =>
        mkDebriefResponse 200 true None (Some coachResponse)
    | Rejected error =>
        mkDebriefResponse 500 false (Some "处理失败，请稍后重试") None
    end.

End ApiEndpoints.

(** ** src/server.js: the post-date debrief (lines 2333-3173)

    The calls to the outside (transcription, chat provider, query
    expansion, retrieval process) are recorded in order, so that one can
    say which of them a request causes. *)

Module Debrief.
Import Js Effects.

(** *** Strings *)

Definition newline : string := String (ascii_of_N 10) "".

(** [s.trimStart()], on the UTF-8 bytes of [s]; the white space is that of
    [all_whitespace]. *)
Fixpoint trimStart (s : string) : string :=
  match s with
  | EmptyString => EmptyString
  | String c rest =>
      if ascii_whitespace c then trimStart rest
      else
        match rest with
        | String c2 rest2 =>
            if byte 194 c && byte 160 c2 then trimStart rest2
            else
              match rest2 with
              | String c3 rest3 =>
                  let n3 := N_of_ascii c3 in
                  if byte 225 c && byte 154 c2 && byte 128 c3
                     || byte 226 c && byte 128 c2 &&
                        ((128 <=? n3) && (n3 <=? 138) || (n3 =? 168)
                         || (n3 =? 169) || (n3 =? 175))%N
                     || byte 226 c && byte 129 c2 && byte 159 c3
                     || byte 227 c && byte 128 c2 && byte 128 c3
                     || byte 239 c && byte 187 c2 && byte 191 c3
                  then trimStart rest3
                  else s
              | EmptyString => s
              end
        | EmptyString => s
        end
  end.

(** [s.trimEnd()]: the shortest prefix after which only white space
    follows. *)
Fixpoint trimEnd (s : string) : string :=
  match s with
  | EmptyString => EmptyString
  | String c rest =>
      if all_whitespace s then EmptyString else String c (trimEnd rest)
  end.

Definition trim (s : string) : string := trimEnd (trimStart s).

(** [s.length]: the number of UTF-16 code units of the text whose UTF-8
    bytes are [s]. *)
Fixpoint String_length (s : string) : Z :=
  match s with
  | EmptyString => 0
  | String c rest =>
      let n := N_of_ascii c in
      (if (128 <=? n)%N && (n <? 192)%N then 0
       else if (240 <=? n)%N then 2 else 1)
      + String_length rest
  end.

(** [s.replace(/\n{4,}/g, '\n\n\n')]: of every run of line feeds the first
    three are kept; [run] is the number of line feeds just before [s]. *)
Fixpoint limitNewlines (run : nat) (s : string) : string :=
  match s with
  | EmptyString => EmptyString
  | String c rest =>
      if byte 10 c then
        if (run <? 3)%nat then String c (limitNewlines (S run) rest)
        else limitNewlines run rest
      else String c (limitNewlines 0 rest)
  end.

(** The length of the longest run of consecutive line feeds in [s], when
    [run] line feeds come just before it. *)
Fixpoint longestRun (run : nat) (s : string) : nat :=
  match s with
  | EmptyString => run
  | String c rest =>
      if byte 10 c then longestRun (S run) rest
      else run `max` longestRun 0 rest
  end.

(** [formatCoachResponse] (lines 2643-2653). *)
Definition formatCoachResponse (response : string) : string :=
  trim (limitNewlines 0 response).

(** [needle] occurs in [haystack]: [haystack.includes(needle)]. *)
Fixpoint includes (needle haystack : string) : bool :=
  String.prefix needle haystack
  || match haystack with
     | EmptyString => false
     | String _ rest => includes needle rest
     end.

(** [array.slice(-n)]. *)
Definition lastN {A} (n : nat) (items : list A) : list A :=
  drop (List.length items - n) items.

(** [v === text] *)
Definition is_string (text : string) (v : Json) : bool :=
  match v with
  | JStr s => String.eqb s text
  | _ => false
  end.

(** [v.length] *)
Definition lengthOf (v : Json) : Json :=
  match v with
  | JArr items => JNum (inject_Z (Z.of_nat (List.length items)))
  | JStr s => JNum (inject_Z (String_length s))
  | JObj fields => assoc "length" fields
  | _ => JNull
  end.

(** [v?.key] *)
Definition optField (key : string) (v : Json) : Json :=
  default JNull (getField key v).

(** *** The collaborators *)

Record AudioFile := mkAudioFile {
  originalname : string;
  size : Z
}.

(** What [transcribeAudioWithWhisper] resolves to. *)
Record Transcription := mkTranscription {
  t_success : bool;
  transcription : string;
  t_error : string
}.

(** A message of a chat request, after the system message. *)
Record Message := mkMessage {
  role : string;
  content : Json
}.

(** The system message of a chat request: each of the three callers has
    its own, a constant text for the first two. *)
Inductive SystemPrompt : Type :=
  | IntentPrompt
  | SimpleReplyPrompt
  | CoachPrompt (systemPrompt : string).

(** What the callers read of a chat completion: [first_content] is
    [completion.choices[0].message.content] used as a string ([Throw]: the
    TypeError of a missing choice or a [null] content), [total_tokens] is
    [completion.usage?.total_tokens]. *)
Record ChatCompletion := mkChatCompletion {
  first_content : Completion string;
  total_tokens : option Z;
  model : string
}.

(** How the retrieval process ends; the 300 s timer kills the process,
    which then closes without an exit code. *)
Inductive ProcessRun : Type :=
  | SpawnThrows (e : Error)
  | ErrorEvent (e : Error)
  | CloseEvent (code : option Z) (stdout stderr : string).

Record Collaborators := mkCollaborators {
  transcribeAudioWithWhisper : AudioFile → Promise Transcription;
  openai_chat : SystemPrompt → list Message → Promise ChatCompletion;
  enhanceQueryWithAI :
    Server.UserInfo → list Server.Analysis → Promise Server.QueryOptimization;
  spawn : string → ProcessRun;
  JSON_parse : string → option Json;
  JSON_parse_error : string → Error;
  (* the statistics logging of the retrieval call, which only prints *)
  ragLogThrows : Json → option Error;
  createEmotionalCoachSystemPrompt : Json → Completion string
}.

(** A call to the outside. *)
Inductive Call : Type :=
  | Transcribe (file : AudioFile)
  | Chat (system : SystemPrompt) (messages : list Message)
  | EnhanceQuery (userInfo : Server.UserInfo)
  | Retrieve (enhancedQuery : string).

Definition settle {A} (c : Completion A) : M Call A :=
  match c with
  | Normal v => mret v
  | Throw e => throw e
  end.

Section Functions.
Variable env : Collaborators.

(** [callPostDateRAGSystemWithEnhancedQuery] (lines 2333-2472): unlike
    [callRAGSystem], its callbacks reject. *)
Definition callPostDateRAGSystemWithEnhancedQuery (enhancedQuery : string)
    : Promise Json :=
  match spawn env enhancedQuery with
  | SpawnThrows error => Rejected error
  | ErrorEvent error => Rejected error
  | CloseEvent code stdout stderr =>
      if bool_decide (code = Some 0) then
        match JSON_parse env stdout with
        | None => Rejected (JSON_parse_error env stdout)
        | Some ragResult =>
            match ragResult with
            | JNull =>
                Rejected
                  (mkError "Cannot read properties of null (reading 'success')")
            | _ =>
                match ragLogThrows env ragResult with
                | Some parseError => Rejected parseError
                | None => Resolved ragResult
                end
            end
        end
      else
        Rejected (mkError ("RAG进程异常退出: "
                           ++ from_option pretty "null" code))
  end.

Record IntentResult := mkIntentResult {
  i_success : bool;
  intent : string;
  i_error : option string;
  i_tokens_used : Z
}.

(** [classifyUserIntent] (lines 2656-2723). *)
Definition classifyUserIntent (userInput : string) : M Call IntentResult :=
  tryCatch
    (let messages := [mkMessage "user" (JStr userInput)] in
     call (Chat IntentPrompt messages);;
     completion ← await (openai_chat env IntentPrompt messages);
     text ← settle (first_content completion);
     let intent := trim text in
     if String.eqb intent "DEEP_ANALYSIS" || String.eqb intent "SIMPLE_REPLY"
     then mret (mkIntentResult true intent None
                  (default 0 (total_tokens completion)))
     else mret (mkIntentResult true "DEEP_ANALYSIS" None
                  (default 0 (total_tokens completion))))
    (fun error =>
       mret (mkIntentResult false "DEEP_ANALYSIS" (Some (message error)) 0)).

Record SimpleReply := mkSimpleReply {
  s_success : bool;
  s_response : option string;
  s_error : option string;
  s_fallback_response : option string;
  s_tokens_used : Z
}.

(** The [forEach] of [generateSimpleReply] over the recent history. *)
Fixpoint simpleHistory (recentHistory : list Json) : M Call (list Message) :=
  match recentHistory with
  | [] => mret []
  | msg :: rest =>
      match getField "sender" msg with
      | None =>
          throw (mkError "Cannot read properties of null (reading 'sender')")
      | Some sender =>
          later ← simpleHistory rest;
          if is_string "user" sender then
            mret (mkMessage "user" (optField "content" msg) :: later)
          else if is_string "assistant" sender then
            mret (mkMessage "assistant" (optField "content" msg) :: later)
          else mret later
      end
  end.

(** [generateSimpleReply] (lines 2726-2787). *)
Definition generateSimpleReply (conversationHistory : list Json)
    (userInput : string) : M Call SimpleReply :=
  tryCatch
    (history ← simpleHistory (lastN 5 conversationHistory);
     let messages := (history ++ [mkMessage "user" (JStr userInput)])%list in
     call (Chat SimpleReplyPrompt messages);;
     completion ← await (openai_chat env SimpleReplyPrompt messages);
     text ← settle (first_content completion);
     mret (mkSimpleReply true (Some (trim text)) None None
             (default 0 (total_tokens completion))))
    (fun error =>
       mret (mkSimpleReply false None (Some (message error))
               (Some "我理解您的感受。请继续和我分享，我会仔细倾听的。") 0)).

Record CoachResponse := mkCoachResponse {
  c_success : bool;
  c_response : option string;
  c_error : option string;
  c_fallback_response : option string;
  c_model_used : option string;
  c_tokens_used : Z
}.

(** The [forEach] of [generateCoachResponseWithGPT4o] over the recent
    history. *)
Definition coachHistory (recentHistory : list Json) : list Message :=
  omap (fun msg =>
          if truthy msg && truthy (optField "content" msg)
             && truthy (optField "sender" msg)
          then Some (mkMessage
                       (if is_string "user" (optField "sender" msg)
                        then "user" else "assistant")
                       (optField "content" msg))
          else None)
       recentHistory.

(** [generateCoachResponseWithGPT4o] (lines 2553-2640), for a conversation
    history that is an array. *)
Definition generateCoachResponseWithGPT4o (conversationHistory : list Json)
    (userQuestion : string) (ragResult : Json) : M Call CoachResponse :=
  tryCatch
    (systemPrompt ← settle (createEmotionalCoachSystemPrompt env ragResult);
     let messages :=
       (coachHistory (lastN 20 conversationHistory)
        ++ [mkMessage "user" (JStr userQuestion)])%list in
     call (Chat (CoachPrompt systemPrompt) messages);;
     completion ←
       await (openai_chat env (CoachPrompt systemPrompt) messages);
     text ← settle (first_content completion);
     mret (mkCoachResponse true (Some (formatCoachResponse text)) None None
             (Some (model completion))
             (default 0 (total_tokens completion))))
    (fun error =>
       mret (mkCoachResponse false None (Some (message error))
               (Some "很抱歉，我暂时无法为您提供专业建议。请稍后再试，或者尝试重新描述您的问题。")
               None 0)).

(** The [metadata] of what [processPostDateDebrief] returns ([model_used],
    [timestamp] and [error_type] are not represented). *)
Record Metadata := mkMetadata {
  processing_steps : list string;
  processing_type : option string;
  intent_classification : option string;
  m_transcription : option Transcription;
  query_optimization : option Server.QueryOptimization;
  rag_sources : Json;
  tokens_used : option Z
}.

Record DebriefResult := mkDebriefResult {
  d_success : bool;
  d_response : option string;
  d_error : option string;
  d_fallback_response : option string;
  d_metadata : Metadata
}.

Definition debriefFallback : string :=
  "很抱歉，我暂时无法为您提供完整的情感教练服务。请稍后再试，或者尝试重新描述您的问题。"
  ++ newline ++ newline ++ "作为临时建议，请记住："
  ++ newline ++ newline ++ "诚实沟通是健康关系的基础"
  ++ newline ++ "给彼此时间和空间来发展感情"
  ++ newline ++ "保持真实的自己，不要刻意迎合".

(** The query expansion of the deep path (lines 2880-2907): the enhanced
    query and [queryOptimizationResult]. *)
Definition expandQuery (userQuestion : string)
    : M Call (string * Server.QueryOptimization) :=
  let userInfoForEnhancement :=
    Server.mkUserInfo "咨询用户" "情感咨询" "未知" userQuestion in
  call (EnhanceQuery userInfoForEnhancement);;
  tryCatch
    (queryOptimizationResult ←
       await (enhanceQueryWithAI env userInfoForEnhancement []);
     mret (Server.enhanced_query queryOptimizationResult,
           queryOptimizationResult))
    (fun enhanceError =>
       mret (userQuestion,
             Server.mkQueryOptimization false (Some (message enhanceError))
               userQuestion userQuestion 0
               (Server.mkOptimizationStats (String_length userQuestion)
                  (String_length userQuestion) 1))).

(** Step 1 of [processPostDateDebrief] (lines 2797-2810): the question
    and [transcriptionResult]. *)
Definition hearInput (userInput : option string) (audioFile : option AudioFile)
    : M Call (option string * option Transcription) :=
  match audioFile with
  | Some file =>
      call (Transcribe file);;
      transcriptionResult ← await (transcribeAudioWithWhisper env file);
      if negb (t_success transcriptionResult) then
        throw (mkError ("音频转录失败: " ++ t_error transcriptionResult))
      else
        mret (Some (transcription transcriptionResult),
              Some transcriptionResult)
  | None => mret (userInput, None)
  end.

(** The light path (lines 2820-2862). *)
Definition simplePath (conversationHistory : list Json) (userQuestion : string)
    (firstStep : string) (intentResult : IntentResult)
    (transcriptionResult : option Transcription) : M Call DebriefResult :=
  simpleResponse ← generateSimpleReply conversationHistory userQuestion;
  let metadata :=
    mkMetadata [firstStep; "用户意图识别"; "简单回复生成"]
      (Some "simple_reply") (Some (intent intentResult))
      transcriptionResult None JNull
      (Some (i_tokens_used intentResult + s_tokens_used simpleResponse)) in
  if negb (s_success simpleResponse) then
    mret (mkDebriefResult true
            (Some (or_str (default "" (s_fallback_response simpleResponse))
                     "我理解您的感受。请继续和我分享，我会仔细倾听的。"))
            None None metadata)
  else
    mret (mkDebriefResult true (s_response simpleResponse) None None metadata).

(** The deep path (lines 2863-2982). *)
Definition deepPath (conversationHistory : list Json) (userQuestion : string)
    (firstStep : string) (intentResult : IntentResult)
    (transcriptionResult : option Transcription) : M Call DebriefResult :=
  query ← expandQuery userQuestion;
  let enhancedQuery := query.1 in
  let queryOptimizationResult := query.2 in
  call (Retrieve enhancedQuery);;
  ragResult ← await (callPostDateRAGSystemWithEnhancedQuery enhancedQuery);
  (* [ragResult.success && ragResult.data] *)
  match getField "success" ragResult with
  | None =>
      throw (mkError "Cannot read properties of null (reading 'success')")
  | Some _ => mret tt
  end;;
  coachResponse ←
    generateCoachResponseWithGPT4o conversationHistory userQuestion ragResult;
  (if negb (c_success coachResponse) then
     throw (mkError ("情感教练回复生成失败: "
                     ++ default "undefined" (c_error coachResponse)))
   else mret tt);;
  mret (mkDebriefResult true (c_response coachResponse) None None
          (mkMetadata
             [firstStep; "用户意图识别"; "AI查询扩展"; "RAG知识检索";
              "情感教练分析"; "回复生成"]
             (Some "deep_analysis_with_enhancement")
             (Some (intent intentResult))
             transcriptionResult (Some queryOptimizationResult)
             (Api.or_json
                (lengthOf
                   (optField "knowledge_references"
                      (optField "rag_analysis" (optField "data" ragResult))))
                (JNum 0))
             (Some (i_tokens_used intentResult
                    + Server.token_usage queryOptimizationResult
                    + c_tokens_used coachResponse)))).

(** The choice between the two paths (line 2819). *)
Definition pathOf (conversationHistory : list Json) (userQuestion : string)
    (audioFile : option AudioFile) (intentResult : IntentResult)
    (transcriptionResult : option Transcription) : M Call DebriefResult :=
  let firstStep :=
    match audioFile with Some _ => "音频转录" | None => "文本输入" end in
  if String.eqb (intent intentResult) "SIMPLE_REPLY" then
    simplePath conversationHistory userQuestion firstStep intentResult
      transcriptionResult
  else
    deepPath conversationHistory userQuestion firstStep intentResult
      transcriptionResult.

(** What the [catch] of [processPostDateDebrief] returns (lines
    2984-2995). *)
Definition debriefFailure (error : Error) : DebriefResult :=
  mkDebriefResult false None (Some (message error)) (Some debriefFallback)
    (mkMetadata [] None None None None JNull None).

(** [processPostDateDebrief] (lines 2790-2996).  [userInput] is [None]
    when the request had no [user_input]. *)
Definition processPostDateDebrief (conversationHistory : list Json)
    (userInput : option string) (audioFile : option AudioFile)
    : M Call DebriefResult :=
  tryCatch
    (heard ← hearInput userInput audioFile;
     let transcriptionResult := heard.2 in
     (* [classifyUserIntent] reads [userInput.substring] first *)
     userQuestion ←
       match heard.1 with
       | Some text => mret text
       | None =>
           throw (mkError
                    "Cannot read properties of undefined (reading 'substring')")
       end;
     intentResult ← classifyUserIntent userQuestion;
     pathOf conversationHistory userQuestion audioFile intentResult
       transcriptionResult)
    (fun error => mret (debriefFailure error)).

(** *** The endpoint *)

(** [conversation_history] as it arrives: an array (JSON request), a
    string (multipart request) or something else. *)
Inductive HistoryField : Type :=
  | HArray (items : list Json)
  | HString (text : string)
  | HOther (value : Json).

Record Request := mkRequest {
  user_input : option string;
  conversation_history : option HistoryField;
  file : option AudioFile
}.

(** The answer of the endpoint ([timestamp], [model_used],
    [troubleshooting] and [error_type] of the last handler are not
    represented). *)
Record Response := mkResponse {
  status : Z;
  success : bool;
  response : option string;
  error : option string;
  error_detail : option string;
  error_type : option string;
  fallback_response : option string;
  r_processing_steps : list string;
  r_processing_type : option string;
  has_audio : option bool;
  has_transcription : option bool;
  r_rag_sources : Json;
  response_length : option Z;
  r_tokens_used : option Z
}.

Definition failure (status : Z) (error : string) (error_detail : option string)
    (error_type : option string) (fallback_response : option string)
    : Response :=
  mkResponse status false None (Some error) error_detail error_type
    fallback_response [] None None None JNull None None.

Definition parseConversationHistory (field : option HistoryField)
    : list Json :=
  match field with
  | None => []
  | Some (HArray items) => items
  | Some (HString text) =>
      if String.eqb text "" then []
      else
        match JSON_parse env text with
        | Some (JArr items) => items
        | _ => []
        end
  | Some (HOther _) => []
  end.

Definition transcriptionUnavailable : string :=
  "很抱歉，语音转录功能暂时不可用。请将您的问题以文字形式重新提交，我会为您提供专业的情感教练建议。"
  ++ newline ++ newline ++ "同时，请确保："
  ++ newline ++ "- 音频文件格式正确（mp3、wav等）"
  ++ newline ++ "- 文件大小小于25MB"
  ++ newline ++ "- 网络连接稳定".

Definition knowledgeUnavailable : string :=
  "虽然专业知识库暂时不可用，但我仍然可以为您提供基础的情感支持。请详细描述您的情况，我会尽力为您提供有用的建议。"
  ++ newline ++ newline ++ "记住："
  ++ newline ++ "- 诚实沟通是健康关系的基础"
  ++ newline ++ "- 给彼此时间和空间发展感情"
  ++ newline ++ "- 保持真实的自己".

Definition serviceUnavailable : string :=
  "很抱歉，服务暂时遇到了问题。请稍后重试。"
  ++ newline ++ newline ++ "如果您急需情感建议，请记住这些核心原则："
  ++ newline ++ "- 保持冷静和理性"
  ++ newline ++ "- 诚实面对自己的感受"
  ++ newline ++ "- 尊重对方的决定和边界"
  ++ newline ++ "- 专注于自我成长和提升".

Definition internalError : string :=
  "很抱歉，系统暂时遇到了技术问题。请稍后重试。"
  ++ newline ++ newline ++ "在等待的同时，请记住："
  ++ newline ++ newline ++ "💡 **情感自助建议**："
  ++ newline ++ "- 深呼吸，保持冷静"
  ++ newline ++ "- 诚实面对自己的感受"
  ++ newline ++ "- 考虑对方的立场和感受"
  ++ newline ++ "- 专注于建设性的沟通"
  ++ newline ++ newline ++ "如果是紧急情感困扰，建议寻求专业心理咨询师的帮助。".

(** The [catch] around the call of [processPostDateDebrief] (lines
    3064-3108). *)
Definition processingFailure (processingError : Error) : Response :=
  if includes "音频转录失败" (message processingError) then
    failure 422 "语音转录服务暂时不可用" (Some (message processingError))
      (Some "AudioTranscriptionError") (Some transcriptionUnavailable)
  else if includes "RAG" (message processingError) then
    failure 503 "知识库服务暂时不可用" (Some (message processingError))
      (Some "RAGServiceError") (Some knowledgeUnavailable)
  else
    failure 500 "服务暂时不可用" (Some (message processingError))
      (Some "InternalServerError") (Some serviceUnavailable).

(** [app.post('/api/post_date_debrief')] (lines 3003-3173), for a request
    whose [user_input] is a string or missing. *)
Definition post_date_debrief (req : Request) : M Call Response :=
  tryCatch
    (let audioFile := file req in
     if String.eqb (default "" (user_input req)) ""
        && negb (bool_decide (is_Some audioFile))
     then
       mret (failure 400 "需要提供用户输入或音频文件" None
               (Some "ValidationError") None)
     else
       let parsedConversationHistory :=
         parseConversationHistory (conversation_history req) in
       outcome ←
         tryCatch
           (result ←
              processPostDateDebrief parsedConversationHistory (user_input req)
                audioFile;
            mret (inl result))
           (fun processingError => mret (inr (processingFailure processingError)));
       match outcome with
       | inr answer => mret answer
       | inl result =>
           if d_success result then
             (* [result.response.length] *)
             text ←
               match d_response result with
               | Some text => mret text
               | None =>
                   throw (mkError
                            "Cannot read properties of undefined (reading 'length')")
               end;
             mret (mkResponse 200 true (Some text) None None None None
                     (processing_steps (d_metadata result))
                     (processing_type (d_metadata result))
                     (Some (bool_decide (is_Some audioFile)))
                     (Some (from_option t_success false
                              (m_transcription (d_metadata result))))
                     (rag_sources (d_metadata result))
                     (Some (String_length text))
                     (tokens_used (d_metadata result)))
           else
             mret (mkResponse 202 false None
                     (Some (or_str (default "" (d_error result)) "处理失败"))
                     None None (d_fallback_response result)
                     [] None None None JNull None None)
       end)
    (fun error =>
       mret (failure 500 "服务器内部错误" (Some (message error)) None
               (Some internalError))).

End Functions.

End Debrief.

(** ** src/server.js: image classification (lines 240-328) *)

Module Vision.
Import Js Effects.

(** What the function needs from outside: the file system, the provider
    ([vision_chat mimeType image] is the completion for the image sent as
    a data URL; its [first_content] is
    [response.choices[0].message.content]), and
    [String.prototype.toLowerCase]. *)
Record Collaborators := mkCollaborators {
  existsSync : string → bool;
  readFileSync : string → Completion string;
  vision_chat : string → string → Promise Debrief.ChatCompletion;
  toLowerCase : string → string
}.

(** A request to the provider. *)
Inductive Call : Type :=
  | Classify (mimeType : string) (image : string).

Definition settle {A} (c : Completion A) : M Call A :=
  match c with
  | Normal v => mret v
  | Throw e => throw e
  end.

(** What [await f(...)] sees of an async function whose body is [m]. *)
Definition promiseOf {A} (m : M Call A) : Promise A :=
  match completion m with
  | Normal v => Resolved v
  | Throw e => Rejected e
  end.

(** [classifyImageWithGPT4o] (lines 240-328); the [filename] and
    [filePath] that the result repeats are not represented. *)
Definition classifyImageWithGPT4o (env : Collaborators)
    (filePath filename : string) : M Call Server.Classification :=
  tryCatch
    ((if negb (existsSync env filePath)
      then throw (mkError ("文件不存在: " ++ filePath))
      else mret tt);;
     imageBuffer ← settle (readFileSync env filePath);
     let mimeType :=
       if Debrief.includes ".png" (toLowerCase env filename)
       then "image/png" else "image/jpeg" in
     call (Classify mimeType imageBuffer);;
     response ← await (vision_chat env mimeType imageBuffer);
     text ← settle (Debrief.first_content response);
     let classificationResult := toLowerCase env (Debrief.trim text) in
     if String.eqb classificationResult "chat"
        || String.eqb classificationResult "photo"
     then mret (Server.mkClassification classificationResult true "")
     else mret (Server.mkClassification "photo" true ""))
    (fun error =>
       mret (Server.mkClassification "unknown" false (message error))).

(** The pipeline's collaborators with another generic analyser. *)
Definition withAnalyzer (env : Server.Collaborators)
    (analyzeImageWithGPT4o : string → string → Promise Server.Analysis)
    : Server.Collaborators := {|
  Server.classifyImageWithGPT4o := Server.classifyImageWithGPT4o env;
  Server.analyzeChatImageWithGPT4o := Server.analyzeChatImageWithGPT4o env;
  Server.analyzePhotoImageWithGPT4o := Server.analyzePhotoImageWithGPT4o env;
  Server.analyzeImageWithGPT4o := analyzeImageWithGPT4o;
  Server.enhanceQueryWithAI := Server.enhanceQueryWithAI env;
  Server.generateFinalReportWithGPT4o := Server.generateFinalReportWithGPT4o env;
  Server.ragSystemReady := Server.ragSystemReady env;
  Server.RAG_DIAGNOSTIC_MODE := Server.RAG_DIAGNOSTIC_MODE env;
  Server.spawn := Server.spawn env;
  Server.parseOutput := Server.parseOutput env;
  Server.ragLogThrows := Server.ragLogThrows env
|}.

End Vision.

(** ** Further concrete runs *)

Module Examples.
Import Js Effects.

(** A retrieval process of the serverless variant that crashes. *)
Definition crashing : Api.Collaborators := {|
  Api.spawn := fun _ _ => Api.CloseEvent (Some 1) "" "Traceback";
  Api.JSON_parse := fun _ => None;
  Api.chat_completion := fun _ _ => Rejected Scenario.down
|}.

Definition bob : Api.UserInfo := Api.mkUserInfo "Bob" "" "" "hello".

(** Collaborators of the debrief: the provider classifies every input as
    [answer] and fails at every other request, transcription is not
    configured, and the retrieval process does not start. *)
Definition coach (answer : string) : Debrief.Collaborators := {|
  Debrief.transcribeAudioWithWhisper := fun _ =>
    Resolved (Debrief.mkTranscription false ""
                "REPLICATE_API_TOKEN环境变量未设置");
  Debrief.openai_chat := fun system _ =>
    match system with
    | Debrief.IntentPrompt =>
        Resolved (Debrief.mkChatCompletion (Normal answer) (Some 12) "gpt-4o")
    | _ => Rejected Scenario.down
    end;
  Debrief.enhanceQueryWithAI := fun _ _ => Rejected Scenario.down;
  Debrief.spawn := fun _ => Debrief.ErrorEvent Scenario.down;
  Debrief.JSON_parse := fun _ => None;
  Debrief.JSON_parse_error := fun _ => mkError "Unexpected end of JSON input";
  Debrief.ragLogThrows := fun _ => None;
  Debrief.createEmotionalCoachSystemPrompt := fun _ => Normal "coach"
|}.

(** A provider that sees a chat screenshot in every image, and the
    pipeline's collaborators with the classification of the source in
    place; the other calls fail. *)
Definition camera : Vision.Collaborators := {|
  Vision.existsSync := fun _ => true;
  Vision.readFileSync := fun _ => Normal "iVBORw0KGgo=";
  Vision.vision_chat := fun _ _ =>
    Resolved (Debrief.mkChatCompletion (Normal "chat") (Some 9) "gpt-4o");
  Vision.toLowerCase := fun s => s
|}.

Definition wired : Server.Collaborators :=
  Vision.withAnalyzer {|
    Server.classifyImageWithGPT4o := fun filePath filename =>
      Vision.promiseOf (Vision.classifyImageWithGPT4o camera filePath filename);
    Server.analyzeChatImageWithGPT4o := fun _ _ => Rejected Scenario.down;
    Server.analyzePhotoImageWithGPT4o := fun _ _ => Rejected Scenario.down;
    Server.analyzeImageWithGPT4o := fun _ _ => Rejected Scenario.down;
    Server.enhanceQueryWithAI := fun _ _ => Rejected Scenario.down;
    Server.generateFinalReportWithGPT4o := fun _ _ _ => Rejected Scenario.down;
    Server.ragSystemReady := false;
    Server.RAG_DIAGNOSTIC_MODE := false;
    Server.spawn := fun _ => Server.Timeout;
    Server.parseOutput := fun _ => None;
    Server.ragLogThrows := fun _ => false
  |} (fun _ _ => Rejected Scenario.down).

Definition note : Debrief.AudioFile := Debrief.mkAudioFile "note.m4a" 2048.

Definition voiceRequest : Debrief.Request :=
  Debrief.mkRequest None None (Some note).

End Examples.

(** * Properties *)

Import Js TaskStore Effects Lifecycle.

(** ** The effect monad *)

Section MonadFacts.
Context {Op : Type}.

Lemma calls_bind {A B} (m : M Op A) (k : A → M Op B) (a : A) :
  completion m = Normal a →
  calls (m ≫= k) = (calls m ++ calls (k a))%list
  ∧ completion (m ≫= k) = completion (k a).
Proof.
  intros Hm. unfold mbind, M_bind, bind. rewrite Hm. done.
Qed.

Lemma bind_throw {A B} (m : M Op A) (k : A → M Op B) (e : Error) :
  completion m = Throw e →
  calls (m ≫= k) = calls m ∧ completion (m ≫= k) = Throw e.
Proof.
  intros Hm. unfold mbind, M_bind, bind. rewrite Hm. done.
Qed.

Lemma M_eta {A} (m : M Op A) : m = mkM (calls m) (completion m).
Proof. by destruct m. Qed.

End MonadFacts.

(** ** The script of a pipeline run *)

Section ScriptFacts.
Context {Result : Type}.
Implicit Types ops rem : list (StoreOp Result).

Lemma ascending_bounds lo hi ops : ascending lo hi ops → lo ≤ hi.
Proof.
  revert lo. induction ops as [|[st step q| |] rest IH]; simpl; intros lo H;
    try done.
  destruct H as (_ & Hq & Hrest). specialize (IH _ Hrest). lia.
Qed.

Lemma ascending_weaken lo lo' hi ops :
  lo' ≤ lo → ascending lo hi ops → ascending lo' hi ops.
Proof.
  destruct ops as [|[st step q| |] rest]; simpl; try done; [lia|].
  intros Hlo (Hst & Hq & Hrest). repeat split; [done|lia|done].
Qed.

Lemma finishing_app lo hi ops rem :
  hi ≤ 90 → ascending lo hi ops → finishing hi rem →
  finishing lo (ops ++ rem).
Proof.
  intros Hhi. revert lo.
  induction ops as [|[st step q| |] rest IH]; simpl; intros lo Hasc Hfin;
    try done.
  - destruct rem as [|[st step q| |] rem]; simpl in *; try done.
    destruct Hfin as (Hst & Hq & Hfin). repeat split; [done|lia|lia|done].
  - destruct Hasc as (Hst & Hq & Hrest).
    pose proof (ascending_bounds _ _ _ Hrest).
    repeat split; [done|lia|lia|]. by apply IH.
Qed.

Lemma finishing_weaken p p' rem :
  p' ≤ p → finishing p rem → finishing p' rem.
Proof.
  destruct rem as [|[st step q| |] rem]; simpl; try done.
  intros Hp (Hst & Hq & Hfin). repeat split; [done|lia|lia|done].
Qed.

End ScriptFacts.

(** ** The stage pipeline of src/server.js *)

Section PipelineFacts.
Import Server.
Variable env : Collaborators.

Lemma Math_round_share_bounds (i total : Z) :
  0 ≤ i ≤ total → 0 < total → 0 ≤ Math_round_share i total ≤ 20.
Proof.
  intros Hi Ht. unfold Math_round_share. split.
  - apply Z.div_pos; lia.
  - apply Z.lt_succ_r, Z.div_lt_upper_bound; lia.
Qed.

Lemma Math_round_share_mono (i j total : Z) :
  i ≤ j → 0 < total → Math_round_share i total ≤ Math_round_share j total.
Proof.
  intros Hij Ht. unfold Math_round_share. apply Z.div_le_mono; lia.
Qed.

(** The inner [try]/[catch] makes no store call and never throws. *)
Lemma classifyAndAnalyze_pure (file : File) :
  ∃ pushed, classifyAndAnalyze env file = mkM [] (Normal pushed).
Proof.
  unfold classifyAndAnalyze.
  destruct (classifyImageWithGPT4o env (path file) (filename file))
    as [classification|e]; [|eexists; reflexivity].
  unfold tryCatch, mbind, M_bind, bind, await. simpl.
  destruct (c_success classification); simpl; [|eexists; reflexivity].
  destruct (String.eqb (c_classification classification) "chat").
  { destruct (analyzeChatImageWithGPT4o env (path file) (filename file));
      eexists; reflexivity. }
  destruct (String.eqb (c_classification classification) "photo").
  { destruct (analyzePhotoImageWithGPT4o env (path file) (filename file));
      eexists; reflexivity. }
  destruct (analyzeImageWithGPT4o env (path file) (filename file));
    eexists; reflexivity.
Qed.

Lemma imageLoop_unfold total i file rest imageAnalyses pushed :
  classifyAndAnalyze env file = mkM [] (Normal pushed) →
  imageLoop env total i (file :: rest) imageAnalyses
  = mkM (OpUpdateTaskStatus PROCESSING
           ("处理第 " ++ pretty (i + 1) ++ "/" ++ pretty total ++ " 张图片")
           (30 + Math_round_share i total)
         :: calls (imageLoop env total (i + 1) rest
                     (imageAnalyses ++ [pushed])%list))
        (completion (imageLoop env total (i + 1) rest
                       (imageAnalyses ++ [pushed])%list)).
Proof.
  intros Hpure. simpl. unfold mbind, M_bind, bind. simpl.
  rewrite Hpure. reflexivity.
Qed.

(** The loop completes normally, pushes one analysis per file, and its
    store calls are [processing] updates ascending within 30..50. *)
Lemma imageLoop_spec total files : ∀ i imageAnalyses,
  0 ≤ i → i + Z.of_nat (List.length files) ≤ total → 0 < total →
  ∃ result,
    completion (imageLoop env total i files imageAnalyses) = Normal result
    ∧ List.length result
      = (List.length imageAnalyses + List.length files)%nat
    ∧ ascending (30 + Math_round_share i total) 50
        (calls (imageLoop env total i files imageAnalyses)).
Proof.
  induction files as [|file rest IH]; intros i imageAnalyses Hi Hlen Htotal.
  - exists imageAnalyses. simpl in *. split; [done|]. split; [lia|].
    pose proof (Math_round_share_bounds i total). lia.
  - destruct (classifyAndAnalyze_pure file) as [pushed Hpure].
    rewrite (imageLoop_unfold _ _ _ _ _ _ Hpure). simpl calls.
    simpl completion. simpl List.length in Hlen.
    destruct (IH (i + 1) (imageAnalyses ++ [pushed])%list)
      as (result & Hres & Hcount & Hasc); [lia|lia|done|].
    exists result. split; [done|]. split.
    + rewrite Hcount, length_app. simpl. lia.
    + simpl. split; [done|]. split; [lia|].
      eapply ascending_weaken; [|exact Hasc].
      pose proof (Math_round_share_mono i (i + 1) total). lia.
Qed.


Lemma analyzeImages_spec uploadedFiles :
  ∃ middle imageAnalyses,
    analyzeImages env uploadedFiles = mkM middle (Normal imageAnalyses)
    ∧ ascending 30 50 middle.
Proof.
  unfold analyzeImages.
  set (validImageFiles := filter _ uploadedFiles). clearbody validImageFiles.
  destruct (0 <? Z.of_nat (List.length validImageFiles)) eqn:Hsome.
  - apply Z.ltb_lt in Hsome.
    destruct (imageLoop_spec (Z.of_nat (List.length validImageFiles))
                validImageFiles 0 []) as (result & Hres & _ & Hasc);
      [done|by rewrite Z.add_0_l|done|].
    eexists _, result. split.
    + unfold mbind, M_bind, bind. simpl. rewrite Hres. reflexivity.
    + simpl. split; [done|]. split; [lia|].
      eapply ascending_weaken; [|exact Hasc].
      pose proof (Math_round_share_bounds 0
                    (Z.of_nat (List.length validImageFiles))). lia.
  - eexists _, []. split; [reflexivity|]. simpl. repeat split; lia.
Qed.

Lemma expandQuery_eq userInfo imageAnalyses :
  expandQuery env userInfo imageAnalyses
  = mkM [OpUpdateTaskStatus PROCESSING "AI查询优化中" 55;
         OpUpdateTaskStatus PROCESSING "AI查询优化完成" 58]
        (Normal (queryOf env userInfo imageAnalyses)).
Proof.
  unfold expandQuery, queryOf.
  destruct (enhanceQueryWithAI env userInfo imageAnalyses); reflexivity.
Qed.

Lemma callRAGSystem_resolves userInfo imageInfos enhancedQuery :
  ∃ value,
    callRAGSystem env userInfo imageInfos enhancedQuery = Resolved value.
Proof.
  unfold callRAGSystem.
  repeat (case_match; try (eexists; reflexivity)).
Qed.

Lemma retrieveKnowledge_eq userInfo imageAnalyses enhancedQuery :
  retrieveKnowledge env userInfo imageAnalyses enhancedQuery
  = mkM [OpUpdateTaskStatus PROCESSING "RAG知识库检索中" 60;
         OpUpdateTaskStatus PROCESSING "RAG知识检索完成" 70]
        (Normal (knowledgeOf env userInfo imageAnalyses enhancedQuery)).
Proof.
  unfold retrieveKnowledge, knowledgeOf.
  destruct (ragSystemReady env); [|reflexivity].
  destruct (callRAGSystem env userInfo imageAnalyses enhancedQuery);
    reflexivity.
Qed.

Lemma synthesize_eq userInfo imageAnalyses ragKnowledge :
  synthesize env userInfo imageAnalyses ragKnowledge
  = mkM [OpUpdateTaskStatus PROCESSING "最终分析生成中" 80]
        (Normal (reportOf env userInfo imageAnalyses ragKnowledge)).
Proof.
  unfold synthesize, reportOf.
  destruct (generateFinalReportWithGPT4o env userInfo imageAnalyses
              ragKnowledge); reflexivity.
Qed.

Lemma stageSequence_blank taskId userInfo uploadedFiles :
  all_whitespace (nickname userInfo) = true →
  stageSequence env taskId userInfo uploadedFiles
  = mkM [OpUpdateTaskStatus PROCESSING "开始数据验证" 10]
      (Throw (mkError "昵称不能为空，这是进行情感安全分析的基础信息")).
Proof.
  intros Hblank. unfold stageSequence, mbind, M_bind, bind. simpl.
  rewrite Hblank. reflexivity.
Qed.

Opaque analyzeImages expandQuery retrieveKnowledge synthesize.

Lemma stageSequence_valid taskId userInfo uploadedFiles :
  all_whitespace (nickname userInfo) = false →
  ∃ middle imageAnalyses,
    analyzeImages env uploadedFiles = mkM middle (Normal imageAnalyses)
    ∧ ascending 30 50 middle
    ∧ stageSequence env taskId userInfo uploadedFiles
      = mkM ([OpUpdateTaskStatus PROCESSING "开始数据验证" 10;
              OpUpdateTaskStatus PROCESSING "输入数据验证完成" 20]
             ++ middle
             ++ [OpUpdateTaskStatus PROCESSING "AI查询优化中" 55;
                 OpUpdateTaskStatus PROCESSING "AI查询优化完成" 58;
                 OpUpdateTaskStatus PROCESSING "RAG知识库检索中" 60;
                 OpUpdateTaskStatus PROCESSING "RAG知识检索完成" 70;
                 OpUpdateTaskStatus PROCESSING "最终分析生成中" 80;
                 OpUpdateTaskStatus PROCESSING "构建最终响应" 90;
                 OpSetTaskResult
                   (responseOf env taskId userInfo imageAnalyses)])%list
            (Normal tt).
Proof.
  intros Hvalid.
  destruct (analyzeImages_spec uploadedFiles)
    as (middle & imageAnalyses & Himages & Hasc).
  exists middle, imageAnalyses. split; [done|]. split; [done|].
  unfold stageSequence, mbind, M_bind, bind. simpl. rewrite Hvalid. simpl.
  rewrite Himages. simpl. rewrite expandQuery_eq. simpl.
  rewrite retrieveKnowledge_eq. simpl. rewrite synthesize_eq. simpl.
  reflexivity.
Qed.

Transparent analyzeImages expandQuery retrieveKnowledge synthesize.

Lemma processAnalysisTask_blank taskId userInfo uploadedFiles :
  all_whitespace (nickname userInfo) = true →
  processAnalysisTask env taskId userInfo uploadedFiles
  = mkM [OpUpdateTaskStatus PROCESSING "开始数据验证" 10;
         OpSetTaskError
           (mkError "昵称不能为空，这是进行情感安全分析的基础信息")]
        (Normal tt).
Proof.
  intros Hblank. unfold processAnalysisTask.
  rewrite (stageSequence_blank _ _ _ Hblank). reflexivity.
Qed.

Lemma processAnalysisTask_valid taskId userInfo uploadedFiles :
  all_whitespace (nickname userInfo) = false →
  ∃ middle imageAnalyses,
    analyzeImages env uploadedFiles = mkM middle (Normal imageAnalyses)
    ∧ ascending 30 50 middle
    ∧ processAnalysisTask env taskId userInfo uploadedFiles
      = mkM ([OpUpdateTaskStatus PROCESSING "开始数据验证" 10;
              OpUpdateTaskStatus PROCESSING "输入数据验证完成" 20]
             ++ middle
             ++ [OpUpdateTaskStatus PROCESSING "AI查询优化中" 55;
                 OpUpdateTaskStatus PROCESSING "AI查询优化完成" 58;
                 OpUpdateTaskStatus PROCESSING "RAG知识库检索中" 60;
                 OpUpdateTaskStatus PROCESSING "RAG知识检索完成" 70;
                 OpUpdateTaskStatus PROCESSING "最终分析生成中" 80;
                 OpUpdateTaskStatus PROCESSING "构建最终响应" 90;
                 OpSetTaskResult
                   (responseOf env taskId userInfo imageAnalyses)])%list
            (Normal tt).
Proof.
  intros Hvalid.
  destruct (stageSequence_valid taskId userInfo uploadedFiles Hvalid)
    as (middle & imageAnalyses & Himages & Hasc & Hseq).
  exists middle, imageAnalyses. split; [done|]. split; [done|].
  unfold processAnalysisTask. rewrite Hseq. reflexivity.
Qed.

(** Every run starts by setting [processing], goes on with ascending
    progress and ends with exactly one terminal write. *)
Lemma processAnalysisTask_starting taskId userInfo uploadedFiles :
  starting (calls (processAnalysisTask env taskId userInfo uploadedFiles)).
Proof.
  destruct (all_whitespace (nickname userInfo)) eqn:Hnick.
  - rewrite (processAnalysisTask_blank _ _ _ Hnick). simpl.
    repeat split; lia.
  - destruct (processAnalysisTask_valid taskId userInfo uploadedFiles Hnick)
      as (middle & imageAnalyses & _ & Hasc & ->).
    simpl. split; [done|]. split; [lia|]. split; [done|]. split; [lia|].
    apply (finishing_app 20 50); [lia| |].
    + eapply ascending_weaken; [|exact Hasc]. lia.
    + simpl. repeat split; lia.
Qed.

End PipelineFacts.

(** ** The task store *)

Section StoreFacts.
Context {Input Result : Type}.
Implicit Types (taskStorage : gmap string (Task Input Result))
               (task : Task Input Result) (op : StoreOp Result).

Lemma perform_present taskId now op taskStorage task :
  taskStorage !! taskId = Some task →
  perform taskId now op taskStorage
  = <[taskId := performTask now op task]> taskStorage.
Proof.
  intros Hin. destruct op; simpl;
    unfold updateTaskStatus, setTaskResult, setTaskError; rewrite Hin;
    reflexivity.
Qed.

Lemma perform_absent taskId now op taskStorage :
  taskStorage !! taskId = None →
  perform taskId now op taskStorage = taskStorage.
Proof.
  intros Hout. destruct op; simpl;
    unfold updateTaskStatus, setTaskResult, setTaskError; rewrite Hout;
    reflexivity.
Qed.

Lemma perform_lookup_ne taskId other now op taskStorage :
  taskId ≠ other →
  perform taskId now op taskStorage !! other = taskStorage !! other.
Proof.
  intros Hne. destruct (taskStorage !! taskId) as [task|] eqn:Hin.
  - rewrite (perform_present _ _ _ _ _ Hin). by rewrite lookup_insert_ne.
  - by rewrite (perform_absent _ _ _ _ Hin).
Qed.

Lemma perform_lookup_eq taskId now op taskStorage :
  perform taskId now op taskStorage !! taskId
  = performTask now op <$> taskStorage !! taskId.
Proof.
  destruct (taskStorage !! taskId) as [task|] eqn:Hin.
  - rewrite (perform_present _ _ _ _ _ Hin). by rewrite lookup_insert_eq.
  - rewrite (perform_absent _ _ _ _ Hin). by rewrite Hin.
Qed.

Lemma performAll_lookup taskId clock ops : ∀ k taskStorage,
  performAll taskId clock k ops taskStorage !! taskId
  = performAllTask clock k ops <$> taskStorage !! taskId.
Proof.
  induction ops as [|op rest IH]; intros k taskStorage; simpl.
  - by destruct (taskStorage !! taskId).
  - rewrite IH, perform_lookup_eq. by destruct (taskStorage !! taskId).
Qed.

Lemma performAllTask_app clock ops1 ops2 : ∀ k task,
  performAllTask clock k (ops1 ++ ops2) task
  = performAllTask clock (k + List.length ops1) ops2
      (performAllTask clock k ops1 task).
Proof.
  induction ops1 as [|op rest IH]; intros k task; simpl.
  - by rewrite Nat.add_0_r.
  - rewrite IH. f_equal. lia.
Qed.

Lemma cleanupOldTasks_lookup now taskStorage taskId :
  cleanupOldTasks now taskStorage !! taskId
  = match taskStorage !! taskId with
    | Some task =>
        if decide (created_at task < now - 3600000) then None else Some task
    | None => None
    end.
Proof.
  unfold cleanupOldTasks.
  destruct (taskStorage !! taskId) as [task|] eqn:Hin.
  - case_decide as Hold.
    + apply map_lookup_filter_None. right. intros task' Hin'. simpl.
      rewrite Hin in Hin'. injection Hin' as <-. tauto.
    + apply map_lookup_filter_Some. split; [done|]. simpl. done.
  - apply map_lookup_filter_None. by left.
Qed.

End StoreFacts.

(** ** The invariant of the server of src/server.js *)

Section InvariantFacts.
Import Server.

Lemma task_ok_perform {Input Result} now (op : StoreOp Result) rest
    (task : Task Input Result) :
  task_ok task (op :: rest) → task_ok (performTask now op task) rest.
Proof.
  unfold task_ok. destruct task as [i st p cs ca ua inp res err pt]. simpl.
  destruct st; simpl.
  - intros (-> & -> & -> & Hstart).
    destruct op as [st' step q| |]; simpl in *; try done.
    destruct Hstart as (-> & Hq & Hfin). done.
  - intros (Hp & -> & -> & Hfin).
    destruct op as [st' step q| |]; simpl in *.
    + destruct Hfin as (-> & Hq & Hfin). repeat split; [lia|lia|done].
    + subst rest. repeat split; eauto.
    + subst rest. repeat split; eauto; lia.
  - intros (_ & _ & _ & ?). done.
  - intros (_ & _ & _ & ?). done.
Qed.

Lemma invariant_initial : invariant initialState.
Proof.
  repeat split; simpl; intros taskId.
  - rewrite lookup_empty. by intros ?%is_Some_None.
  - rewrite lookup_empty. by intros ?%is_Some_None.
  - intros task. by rewrite lookup_empty.
Qed.

Lemma invariant_step σ σ' : invariant σ → step σ σ' → invariant σ'.
Proof.
  intros (Hstore & Hflight & Hok) Hstep.
  destruct Hstep as [env taskId now req σ Hfresh
                    |taskId now op rest σ Hnext
                    |now σ
                    |taskId σ]; [| | |done].
  - (* the submission endpoint *)
    unfold generate_warning_report.
    destruct (all_whitespace _) eqn:Hnick; simpl; [done|].
    repeat split; simpl.
    + intros other Hsome.
      destruct (decide (taskId = other)) as [->|Hne]; [set_solver|].
      rewrite lookup_insert_ne in Hsome by done.
      apply Hstore in Hsome. set_solver.
    + intros other Hsome.
      destruct (decide (taskId = other)) as [->|Hne]; [set_solver|].
      rewrite lookup_insert_ne in Hsome by done.
      apply Hflight in Hsome. set_solver.
    + intros other task Hin.
      destruct (decide (taskId = other)) as [->|Hne].
      * rewrite lookup_insert_eq in Hin. injection Hin as <-.
        rewrite lookup_insert_eq. simpl. unfold task_ok. simpl.
        repeat split. apply processAnalysisTask_starting.
      * rewrite lookup_insert_ne in Hin by done.
        rewrite lookup_insert_ne by done. by apply Hok.
  - (* one store call of a pipeline *)
    repeat split; simpl.
    + intros other Hsome.
      destruct (decide (taskId = other)) as [->|Hne].
      * apply Hflight. by rewrite Hnext.
      * rewrite perform_lookup_ne in Hsome by done. by apply Hstore.
    + intros other Hsome.
      destruct (decide (taskId = other)) as [->|Hne].
      * apply Hflight. by rewrite Hnext.
      * rewrite lookup_insert_ne in Hsome by done. by apply Hflight.
    + intros other task Hin.
      destruct (decide (taskId = other)) as [->|Hne].
      * rewrite perform_lookup_eq in Hin.
        destruct (taskStorage σ !! other) as [before|] eqn:Hbefore;
          [|done].
        injection Hin as <-. rewrite lookup_insert_eq. simpl.
        apply task_ok_perform. specialize (Hok _ _ Hbefore).
        by rewrite Hnext in Hok.
      * rewrite perform_lookup_ne in Hin by done.
        rewrite lookup_insert_ne by done. by apply Hok.
  - (* the retention sweep *)
    repeat split; simpl.
    + intros other Hsome. apply Hstore.
      rewrite cleanupOldTasks_lookup in Hsome.
      destruct (taskStorage σ !! other); [done|].
      by apply is_Some_None in Hsome.
    + done.
    + intros other task Hin. apply Hok.
      rewrite cleanupOldTasks_lookup in Hin.
      destruct (taskStorage σ !! other) as [kept|]; [|done].
      by case_decide; simplify_eq.
Qed.

Lemma invariant_reachable σ : reachable σ → invariant σ.
Proof.
  unfold reachable. intros Hreach.
  eapply (rtc_ind_r (fun σ => invariant σ) initialState);
    [apply invariant_initial| |exact Hreach].
  intros ? ? _ Hstep Hinv. by eapply invariant_step.
Qed.

End InvariantFacts.

(** ** Degradation of the pipeline *)

Section DegradationFacts.
Import Server.
Variable env : Collaborators.

Lemma classifyAndAnalyze_failed file :
  failed c_success (classifyImageWithGPT4o env (path file) (filename file)) →
  ∃ imageError,
    classifyAndAnalyze env file
    = mkM [] (Normal (imageErrorMarker file imageError)).
Proof.
  unfold classifyAndAnalyze, failed.
  destruct (classifyImageWithGPT4o env (path file) (filename file))
    as [classification|e]; intros Hfail.
  - unfold tryCatch, mbind, M_bind, bind, await. simpl. rewrite Hfail.
    simpl. eexists. reflexivity.
  - exists e. reflexivity.
Qed.

Lemma imageLoop_failed total files : ∀ i imageAnalyses result,
  (∀ filePath name,
     failed c_success (classifyImageWithGPT4o env filePath name)) →
  Forall error_marked imageAnalyses →
  completion (imageLoop env total i files imageAnalyses) = Normal result →
  Forall error_marked result.
Proof.
  induction files as [|file rest IH];
    intros i imageAnalyses result Hfail Hacc Hres.
  - simpl in Hres. by injection Hres as <-.
  - destruct (classifyAndAnalyze_failed file (Hfail _ _))
      as [imageError Hmarker].
    rewrite (imageLoop_unfold env _ _ _ _ _ _ Hmarker) in Hres.
    simpl in Hres. eapply IH; [done| |exact Hres].
    apply Forall_app. split; [done|]. by repeat constructor.
Qed.

Lemma analyzeImages_failed uploadedFiles middle imageAnalyses :
  (∀ filePath name,
     failed c_success (classifyImageWithGPT4o env filePath name)) →
  analyzeImages env uploadedFiles = mkM middle (Normal imageAnalyses) →
  Forall error_marked imageAnalyses.
Proof.
  intros Hfail. unfold analyzeImages.
  destruct (0 <? _).
  - unfold mbind, M_bind, bind. simpl.
    destruct (completion (imageLoop _ _ _ _ _)) as [result|e] eqn:Hres;
      intros Heq; [|done].
    injection Heq as _ <-. eapply imageLoop_failed; [done| |exact Hres].
    constructor.
  - intros Heq. injection Heq as _ <-. constructor.
Qed.

Lemma callRAGSystem_failed userInfo imageInfos enhancedQuery :
  (∀ input, retrieval_failed env (spawn env input)) →
  ∃ value,
    callRAGSystem env userInfo imageInfos enhancedQuery = Resolved value
    ∧ fallback_knowledge env value.
Proof.
  intros Hfail. unfold callRAGSystem.
  set (inputData := mkRagInput _ _ _ _ _ _ _).
  specialize (Hfail inputData). unfold retrieval_failed in Hfail.
  destruct (spawn env inputData) as [e|e|code outputData errorData|] eqn:Hrun;
    try (eexists; split; [reflexivity|by left]).
  case_decide as Hcode; [|eexists; split; [reflexivity|by left]].
  destruct Hfail as [Hne|Hreply]; [done|]. subst code.
  destruct (parseOutput env outputData) as [reply|] eqn:Hparse;
    [|eexists; split; [reflexivity|by left]].
  destruct (getField "success" reply) as [success|] eqn:Hsuccess;
    [|eexists; split; [reflexivity|by left]].
  rewrite Hreply.
  destruct (getField "fallback_report" reply) as [own|] eqn:Hown; simpl.
  - destruct (truthy own); eexists; (split; [reflexivity|]); [|by left].
    right. by exists inputData, outputData, errorData, reply.
  - eexists. split; [reflexivity|by left].
Qed.

Lemma responseOf_fallback taskId userInfo imageAnalyses :
  collaborators_fail env →
  Forall error_marked imageAnalyses →
  fallback_based env (responseOf env taskId userInfo imageAnalyses).
Proof.
  intros [Hclassify Hexpand Hretrieve Hreport] Hmarked.
  unfold fallback_based, responseOf, buildResponse. simpl.
  repeat split.
  - apply Forall_map. eapply Forall_impl; [exact Hmarked|].
    intros a [? ?]. by split.
  - unfold queryOf. specialize (Hexpand userInfo imageAnalyses).
    unfold failed in Hexpand.
    by destruct (enhanceQueryWithAI env userInfo imageAnalyses).
  - unfold knowledgeOf. destruct (ragSystemReady env); [|by left].
    destruct (callRAGSystem_failed userInfo imageAnalyses
                (queryOf env userInfo imageAnalyses).2 Hretrieve)
      as (value & -> & Hvalue). done.
  - apply Hreport.
Qed.

Lemma performAllTask_result {Input} clock ops response :
  ∀ k (task : Task Input Response),
  last ops = Some (OpSetTaskResult response) →
  let task' := performAllTask clock k ops task in
  status task' = COMPLETED ∧ result task' = Some response
  ∧ progress task' = 100.
Proof.
  induction ops as [|op [|op' rest] IH]; intros k task Hlast; [done| |].
  - injection Hlast as ->. done.
  - rewrite last_cons_cons in Hlast. by apply (IH (S k)).
Qed.

End DegradationFacts.

(** C1.  A run of the stage pipeline of src/server.js on a task that is in
    the store always ends with the task [completed] or [failed].  If the
    nickname is not blank and every collaborator call of the run fails
    (rejects, reports failure, times out), the task ends [completed] and its
    result is made of the fallbacks.  The task ends [failed] exactly when an
    exception leaves the stage sequence, which the top-level [catch] hands to
    [setTaskError]; the only exception that leaves it is the one of the
    step-1 check of a blank nickname. *)
Theorem pipeline_degrades_gracefully
    (env : Server.Collaborators) (taskId : string)
    (userInfo : Server.UserInfo) (uploadedFiles : list Server.File)
    (clock : nat → Z)
    (taskStorage : gmap string (Task Server.InputData Server.Response))
    (task : Task Server.InputData Server.Response) :
  taskStorage !! taskId = Some task →
  ∃ task',
    performAll taskId clock 0
      (calls (Server.processAnalysisTask env taskId userInfo uploadedFiles))
      taskStorage !! taskId = Some task'
    ∧ (all_whitespace (Server.nickname userInfo) = false →
       collaborators_fail env →
       status task' = COMPLETED
       ∧ ∃ response, result task' = Some response
                     ∧ fallback_based env response)
    ∧ (status task' = COMPLETED ∨ status task' = FAILED)
    ∧ (status task' = FAILED ↔
       ∃ e, completion (Server.stageSequence env taskId userInfo uploadedFiles)
            = Throw e)
    ∧ (∀ e, completion (Server.stageSequence env taskId userInfo uploadedFiles)
            = Throw e →
            all_whitespace (Server.nickname userInfo) = true
            ∧ error task' = Some (errorField e)).
Proof.
  intros Hin. rewrite performAll_lookup, Hin.
  eexists. split; [reflexivity|].
  destruct (all_whitespace (Server.nickname userInfo)) eqn:Hnick.
  - rewrite (processAnalysisTask_blank env _ _ _ Hnick).
    rewrite (stageSequence_blank env _ _ _ Hnick). simpl.
    split; [done|]. split; [by right|]. split; [split; [eauto|done]|].
    intros e [= <-]. done.
  - destruct (processAnalysisTask_valid env taskId userInfo uploadedFiles Hnick)
      as (middle & imageAnalyses & Himages & Hasc & ->).
    destruct (stageSequence_valid env taskId userInfo uploadedFiles Hnick)
      as (middle' & imageAnalyses' & _ & _ & ->).
    cbn [calls completion].
    match goal with
    | |- context [performAllTask clock 0 ?ops task] =>
        destruct (performAllTask_result clock ops
                    (responseOf env taskId userInfo imageAnalyses) 0 task)
          as (Hst & Hres & _); [by rewrite !last_app|]
    end.
    split; [|split; [by left|split]].
    + intros _ Hfail. split; [done|]. eexists. split; [exact Hres|].
      apply responseOf_fallback; [done|].
      eapply analyzeImages_failed; [|exact Himages]. by destruct Hfail.
    + rewrite Hst. split; [done|]. by intros [e ?].
    + intros e. done.
Qed.

(** ** What one step does to a record *)

Section StepFacts.
Import Server.

(** A step leaves a record as it is, deletes it (the sweep), or applies
    the next store call of the record's own pipeline to it. *)
Lemma step_task σ σ' taskId task :
  invariant σ → step σ σ' →
  taskStorage σ !! taskId = Some task →
  taskStorage σ' !! taskId = None
  ∨ taskStorage σ' !! taskId = Some task
  ∨ ∃ now op rest,
      inflight σ !! taskId = Some (op :: rest)
      ∧ taskStorage σ' !! taskId = Some (performTask now op task).
Proof.
  intros (Hstore & Hflight & Hok) Hstep Hin.
  destruct Hstep as [env newId now req σ Hfresh
                    |running now op rest σ Hnext
                    |now σ
                    |other σ]; [| | |by right; left].
  - right; left. unfold generate_warning_report.
    destruct (all_whitespace _); simpl; [done|].
    rewrite lookup_insert_ne; [done|]. intros ->. apply Hfresh, Hstore.
    by rewrite Hin.
  - simpl. destruct (decide (running = taskId)) as [->|Hne].
    + right; right. exists now, op, rest. split; [done|].
      by rewrite perform_lookup_eq, Hin.
    + right; left. by rewrite perform_lookup_ne.
  - simpl. rewrite cleanupOldTasks_lookup, Hin.
    case_decide; [by left|by right; left].
Qed.

Lemma reachable_step σ σ' : reachable σ → step σ σ' → reachable σ'.
Proof. intros Hreach Hstep. by eapply rtc_r. Qed.

(** A pipeline that is in flight can make all its remaining store calls. *)
Lemma reachable_drain taskId clock ops : ∀ k σ,
  reachable σ → inflight σ !! taskId = Some ops →
  reachable {| taskStorage := performAll taskId clock k ops (taskStorage σ);
               inflight := <[taskId := []]> (inflight σ);
               issued := issued σ |}.
Proof.
  induction ops as [|op rest IH]; intros k σ Hreach Hflight; simpl.
  - rewrite insert_id by done. by destruct σ.
  - specialize (IH (S k) _ (reachable_step _ _ Hreach
                              (step_pipeline taskId (clock k) op rest σ Hflight))).
    simpl in IH. rewrite insert_insert_eq in IH. apply IH.
    by rewrite lookup_insert_eq.
Qed.

End StepFacts.

(** C2.  [createTask] stores a record with progress 0.  In every reachable
    state of the server of src/server.js the progress of a task lies within
    0..100 and is 100 exactly when the task is [completed]; a task that is
    still [pending] has progress 0; and no step of the server lowers the
    progress of a task that stays in the store. *)
Theorem progress_bounded_and_monotone
    (σ σ' : Server.ServerState) (taskId : string)
    (task task' : Task Server.InputData Server.Response) :
  Server.reachable σ → Server.step σ σ' →
  Server.taskStorage σ !! taskId = Some task →
  Server.taskStorage σ' !! taskId = Some task' →
  (status task = PENDING → progress task = 0)
  ∧ 0 ≤ progress task ≤ 100
  ∧ (progress task = 100 ↔ status task = COMPLETED)
  ∧ progress task ≤ progress task' ≤ 100
  ∧ (progress task' = 100 ↔ status task' = COMPLETED)
  ∧ (∀ newId now (input : Server.InputData)
       (store : gmap string (Task Server.InputData Server.Response)),
       progress <$> (createTask newId now input store).2 !! newId = Some 0).
Proof.
  intros Hreach Hstep Hin Hin'.
  pose proof (invariant_reachable _ Hreach) as Hinv.
  pose proof (invariant_step _ _ Hinv Hstep) as (_ & _ & Hok').
  pose proof Hinv as (_ & _ & Hok).
  specialize (Hok _ _ Hin). specialize (Hok' _ _ Hin').
  assert (Hbounds : ∀ (t : Task Server.InputData Server.Response) rem,
             task_ok t rem →
             (status t = PENDING → progress t = 0)
             ∧ 0 ≤ progress t ≤ 100
             ∧ (progress t = 100 ↔ status t = COMPLETED)).
  { intros t rem. unfold task_ok.
    destruct (status t); intros (Hp & _); (split; [done|]);
      (split; [lia|]); split; (done || lia). }
  destruct (Hbounds _ _ Hok) as (Hzero & Hrange & Hfull).
  destruct (Hbounds _ _ Hok') as (_ & Hrange' & Hfull').
  repeat split; try tauto; try lia;
    try (intros; unfold createTask; simpl; by rewrite lookup_insert_eq).
  destruct (step_task _ _ _ _ Hinv Hstep Hin)
    as [Hgone|[Hsame|(now & op & rest & Hnext & Hnew)]].
  - congruence.
  - assert (task' = task) as -> by congruence. lia.
  - assert (task' = performTask now op task) as -> by congruence.
    rewrite Hnext in Hok. simpl in Hok. unfold task_ok in Hok.
    destruct (status task); destruct Hok as (Hp & _ & _ & Hrem); try done.
    + destruct op as [st step q| |]; simpl in *; try done; lia.
    + destruct op as [st step q| |]; simpl in *; lia.
Qed.

(** A step of the server of src/server.js takes a [pending] task to
    [pending] or to [processing]. *)
Lemma pending_then_processing_step
    (σ σ' : Server.ServerState) (taskId : string)
    (task task' : Task Server.InputData Server.Response) :
  Server.reachable σ → Server.step σ σ' →
  Server.taskStorage σ !! taskId = Some task →
  Server.taskStorage σ' !! taskId = Some task' →
  status task = PENDING →
  status task' = PENDING ∨ status task' = PROCESSING.
Proof.
  intros Hreach Hstep Hin Hin' Hpending.
  pose proof (invariant_reachable _ Hreach) as Hinv.
  destruct (step_task _ _ _ _ Hinv Hstep Hin)
    as [Hgone|[Hsame|(now & op & rest & Hnext & Hnew)]].
  - congruence.
  - left. congruence.
  - right. assert (task' = performTask now op task) as -> by congruence.
    destruct Hinv as (_ & _ & Hok). specialize (Hok _ _ Hin).
    rewrite Hnext in Hok. unfold task_ok in Hok. rewrite Hpending in Hok.
    destruct Hok as (_ & _ & _ & Hstart).
    destruct op as [st step q| |]; simpl in *; try done. tauto.
Qed.

(** C7.  In every reachable state of the server of src/server.js a record
    has neither [result] nor [error] while it is [pending] or [processing],
    and exactly one of them once it is [completed] (the result) or [failed]
    (the error). *)
Theorem result_xor_error
    (σ : Server.ServerState) (taskId : string)
    (task : Task Server.InputData Server.Response) :
  Server.reachable σ →
  Server.taskStorage σ !! taskId = Some task →
  match status task with
  | PENDING | PROCESSING => result task = None ∧ error task = None
  | COMPLETED => is_Some (result task) ∧ error task = None
  | FAILED => result task = None ∧ is_Some (error task)
  end.
Proof.
  intros Hreach Hin.
  destruct (invariant_reachable _ Hreach) as (_ & _ & Hok).
  specialize (Hok _ _ Hin). unfold task_ok in Hok.
  destruct (status task); tauto.
Qed.

Lemma terminal_unchanged_by_step
    (σ σ' : Server.ServerState) (taskId : string)
    (task : Task Server.InputData Server.Response) :
  invariant σ → Server.step σ σ' →
  Server.taskStorage σ !! taskId = Some task →
  terminal (status task) = true →
  Server.taskStorage σ' !! taskId = None
  ∨ Server.taskStorage σ' !! taskId = Some task.
Proof.
  intros Hinv Hstep Hin Hterminal.
  destruct (step_task _ _ _ _ Hinv Hstep Hin)
    as [Hgone|[Hsame|(now & op & rest & Hnext & Hnew)]]; [by left|by right|].
  destruct Hinv as (_ & _ & Hok). specialize (Hok _ _ Hin).
  rewrite Hnext in Hok. unfold task_ok in Hok.
  destruct (status task); try done; by destruct Hok as (_ & _ & _ & ?).
Qed.

Lemma step_issued (σ σ' : Server.ServerState) (taskId : string) :
  Server.step σ σ' → taskId ∈ Server.issued σ → taskId ∈ Server.issued σ'.
Proof.
  intros Hstep Hin.
  destruct Hstep as [env newId now req σ Hfresh| | |]; try done.
  unfold Server.generate_warning_report.
  destruct (all_whitespace _); simpl; [done|set_solver].
Qed.

(** A record that is gone does not come back: its identifier was given
    out, and store calls on a missing record do nothing. *)
Lemma step_absent (σ σ' : Server.ServerState) (taskId : string) :
  Server.step σ σ' → taskId ∈ Server.issued σ →
  Server.taskStorage σ !! taskId = None →
  Server.taskStorage σ' !! taskId = None.
Proof.
  intros Hstep Hissued Hout.
  destruct Hstep as [env newId now req σ Hfresh
                    |running now op rest σ Hnext
                    |now σ
                    |other σ]; [| | |done].
  - unfold Server.generate_warning_report.
    destruct (all_whitespace _); simpl; [done|].
    rewrite lookup_insert_ne; [done|]. by intros ->.
  - simpl. destruct (decide (running = taskId)) as [->|Hne].
    + by rewrite perform_lookup_eq, Hout.
    + by rewrite perform_lookup_ne.
  - simpl. by rewrite cleanupOldTasks_lookup, Hout.
Qed.

Lemma steps_absent (σ σ' : Server.ServerState) (taskId : string) :
  rtc Server.step σ σ' → taskId ∈ Server.issued σ →
  Server.taskStorage σ !! taskId = None →
  Server.taskStorage σ' !! taskId = None.
Proof.
  induction 1 as [σ|σ σ1 σ' Hstep Hrest IH]; [done|].
  intros Hissued Hout. apply IH.
  - by eapply step_issued.
  - by eapply step_absent.
Qed.

(** C8.  In every execution of the server of src/server.js, a record whose
    status is terminal is, whenever it is looked up later, the very same
    record: no handler, pipeline or sweep changes its status (the sweep may
    delete it, and then it stays absent). *)
Theorem terminal_is_absorbing
    (σ σ' : Server.ServerState) (taskId : string)
    (task task' : Task Server.InputData Server.Response) :
  Server.reachable σ → rtc Server.step σ σ' →
  Server.taskStorage σ !! taskId = Some task →
  terminal (status task) = true →
  Server.taskStorage σ' !! taskId = Some task' →
  status task' = status task ∧ task' = task.
Proof.
  intros Hreach Hsteps. revert Hreach.
  induction Hsteps as [σ|σ σ1 σ' Hstep Hrest IH];
    intros Hreach Hin Hterminal Hin'.
  - assert (task' = task) as -> by congruence. done.
  - pose proof (invariant_reachable _ Hreach) as Hinv.
    destruct (terminal_unchanged_by_step _ _ _ _ Hinv Hstep Hin Hterminal)
      as [Hgone|Hsame].
    + assert (taskId ∈ Server.issued σ1) as Hissued.
      { eapply step_issued; [done|]. destruct Hinv as (Hstore & _).
        apply Hstore. by rewrite Hin. }
      rewrite (steps_absent _ _ _ Hrest Hissued Hgone) in Hin'. done.
    + apply IH; [by eapply reachable_step|done|done|done].
Qed.

(** C9.  When the sweep runs at time [now], every record created more than
    one hour (3600000 ms) before [now] is deleted, whatever its status, and
    [getTask] does not find it in any later state of the server; records
    that are not older than that are kept by this sweep. *)
Theorem sweep_forgets_old_tasks
    (σ σ' : Server.ServerState) (now : Z) (taskId : string)
    (task : Task Server.InputData Server.Response) :
  Server.reachable σ →
  Server.taskStorage σ !! taskId = Some task →
  created_at task < now - 3600000 →
  rtc Server.step
    {| Server.taskStorage := cleanupOldTasks now (Server.taskStorage σ);
       Server.inflight := Server.inflight σ;
       Server.issued := Server.issued σ |} σ' →
  getTask taskId (cleanupOldTasks now (Server.taskStorage σ)) = None
  ∧ getTask taskId (Server.taskStorage σ') = None
  ∧ (∀ other kept,
       Server.taskStorage σ !! other = Some kept →
       now - 3600000 ≤ created_at kept →
       getTask other (cleanupOldTasks now (Server.taskStorage σ)) = Some kept).
Proof.
  intros Hreach Hin Hold Hlater.
  assert (cleanupOldTasks now (Server.taskStorage σ) !! taskId = None)
    as Hswept.
  { rewrite cleanupOldTasks_lookup, Hin. by case_decide. }
  split; [exact Hswept|]. split.
  - unfold getTask. eapply steps_absent; [exact Hlater| |exact Hswept].
    simpl. destruct (invariant_reachable _ Hreach) as (Hstore & _).
    apply Hstore. by rewrite Hin.
  - intros other kept Hkept Hyoung. unfold getTask.
    rewrite cleanupOldTasks_lookup, Hkept. case_decide; [lia|done].
Qed.

(** C10.  [setTaskError] (the same text in src/server.js and
    src/api/server.js) writes [error], [status], [processing_time] and
    [updated_at] of the record it finds and nothing else: [id], [progress],
    [current_step], [result], [input_data] and [created_at] keep their
    values, and all other records are untouched.  A task below 100 when it
    fails is therefore still below 100, at the value it had reached. *)
Theorem setTaskError_frame {Input Result : Type}
    (taskId : string) (e : Error) (now : Z)
    (taskStorage : gmap string (Task Input Result)) (task : Task Input Result) :
  taskStorage !! taskId = Some task →
  ∃ task',
    setTaskError taskId e now taskStorage !! taskId = Some task'
    ∧ error task' = Some (errorField e)
    ∧ status task' = FAILED
    ∧ processing_time task' = now - created_at task
    ∧ updated_at task' = now
    ∧ id task' = id task
    ∧ progress task' = progress task
    ∧ current_step task' = current_step task
    ∧ result task' = result task
    ∧ input_data task' = input_data task
    ∧ created_at task' = created_at task
    ∧ (progress task < 100 → progress task' < 100)
    ∧ (∀ other, other ≠ taskId →
         setTaskError taskId e now taskStorage !! other = taskStorage !! other).
Proof.
  intros Hin. unfold setTaskError. rewrite Hin. eexists.
  split; [apply lookup_insert_eq|]. simpl.
  repeat split; try done.
  intros other Hne. by rewrite lookup_insert_ne.
Qed.

(** A run of the pipeline of src/server.js that ends [failed] leaves the
    task at progress 10, the value written before the step-1 check, and the
    status endpoint reports that value. *)
Lemma failed_run_reports_reached_progress
    (env : Server.Collaborators) (taskId : string)
    (userInfo : Server.UserInfo) (uploadedFiles : list Server.File)
    (clock : nat → Z)
    (taskStorage : gmap string (Task Server.InputData Server.Response))
    (task task' : Task Server.InputData Server.Response)
    (inflight : gmap string (list (StoreOp Server.Response)))
    (issued : gset string) :
  taskStorage !! taskId = Some task →
  performAll taskId clock 0
    (calls (Server.processAnalysisTask env taskId userInfo uploadedFiles))
    taskStorage !! taskId = Some task' →
  status task' = FAILED →
  progress task' = 10
  ∧ ∃ payload,
      Server.report_status taskId
        {| Server.taskStorage :=
             performAll taskId clock 0
               (calls (Server.processAnalysisTask env taskId userInfo
                         uploadedFiles))
               taskStorage;
           Server.inflight := inflight;
           Server.issued := issued |}
      = Server.Ok payload
      ∧ Server.st_failed payload = Some true
      ∧ Server.st_progress payload = 10.
Proof.
  intros Hin Hfinal Hfailed.
  assert (progress task' = 10) as Hreached.
  { rewrite performAll_lookup, Hin in Hfinal. injection Hfinal as <-.
    destruct (all_whitespace (Server.nickname userInfo)) eqn:Hnick.
    - by rewrite (processAnalysisTask_blank env _ _ _ Hnick).
    - destruct (processAnalysisTask_valid env taskId userInfo uploadedFiles
                  Hnick) as (middle & imageAnalyses & _ & _ & Hrun).
      rewrite Hrun in Hfailed. cbn [calls] in Hfailed.
      match type of Hfailed with
      | context [performAllTask clock 0 ?ops task] =>
          destruct (performAllTask_result clock ops
                      (responseOf env taskId userInfo imageAnalyses) 0 task)
            as (Hst & _); [by rewrite !last_app|]
      end.
      congruence. }
  split; [exact Hreached|].
  unfold Server.report_status, getTask. cbn [Server.taskStorage].
  rewrite Hfinal, Hfailed. simpl. eexists. split; [reflexivity|].
  by rewrite Hreached.
Qed.

(** ** The serverless variant *)

Section VercelFacts.
Import Api.
Variable env : Collaborators.

Lemma generateFinalReport_resolves userInfo ragResult :
  ∃ report, generateFinalReport env userInfo ragResult = Resolved report.
Proof.
  unfold generateFinalReport.
  repeat (case_match; try (eexists; reflexivity)).
Qed.

(** A run of [processAnalysisVercel] makes exactly one store call, a
    terminal write. *)
Lemma processAnalysisVercel_single_write taskId userInfo :
  (∃ result, calls (processAnalysisVercel env taskId userInfo)
             = [OpSetTaskResult result])
  ∨ (∃ e, calls (processAnalysisVercel env taskId userInfo)
          = [OpSetTaskError e]).
Proof.
  unfold processAnalysisVercel, stageSequence.
  destruct (callRAGSystemVercel env _ _) as [ragResult|e];
    [|right; eexists; reflexivity].
  destruct (generateFinalReport_resolves userInfo ragResult)
    as [report Hreport].
  unfold mbind, M_bind, bind, tryCatch. simpl. rewrite Hreport. simpl.
  destruct ragResult; simpl;
    [right; eexists; reflexivity|left; eexists; reflexivity..].
Qed.

End VercelFacts.

(** The submission endpoint of src/server.js answers a request whose
    nickname is missing, empty or white space only with 400, [success: false]
    and an error, and leaves the server, task store included, as it was. *)
Lemma blank_nickname_rejected
    (env : Server.Collaborators) (taskId : string) (now : Z)
    (req : Server.Request) (σ : Server.ServerState) :
  all_whitespace (default "" (Server.body_nickname req)) = true →
  let answer := Server.generate_warning_report env taskId now req σ in
  Server.http_status answer.1 = 400
  ∧ Server.s_success answer.1 = false
  ∧ is_Some (Server.s_error answer.1)
  ∧ Server.s_task_id answer.1 = None
  ∧ answer.2 = σ.
Proof.
  intros Hblank. unfold Server.generate_warning_report. simpl.
  assert (all_whitespace (or_str (default "" (Server.body_nickname req)) "")
          = true) as ->.
  { unfold or_str. by destruct (String.eqb _ ""). }
  simpl. eauto.
Qed.

(** C3 on src/api/server.js.  The submission endpoint of the serverless
    variant answers a request with an empty nickname with 200,
    [success: true] and a task id, and the task store has one more record,
    a pending task. *)
Theorem vercel_accepts_blank_nickname :
  let answer :=
    Api.generate_warning_report Scenario.working "task-9" 1000
      Scenario.vercelBlankRequest Scenario.vercelEmpty in
  Api.http_status answer.1 = 200
  ∧ Api.s_success answer.1 = true
  ∧ Api.s_task_id answer.1 = Some "task-9"
  ∧ base.size (Api.taskStorage Scenario.vercelEmpty) = 0%nat
  ∧ base.size (Api.taskStorage answer.2) = 1%nat
  ∧ (status <$> getTask "task-9" (Api.taskStorage answer.2)) = Some PENDING.
Proof. vm_compute. repeat split. Qed.

(** C4, as the code has it.  In src/server.js no step takes a [pending]
    task to a terminal state: the first store call of the pipeline sets
    [processing].  The pipeline of src/api/server.js makes a single store
    call, the terminal write, so there a task goes from [pending] straight
    to [completed] or [failed]. *)
Theorem processing_before_terminal
    (σ σ' : Server.ServerState) (taskId : string)
    (task task' : Task Server.InputData Server.Response)
    (vercel : Api.Collaborators) (vercelId : string)
    (userInfo : Api.UserInfo) :
  Server.reachable σ → Server.step σ σ' →
  Server.taskStorage σ !! taskId = Some task →
  Server.taskStorage σ' !! taskId = Some task' →
  status task = PENDING →
  (status task' = PENDING ∨ status task' = PROCESSING)
  ∧ ((∃ result, calls (Api.processAnalysisVercel vercel vercelId userInfo)
                = [OpSetTaskResult result])
     ∨ (∃ e, calls (Api.processAnalysisVercel vercel vercelId userInfo)
             = [OpSetTaskError e])).
Proof.
  intros Hreach Hstep Hin Hin' Hpending. split.
  - by eapply pending_then_processing_step.
  - apply processAnalysisVercel_single_write.
Qed.

(** C4 fails on src/api/server.js: the task created by a submission is
    [pending], its pipeline has one store call to make, and that call takes
    it to [completed]. *)
Lemma vercel_skips_processing :
  let created :=
    (Api.generate_warning_report Scenario.working "task-9" 1000
       Scenario.vercelBlankRequest Scenario.vercelEmpty).2 in
  ∃ result,
    (status <$> Api.taskStorage created !! "task-9") = Some PENDING
    ∧ Api.inflight created !! "task-9" = Some [OpSetTaskResult result]
    ∧ (status <$> perform "task-9" 1001 (OpSetTaskResult result)
                    (Api.taskStorage created) !! "task-9") = Some COMPLETED.
Proof. eexists. vm_compute. repeat split. Qed.

(** C5, as the code has it.  For a [failed] task the status endpoint of
    src/server.js answers with [completed: true], [failed: true], the task's
    [error], its [processing_time] and the generic [fallback_report]; the one
    of src/api/server.js answers with [completed: true], [failed: true] and
    the task's [error], and has no [fallback_report]. *)
Theorem failed_status_payload
    (σ : Server.ServerState) (σv : Api.ServerState) (taskId : string)
    (task : Task Server.InputData Server.Response)
    (taskv : Task Api.UserInfo Api.Result) :
  Server.taskStorage σ !! taskId = Some task → status task = FAILED →
  Api.taskStorage σv !! taskId = Some taskv → status taskv = FAILED →
  (∃ payload,
     Server.report_status taskId σ = Server.Ok payload
     ∧ Server.st_completed payload = Some true
     ∧ Server.st_failed payload = Some true
     ∧ Server.st_error payload = error task
     ∧ Server.st_processing_time payload = Some (processing_time task)
     ∧ Server.st_fallback_report payload = Some Server.generateFallbackReport)
  ∧ (∃ payload,
       Api.report_status taskId σv = Api.Ok payload
       ∧ Api.st_completed payload = Some true
       ∧ Api.st_failed payload = Some true
       ∧ Api.st_error payload = error taskv
       ∧ Api.st_fallback_report payload = None).
Proof.
  intros Hin Hfailed Hinv Hfailedv. split.
  - unfold Server.report_status, getTask. rewrite Hin, Hfailed. simpl.
    eexists. split; [reflexivity|]. done.
  - unfold Api.report_status, getTask. rewrite Hinv, Hfailedv. simpl.
    eexists. split; [reflexivity|]. done.
Qed.

(** ** The client poller *)

Section PollerFacts.
Import Client.
Variables (responses : nat → Poll) (taskId : string).

Lemma observe_bind_call (event : Event) (rest : M Event Json) :
  observe (call event ≫= fun _ => rest)
  = (waits (event :: calls rest), fetches (event :: calls rest),
     completion rest).
Proof. reflexivity. Qed.

(** One iteration, case by case. *)
Lemma pollIteration_cases (i : nat) :
  match responses i with
  | Answer statusResult =>
      if sr_completed statusResult then
        if sr_failed statusResult then True
        else
          completion (pollIteration responses taskId i)
          = Normal (Some (sr_result statusResult))
          ∧ waits (calls (pollIteration responses taskId i)) = []
          ∧ fetches (calls (pollIteration responses taskId i)) = 1%nat
      else
        completion (pollIteration responses taskId i) = Normal None
        ∧ waits (calls (pollIteration responses taskId i))
          = (if bool_decide (i < 59)%nat then [5000] else [])
        ∧ fetches (calls (pollIteration responses taskId i)) = 1%nat
  | FetchRejects e =>
      completion (pollIteration responses taskId i)
      = (if bool_decide (i = 59)%nat then Throw e else Normal None)
      ∧ waits (calls (pollIteration responses taskId i))
        = (if bool_decide (i = 59)%nat then [] else [2000])
      ∧ fetches (calls (pollIteration responses taskId i)) = 1%nat
  | NotOk status statusText =>
      completion (pollIteration responses taskId i)
      = (if bool_decide (i = 59)%nat
         then Throw (statusQueryFailed status statusText) else Normal None)
      ∧ waits (calls (pollIteration responses taskId i))
        = (if bool_decide (i = 59)%nat then [] else [2000])
      ∧ fetches (calls (pollIteration responses taskId i)) = 1%nat
  end.
Proof.
  unfold pollIteration, maxPolls.
  destruct (responses i) as [e|status statusText|statusResult].
  - unfold tryCatch, mbind, M_bind, bind. simpl.
    change (60 - 1)%nat with 59%nat. by case_bool_decide.
  - unfold tryCatch, mbind, M_bind, bind. simpl.
    change (60 - 1)%nat with 59%nat. by case_bool_decide.
  - unfold tryCatch, mbind, M_bind, bind. simpl.
    destruct (sr_completed statusResult); simpl.
    + by destruct (sr_failed statusResult).
    + change (60 - 1)%nat with 59%nat.
      by case_bool_decide.
Qed.

End PollerFacts.

Section PollerContract.
Import Client.
Variables (responses : nat → Poll) (taskId : string).

Lemma waits_app (events1 events2 : list Event) :
  waits (events1 ++ events2) = (waits events1 ++ waits events2)%list.
Proof.
  induction events1 as [|[]]; simpl; [done|done|done|by f_equal].
Qed.

Lemma fetches_app (events1 events2 : list Event) :
  fetches (events1 ++ events2) = (fetches events1 + fetches events2)%nat.
Proof. induction events1 as [|[]]; simpl; [done|by f_equal|done|done]. Qed.

Lemma pollIteration_one_fetch (i : nat) :
  fetches (calls (pollIteration responses taskId i)) = 1%nat.
Proof.
  unfold pollIteration, tryCatch, mbind, M_bind, bind. simpl.
  destruct (responses i) as [e|status statusText|statusResult]; simpl.
  - by case_bool_decide.
  - by case_bool_decide.
  - destruct (sr_completed statusResult); simpl.
    + destruct (sr_failed statusResult); simpl; [by case_bool_decide|done].
    + by case_bool_decide.
Qed.

(** Whatever the answers, a run makes at most as many requests as it has
    iterations. *)
Lemma pollFrom_fetches_bound (remaining : nat) : ∀ i,
  (fetches (calls (pollFrom responses taskId remaining i)) ≤ remaining)%nat.
Proof.
  induction remaining as [|remaining IH]; intros i; simpl; [done|].
  unfold mbind, M_bind, bind.
  pose proof (pollIteration_one_fetch i) as Hone.
  destruct (completion (pollIteration responses taskId i)) as [[result|]|e];
    simpl; rewrite ?fetches_app; simpl; [lia| |lia].
  specialize (IH (S i)). lia.
Qed.

Lemma pollFrom_step (remaining i : nat) :
  completion (pollIteration responses taskId i) = Normal None →
  observe (pollFrom responses taskId (S remaining) i)
  = ((waits (calls (pollIteration responses taskId i))
      ++ (observe (pollFrom responses taskId remaining (S i))).1.1)%list,
     (fetches (calls (pollIteration responses taskId i))
      + (observe (pollFrom responses taskId remaining (S i))).1.2)%nat,
     (observe (pollFrom responses taskId remaining (S i))).2).
Proof.
  intros Hnone. unfold observe. simpl. unfold mbind, M_bind, bind.
  rewrite Hnone. simpl. by rewrite waits_app, fetches_app.
Qed.

Lemma pollFrom_stop (remaining i : nat) (outcome : Completion Json) :
  match outcome with
  | Normal result =>
      completion (pollIteration responses taskId i) = Normal (Some result)
  | Throw e => completion (pollIteration responses taskId i) = Throw e
  end →
  observe (pollFrom responses taskId (S remaining) i)
  = (waits (calls (pollIteration responses taskId i)),
     fetches (calls (pollIteration responses taskId i)), outcome).
Proof.
  intros Hstop. unfold observe. simpl. unfold mbind, M_bind, bind.
  destruct outcome as [result|e]; rewrite Hstop; simpl;
    by rewrite ?app_nil_r.
Qed.

Lemma pollFrom_meets_contract (remaining : nat) : ∀ i expected,
  contractFrom responses remaining i = Some expected →
  observe (pollFrom responses taskId remaining i) = expected.
Proof.
  induction remaining as [|remaining IH]; intros i expected Hcontract.
  - simpl in Hcontract. by injection Hcontract as <-.
  - simpl in Hcontract. pose proof (pollIteration_cases responses taskId i)
      as Hcase.
    destruct (responses i) as [e|status statusText|statusResult].
    + destruct Hcase as (Hend & Hwaits & Hfetch).
      case_bool_decide.
      * injection Hcontract as <-.
        rewrite (pollFrom_stop _ _ (Throw e)) by done.
        by rewrite Hwaits, Hfetch.
      * destruct (contractFrom responses remaining (S i)) as [later|] eqn:Hl;
          [|done].
        injection Hcontract as <-. rewrite pollFrom_step by done.
        rewrite Hwaits, Hfetch, (IH _ _ Hl). done.
    + destruct Hcase as (Hend & Hwaits & Hfetch).
      case_bool_decide.
      * injection Hcontract as <-.
        rewrite (pollFrom_stop _ _ (Throw (statusQueryFailed status statusText)))
          by done.
        by rewrite Hwaits, Hfetch.
      * destruct (contractFrom responses remaining (S i)) as [later|] eqn:Hl;
          [|done].
        injection Hcontract as <-. rewrite pollFrom_step by done.
        rewrite Hwaits, Hfetch, (IH _ _ Hl). done.
    + destruct (sr_completed statusResult).
      * destruct (sr_failed statusResult); [done|].
        destruct Hcase as (Hend & Hwaits & Hfetch).
        injection Hcontract as <-.
        rewrite (pollFrom_stop _ _ (Normal (sr_result statusResult))) by done.
        by rewrite Hwaits, Hfetch.
      * destruct Hcase as (Hend & Hwaits & Hfetch).
        destruct (contractFrom responses remaining (S i)) as [later|] eqn:Hl;
          [|done].
        injection Hcontract as <-. rewrite pollFrom_step by done.
        rewrite Hwaits, Hfetch, (IH _ _ Hl). by case_bool_decide.
Qed.

(** The first event of a run is the initial progress indicator; the
    rest is the loop. *)
Lemma pollTaskStatus_general (remaining : nat) (initial : TaskStatus)
    (expected : list Z * nat * Completion Json) :
  contractFrom responses remaining 0 = Some expected →
  observe (call (SetTaskStatus initial) ≫=
             fun _ => pollFrom responses taskId remaining 0) = expected
  ∧ (fetches (calls (call (SetTaskStatus initial) ≫=
                       fun _ => pollFrom responses taskId remaining 0))
     ≤ remaining)%nat.
Proof.
  intros Hcontract. apply pollFrom_meets_contract in Hcontract.
  split; [exact Hcontract|]. apply (pollFrom_fetches_bound remaining 0).
Qed.

End PollerContract.

(** C6, as the code has it.  In a run of [pollTaskStatus] in which no answer
    reports a failed task, what is observed is what the contract says: at
    most 60 polls; a wait of 5 s after an answer without terminal status and
    of 2 s after a poll that failed; the result is returned at the first
    answer reporting completed and not failed; after 60 polls without such
    an answer the timeout error is thrown if the last poll was answered and
    the last poll's own error if it failed.  The bound of 60 polls holds for
    every run. *)
Theorem poller_meets_contract
    (responses : nat → Client.Poll) (taskId : string)
    (expected : list Z * nat * Completion Json) :
  pollerContract responses = Some expected →
  observe (Client.pollTaskStatus responses taskId) = expected
  ∧ (fetches (calls (Client.pollTaskStatus responses taskId)) ≤ 60)%nat.
Proof.
  exact (pollTaskStatus_general responses taskId Client.maxPolls
           (Client.mkTaskStatus taskId "processing" 0 "开始处理任务...")
           expected).
Qed.

(** C6 fails as stated: when every poll fails with a network error, the
    waits between the polls are 2 s, not 5 s, and after the 60th poll the
    network error is thrown, not the timeout error. *)
Lemma poller_retry_is_not_five_seconds :
  observe (Client.pollTaskStatus Scenario.blips "task-1")
  = (replicate 59 2000, 60%nat, Throw (mkError "network blip"))
  ∧ mkError "network blip" ≠ Client.timeoutError.
Proof. split; [by vm_compute|done]. Qed.

(** The poller does not stop at an answer that reports a failed task: the
    [throw] is inside the [try] whose [catch] retries, so it asks again
    every 2 s and throws the task's error only after the 60th poll. *)
Lemma poller_retries_failed_report :
  observe (Client.pollTaskStatus Scenario.alwaysFailed "task-1")
  = (replicate 59 2000, 60%nat, Throw (mkError "boom")).
Proof. by vm_compute. Qed.

(** ** The statements on concrete runs *)

Section ScenarioFacts.
Import Scenario.

Lemma failing_collaborators_fail : collaborators_fail failing.
Proof. by split. Qed.

Lemma submitted_lookup :
  Server.taskStorage submitted !! "task-1" = Some aliceTask.
Proof. by vm_compute. Qed.

Lemma submitted_reachable : Server.reachable submitted.
Proof.
  apply rtc_once. apply Server.step_submit. simpl. set_solver.
Qed.

Lemma submitted_inflight :
  Server.inflight submitted !! "task-1" = Some aliceScript.
Proof. by vm_compute. Qed.

Lemma started_step : Server.step submitted started.
Proof.
  apply (Server.step_pipeline "task-1" 1001
           (OpUpdateTaskStatus PROCESSING "开始数据验证" 10)
           (tail aliceScript) submitted).
  by vm_compute.
Qed.

Lemma started_lookup :
  Server.taskStorage started !! "task-1"
  = Some (performTask 1001
            (OpUpdateTaskStatus PROCESSING "开始数据验证" 10) aliceTask).
Proof. by vm_compute. Qed.

Lemma finished_reachable : Server.reachable finished.
Proof.
  apply (reachable_drain "task-1" ticking aliceScript 0 submitted).
  - apply submitted_reachable.
  - apply submitted_inflight.
Qed.

Lemma finished_lookup :
  Server.taskStorage finished !! "task-1" = Some aliceDone.
Proof. by vm_compute. Qed.

End ScenarioFacts.

(** Alice's run with collaborators that all fail ends completed, on
    fallbacks. *)
Lemma pipeline_degrades_gracefully_witness :
  Server.taskStorage Scenario.submitted !! "task-1" = Some Scenario.aliceTask
  ∧ ∃ task',
      performAll "task-1" Scenario.ticking 0
        (calls (Server.processAnalysisTask Scenario.failing "task-1"
                  Scenario.alice [Scenario.photo]))
        (Server.taskStorage Scenario.submitted) !! "task-1" = Some task'
      ∧ status task' = COMPLETED
      ∧ ∃ response, result task' = Some response
                    ∧ fallback_based Scenario.failing response.
Proof.
  split; [apply submitted_lookup|].
  destruct (pipeline_degrades_gracefully Scenario.failing "task-1"
              Scenario.alice [Scenario.photo] Scenario.ticking
              (Server.taskStorage Scenario.submitted) Scenario.aliceTask
              submitted_lookup)
    as (task' & Hlookup & Hfallback & _).
  exists task'. split; [exact Hlookup|].
  apply Hfallback; [reflexivity|apply failing_collaborators_fail].
Defined.

(** The first store call of Alice's pipeline takes her task from 0 to
    10. *)
Lemma progress_bounded_and_monotone_witness :
  progress Scenario.aliceTask = 0
  ∧ progress Scenario.aliceTask
    ≤ progress (performTask 1001
                  (OpUpdateTaskStatus PROCESSING "开始数据验证" 10)
                  Scenario.aliceTask) ≤ 100.
Proof.
  destruct (progress_bounded_and_monotone Scenario.submitted Scenario.started
              "task-1" Scenario.aliceTask _
              submitted_reachable started_step submitted_lookup started_lookup)
    as (Hzero & _ & _ & Hmono & _).
  split; [apply Hzero; reflexivity|exact Hmono].
Defined.

(** The same step takes her task from pending to processing; the run of
    the serverless variant makes one store call. *)
Lemma processing_before_terminal_witness :
  status (performTask 1001
            (OpUpdateTaskStatus PROCESSING "开始数据验证" 10)
            Scenario.aliceTask) = PROCESSING
  ∧ ∃ op, calls (Api.processAnalysisVercel Scenario.working "task-9"
                   Scenario.blankUser) = [op].
Proof.
  destruct (processing_before_terminal Scenario.submitted Scenario.started
              "task-1" Scenario.aliceTask _
              Scenario.working "task-9" Scenario.blankUser
              submitted_reachable started_step submitted_lookup started_lookup
              eq_refl)
    as ([Hpending|Hprocessing] & [[result Hwrite]|[e Hwrite]]).
  - discriminate Hpending.
  - discriminate Hpending.
  - split; [exact Hprocessing|]. by exists (OpSetTaskResult result).
  - split; [exact Hprocessing|]. by exists (OpSetTaskError e).
Defined.

(** The answers of the two status endpoints for a failed task. *)
Lemma failed_status_payload_witness :
  (∃ payload,
     Server.report_status "task-2" Scenario.withFailed = Server.Ok payload
     ∧ Server.st_fallback_report payload = Some Server.generateFallbackReport)
  ∧ (∃ payload,
       Api.report_status "task-2" Scenario.vercelWithFailed = Api.Ok payload
       ∧ Api.st_fallback_report payload = None).
Proof.
  destruct (failed_status_payload Scenario.withFailed Scenario.vercelWithFailed
              "task-2" Scenario.failedTask Scenario.vercelFailedTask
              eq_refl eq_refl eq_refl eq_refl)
    as ((payload & Hanswer & _ & _ & _ & _ & Hfallback)
        & (payloadv & Hanswerv & _ & _ & _ & Hnone)).
  split; [by exists payload|by exists payloadv].
Defined.

(** C5 fails on src/api/server.js: the answer for a failed task carries
    neither a [fallback_report] nor a [processing_time]. *)
Lemma vercel_failed_payload_is_reduced :
  ∃ payload,
    Api.report_status "task-2" Scenario.vercelWithFailed = Api.Ok payload
    ∧ Api.st_failed payload = Some true
    ∧ Api.st_fallback_report payload = None
    ∧ Api.st_processing_time payload = None.
Proof. eexists. by vm_compute. Qed.

(** Alice's task after the whole run has a result and no error. *)
Lemma result_xor_error_witness :
  status Scenario.aliceDone = COMPLETED
  ∧ is_Some (result Scenario.aliceDone) ∧ error Scenario.aliceDone = None.
Proof.
  pose proof (result_xor_error Scenario.finished "task-1" Scenario.aliceDone
                finished_reachable finished_lookup) as Hxor.
  split; [reflexivity|exact Hxor].
Defined.

(** A sweep at time 5000 finds her completed task and leaves it
    completed. *)
Lemma terminal_is_absorbing_witness :
  terminal (status Scenario.aliceDone) = true
  ∧ ∀ later,
      cleanupOldTasks 5000 (Server.taskStorage Scenario.finished) !! "task-1"
      = Some later →
      status later = COMPLETED.
Proof.
  split; [reflexivity|]. intros later Hlater.
  destruct (terminal_is_absorbing Scenario.finished
              {| Server.taskStorage :=
                   cleanupOldTasks 5000 (Server.taskStorage Scenario.finished);
                 Server.inflight := Server.inflight Scenario.finished;
                 Server.issued := Server.issued Scenario.finished |}
              "task-1" Scenario.aliceDone later
              finished_reachable
              (rtc_once _ _ (Server.step_cleanup 5000 Scenario.finished))
              finished_lookup eq_refl Hlater)
    as [Hstatus _].
  rewrite Hstatus. reflexivity.
Defined.

(** The sweep one hour and one millisecond after her submission deletes
    her task, still pending. *)
Lemma sweep_forgets_old_tasks_witness :
  created_at Scenario.aliceTask < Scenario.sweepTime - 3600000
  ∧ getTask "task-1" (Server.taskStorage Scenario.swept) = None.
Proof.
  assert (created_at Scenario.aliceTask < Scenario.sweepTime - 3600000)
    as Hold by (vm_compute; reflexivity).
  split; [exact Hold|].
  apply (sweep_forgets_old_tasks Scenario.submitted Scenario.swept
           Scenario.sweepTime "task-1" Scenario.aliceTask
           submitted_reachable submitted_lookup Hold).
  apply rtc_refl.
Defined.

(** An error written while her task is at 10 leaves it failed at 10. *)
Lemma setTaskError_frame_witness :
  ∃ task',
    setTaskError "task-1" Scenario.down 1500
      (Server.taskStorage Scenario.started) !! "task-1" = Some task'
    ∧ status task' = FAILED ∧ progress task' = 10.
Proof.
  destruct (setTaskError_frame "task-1" Scenario.down 1500
              (Server.taskStorage Scenario.started) _ started_lookup)
    as (task' & Hlookup & _ & Hstatus & _ & _ & _ & Hprogress & _).
  exists task'. split; [exact Hlookup|]. split; [exact Hstatus|].
  exact Hprogress.
Defined.

(** A blip, an answer in progress, then the completed answer: waits of 2 s
    and 5 s, three polls, the result. *)
Lemma poller_meets_contract_witness :
  pollerContract Scenario.blipThenDone
  = Some ([2000; 5000], 3%nat, Normal (Client.sr_result Scenario.doneAnswer))
  ∧ observe (Client.pollTaskStatus Scenario.blipThenDone "task-1")
    = ([2000; 5000], 3%nat, Normal (Client.sr_result Scenario.doneAnswer)).
Proof.
  assert (pollerContract Scenario.blipThenDone
          = Some ([2000; 5000], 3%nat,
                  Normal (Client.sr_result Scenario.doneAnswer)))
    as Hcontract by (vm_compute; reflexivity).
  split; [exact Hcontract|].
  apply (poller_meets_contract Scenario.blipThenDone "task-1" _ Hcontract).
Defined.

(** * Further properties of the code *)

Import Coverage.

(** ** The task store on its own *)

(** X1.  Store calls for an identifier that is not in the store (never
    created, or swept) change nothing: [updateTaskStatus] answers [false],
    and a whole run of store calls leaves the store as it was. *)
Theorem missing_task_is_never_written {Input Result : Type}
    (taskId : string) (clock : nat → Z) (k : nat)
    (ops : list (StoreOp Result))
    (taskStorage : gmap string (Task Input Result)) :
  getTask taskId taskStorage = None →
  performAll taskId clock k ops taskStorage = taskStorage
  ∧ ∀ st currentStep p data now,
      updateTaskStatus taskId st currentStep p data now taskStorage
      = (false, taskStorage).
Proof.
  unfold getTask. intros Hout. split.
  - revert k. induction ops as [|op rest IH]; intros k; simpl; [done|].
    by rewrite perform_absent.
  - intros. unfold updateTaskStatus. by rewrite Hout.
Qed.

(** X2.  [createTask] followed by [getTask] on the new identifier gives a
    pending record with progress 0, no result, no error and the input as
    given; every other identifier reads as before.  A record already stored
    under that identifier is replaced. *)
Theorem createTask_then_getTask {Input Result : Type}
    (taskId : string) (now : Z) (input : Input)
    (taskStorage : gmap string (Task Input Result)) :
  (createTask taskId now input taskStorage).1 = taskId
  ∧ getTask taskId (createTask taskId now input taskStorage).2
    = Some (freshTask taskId now input)
  ∧ ∀ other, other ≠ taskId →
      getTask other (createTask taskId now input taskStorage).2
      = getTask other taskStorage.
Proof.
  unfold createTask, getTask, freshTask. simpl. split; [done|]. split.
  - by rewrite lookup_insert_eq.
  - intros other Hne. by rewrite lookup_insert_ne.
Qed.

(** X3.  [updateTaskStatus] as the pipeline calls it (no extra data) writes
    status, step, progress and [updated_at] of the record it finds, whatever
    the record's status was: it does not refuse a record that is already
    completed or failed.  Result, error, creation time, input and processing
    time keep their values, and no other record changes. *)
Theorem updateTaskStatus_frame {Input Result : Type}
    (taskId : string) (st : TaskStatus) (currentStep : string) (p now : Z)
    (taskStorage : gmap string (Task Input Result)) (task : Task Input Result) :
  getTask taskId taskStorage = Some task →
  ∃ task',
    updateTaskStatus taskId st currentStep p [] now taskStorage
    = (true, <[taskId := task']> taskStorage)
    ∧ status task' = st
    ∧ current_step task' = currentStep
    ∧ progress task' = p
    ∧ updated_at task' = now
    ∧ id task' = id task
    ∧ result task' = result task
    ∧ error task' = error task
    ∧ created_at task' = created_at task
    ∧ input_data task' = input_data task
    ∧ processing_time task' = processing_time task.
Proof.
  unfold getTask, updateTaskStatus. intros ->. eexists. split; [reflexivity|].
  done.
Qed.

(** X4.  [setTaskResult] writes result, status [completed], progress 100,
    the processing time (now minus creation time) and [updated_at]; it
    leaves [error], [current_step], [id], [input_data] and [created_at] as
    they were, so a record that had an error keeps it; no other record
    changes. *)
Theorem setTaskResult_frame {Input Result : Type}
    (taskId : string) (r : Result) (now : Z)
    (taskStorage : gmap string (Task Input Result)) (task : Task Input Result) :
  getTask taskId taskStorage = Some task →
  ∃ task',
    getTask taskId (setTaskResult taskId r now taskStorage) = Some task'
    ∧ result task' = Some r
    ∧ status task' = COMPLETED
    ∧ progress task' = 100
    ∧ processing_time task' = now - created_at task
    ∧ updated_at task' = now
    ∧ error task' = error task
    ∧ current_step task' = current_step task
    ∧ id task' = id task
    ∧ input_data task' = input_data task
    ∧ created_at task' = created_at task
    ∧ (∀ other, other ≠ taskId →
         getTask other (setTaskResult taskId r now taskStorage)
         = getTask other taskStorage).
Proof.
  unfold getTask, setTaskResult. intros ->. eexists.
  split; [apply lookup_insert_eq|]. simpl. repeat split; try done.
  intros other Hne. by rewrite lookup_insert_ne.
Qed.

(** X5.  Sweeps compose: a sweep at time [a] followed by a sweep at time
    [b] leaves what a single sweep at the later of the two times leaves; in
    particular a second sweep at the same time changes nothing.  A sweep
    never adds or alters a record. *)
Theorem cleanupOldTasks_composes {Input Result : Type}
    (a b : Z) (taskStorage : gmap string (Task Input Result)) :
  cleanupOldTasks b (cleanupOldTasks a taskStorage)
  = cleanupOldTasks (Z.max a b) taskStorage
  ∧ cleanupOldTasks a (cleanupOldTasks a taskStorage)
    = cleanupOldTasks a taskStorage
  ∧ cleanupOldTasks a taskStorage ⊆ taskStorage.
Proof.
  assert (∀ x y, cleanupOldTasks y (cleanupOldTasks x taskStorage)
                 = cleanupOldTasks (Z.max x y) taskStorage) as Hcompose.
  { intros x y. apply map_eq. intros taskId.
    rewrite !cleanupOldTasks_lookup.
    destruct (taskStorage !! taskId) as [task|]; [|done].
    repeat case_decide; try done; lia. }
  split; [apply Hcompose|]. split.
  - rewrite Hcompose. by rewrite Z.max_id.
  - apply map_filter_subseteq.
Qed.

(** X6.  A run of store calls for one task leaves every other record as it
    was. *)
Theorem run_touches_only_its_own_record {Input Result : Type}
    (taskId other : string) (clock : nat → Z) (k : nat)
    (ops : list (StoreOp Result))
    (taskStorage : gmap string (Task Input Result)) :
  other ≠ taskId →
  getTask other (performAll taskId clock k ops taskStorage)
  = getTask other taskStorage.
Proof.
  intros Hne. unfold getTask. revert k taskStorage.
  induction ops as [|op rest IH]; intros k taskStorage; simpl; [done|].
  rewrite IH. by apply perform_lookup_ne.
Qed.

(** ** The server of src/server.js as a whole *)

Section NeverFailing.
Import Server.

Lemma ascending_progress_or_result {Result} lo hi
    (ops : list (StoreOp Result)) :
  ascending lo hi ops → Forall progress_or_result ops.
Proof.
  revert lo. induction ops as [|[st step q| |] rest IH]; simpl; intros lo H;
    try done.
  destruct H as (-> & _ & Hrest). constructor; [done|]. by eapply IH.
Qed.

Lemma valid_run_never_errs env taskId userInfo uploadedFiles :
  all_whitespace (nickname userInfo) = false →
  Forall progress_or_result
    (calls (processAnalysisTask env taskId userInfo uploadedFiles)).
Proof.
  intros Hvalid.
  destruct (processAnalysisTask_valid env taskId userInfo uploadedFiles Hvalid)
    as (middle & imageAnalyses & _ & Hasc & ->).
  cbn [calls]. repeat (apply Forall_app; split).
  - by repeat constructor.
  - by eapply ascending_progress_or_result.
  - by repeat constructor.
Qed.

Lemma never_failing_step σ σ' :
  never_failing σ → step σ σ' → never_failing σ'.
Proof.
  intros (Hflight & Hstore) Hstep.
  destruct Hstep as [env taskId now req σ Hfresh
                    |taskId now op rest σ Hnext
                    |now σ
                    |taskId σ]; [| | |done].
  - unfold generate_warning_report.
    destruct (all_whitespace _) eqn:Hnick; simpl; [done|]. split; simpl.
    + intros other rem Hrem.
      destruct (decide (taskId = other)) as [->|Hne].
      * rewrite lookup_insert_eq in Hrem. injection Hrem as <-.
        by apply valid_run_never_errs.
      * rewrite lookup_insert_ne in Hrem by done. by eapply Hflight.
    + intros other task Hin.
      destruct (decide (taskId = other)) as [->|Hne].
      * rewrite lookup_insert_eq in Hin. by injection Hin as <-.
      * rewrite lookup_insert_ne in Hin by done. by eapply Hstore.
  - pose proof (Hflight _ _ Hnext) as Hops.
    apply Forall_cons in Hops as [Hop Hrest]. split; simpl.
    + intros other rem Hrem.
      destruct (decide (taskId = other)) as [->|Hne].
      * rewrite lookup_insert_eq in Hrem. by injection Hrem as <-.
      * rewrite lookup_insert_ne in Hrem by done. by eapply Hflight.
    + intros other task Hin.
      destruct (decide (taskId = other)) as [->|Hne].
      * rewrite perform_lookup_eq in Hin.
        destruct (taskStorage σ !! other) as [before|] eqn:Hbefore; [|done].
        injection Hin as <-.
        destruct op as [st step q|r|e]; simpl in *; [by subst st|done|done].
      * rewrite perform_lookup_ne in Hin by done. by eapply Hstore.
  - split; simpl; [done|]. intros other task Hin.
    rewrite cleanupOldTasks_lookup in Hin.
    destruct (taskStorage σ !! other) as [kept|] eqn:Hkept; [|done].
    case_decide; [done|]. injection Hin as <-. by eapply Hstore.
Qed.

Lemma never_failing_reachable σ : reachable σ → never_failing σ.
Proof.
  unfold reachable. intros Hreach.
  eapply (rtc_ind_r (fun σ => never_failing σ) initialState);
    [|intros ? ? _ Hstep Hinv; by eapply never_failing_step|exact Hreach].
  split; simpl; intros taskId ?; by rewrite lookup_empty.
Qed.

(** The remaining store calls of a pipeline can all be made, one step
    each. *)
Lemma steps_drain taskId clock ops : ∀ k σ,
  inflight σ !! taskId = Some ops →
  rtc step σ {| taskStorage := performAll taskId clock k ops (taskStorage σ);
                inflight := <[taskId := []]> (inflight σ);
                issued := issued σ |}.
Proof.
  induction ops as [|op rest IH]; intros k σ Hflight; simpl.
  - rewrite insert_id by done. by destruct σ.
  - eapply rtc_l; [exact (step_pipeline taskId (clock k) op rest σ Hflight)|].
    specialize (IH (S k)
                  {| taskStorage := perform taskId (clock k) op (taskStorage σ);
                     inflight := <[taskId := rest]> (inflight σ);
                     issued := issued σ |}).
    simpl in IH. rewrite insert_insert_eq in IH. apply IH.
    by rewrite lookup_insert_eq.
Qed.

End NeverFailing.

(** X7.  The status endpoint of src/server.js answers "not found" exactly
    for identifiers that are not in the store.  For a task of a reachable
    state it reports the task's status and progress, and [completed: true]
    exactly when the status is terminal; a completed task comes with its
    result and processing time. *)
Theorem report_status_reads_the_store
    (σ : Server.ServerState) (taskId : string)
    (task : Task Server.InputData Server.Response) :
  Server.reachable σ →
  Server.taskStorage σ !! taskId = Some task →
  (∀ missing, Server.taskStorage σ !! missing = None ↔
     Server.report_status missing σ
     = Server.NotFound "任务不存在或已过期" missing)
  ∧ ∃ payload,
      Server.report_status taskId σ = Server.Ok payload
      ∧ Server.st_status payload = status_string (status task)
      ∧ Server.st_progress payload = progress task
      ∧ Server.st_completed payload = Some (terminal (status task))
      ∧ (status task = COMPLETED →
         Server.st_result payload = result task
         ∧ is_Some (Server.st_result payload)
         ∧ Server.st_processing_time payload = Some (processing_time task)).
Proof.
  intros Hreach Hin. split.
  - intros missing. unfold Server.report_status, getTask.
    destruct (Server.taskStorage σ !! missing) as [found|]; [|done].
    split; [done|]. by repeat case_match.
  - destruct (invariant_reachable _ Hreach) as (_ & _ & Hok).
    specialize (Hok _ _ Hin). unfold task_ok in Hok.
    unfold Server.report_status, getTask. rewrite Hin.
    destruct (status task) eqn:Hstatus; simpl.
    + eexists. split; [reflexivity|]. done.
    + eexists. split; [reflexivity|]. done.
    + destruct Hok as (_ & Hres & _).
      rewrite (bool_decide_eq_true_2 _ Hres). eexists.
      split; [reflexivity|]. done.
    + eexists. split; [reflexivity|]. done.
Qed.

(** X8.  A submission to src/server.js whose nickname is not blank is
    answered 200 with the new task id and its status URL; the estimate is
    60 seconds plus 20 per uploaded file (the lower bound of 30 in the
    source never applies); the store gains exactly the pending record of
    that id, with the number of files in its input snapshot, and every
    other record is as before. *)
Theorem accepted_submission
    (env : Server.Collaborators) (taskId : string) (now : Z)
    (req : Server.Request) (σ : Server.ServerState) :
  all_whitespace (default "" (Server.body_nickname req)) = false →
  let answer := Server.generate_warning_report env taskId now req σ in
  let n := Z.of_nat (List.length (default [] (Server.files req))) in
  Server.http_status answer.1 = 200
  ∧ Server.s_success answer.1 = true
  ∧ Server.s_task_id answer.1 = Some taskId
  ∧ Server.s_status_check_url answer.1 = Some ("/api/report_status/" ++ taskId)
  ∧ Server.s_estimated_time answer.1 = Some (pretty (60 + 20 * n) ++ " 秒")
  ∧ (∃ task,
       getTask taskId (Server.taskStorage answer.2) = Some task
       ∧ status task = PENDING ∧ progress task = 0
       ∧ created_at task = now
       ∧ Server.filesCount (input_data task) = n)
  ∧ (∀ other, other ≠ taskId →
       getTask other (Server.taskStorage answer.2)
       = getTask other (Server.taskStorage σ)).
Proof.
  intros Hvalid. unfold Server.generate_warning_report. simpl.
  assert (all_whitespace (or_str (default "" (Server.body_nickname req)) "")
          = false) as ->.
  { unfold or_str. destruct (String.eqb _ "") eqn:Hempty; [|done].
    apply String.eqb_eq in Hempty. by rewrite Hempty in Hvalid. }
  simpl. unfold getTask. repeat split.
  - rewrite Z.max_r by lia. do 3 f_equal. lia.
  - eexists. split; [apply lookup_insert_eq|]. done.
  - intros other Hne. by rewrite lookup_insert_ne.
Qed.

(** X9.  Behind the submission endpoint of src/server.js no task is ever
    [failed]: the endpoint has already refused a blank nickname, so the
    step-1 check of the pipeline never fires, and no pipeline in flight has
    a [setTaskError] left to make. *)
Theorem no_task_fails_behind_the_endpoint
    (σ : Server.ServerState) (taskId : string)
    (task : Task Server.InputData Server.Response) :
  Server.reachable σ →
  Server.taskStorage σ !! taskId = Some task →
  status task ≠ FAILED
  ∧ error task = None
  ∧ ∀ rem e, Server.inflight σ !! taskId = Some rem →
             OpSetTaskError e ∉ rem.
Proof.
  intros Hreach Hin.
  destruct (never_failing_reachable _ Hreach) as (Hflight & Hstore).
  destruct (invariant_reachable _ Hreach) as (_ & _ & Hok).
  specialize (Hok _ _ Hin). specialize (Hstore _ _ Hin).
  split; [done|]. split.
  - unfold task_ok in Hok. destruct (status task); first [tauto|done].
  - intros rem e Hrem Hmem. specialize (Hflight _ _ Hrem).
    rewrite Forall_forall in Hflight. by apply (Hflight _ Hmem).
Qed.

(** X10.  No task is stuck: from every reachable state of the server of
    src/server.js, a task that is in the store can be brought to
    [completed] by letting its pipeline make its remaining store calls. *)
Theorem every_task_can_complete
    (σ : Server.ServerState) (taskId : string)
    (task : Task Server.InputData Server.Response) :
  Server.reachable σ →
  Server.taskStorage σ !! taskId = Some task →
  ∃ σ' task',
    rtc Server.step σ σ'
    ∧ Server.taskStorage σ' !! taskId = Some task'
    ∧ status task' = COMPLETED
    ∧ progress task' = 100
    ∧ is_Some (result task').
Proof.
  intros Hreach Hin. set (clock := fun _ : nat => 0).
  destruct (Server.inflight σ !! taskId) as [rem|] eqn:Hrem.
  - set (σ' := {| Server.taskStorage :=
                    performAll taskId clock 0 rem (Server.taskStorage σ);
                  Server.inflight := <[taskId := []]> (Server.inflight σ);
                  Server.issued := Server.issued σ |}).
    assert (rtc Server.step σ σ') as Hsteps by by apply steps_drain.
    assert (Server.taskStorage σ' !! taskId
            = Some (performAllTask clock 0 rem task)) as Hin'.
    { simpl. by rewrite performAll_lookup, Hin. }
    assert (Server.reachable σ') as Hreach' by by eapply rtc_trans.
    destruct (never_failing_reachable _ Hreach') as (_ & Hstore).
    destruct (invariant_reachable _ Hreach') as (_ & _ & Hok).
    specialize (Hok _ _ Hin'). specialize (Hstore _ _ Hin').
    exists σ', (performAllTask clock 0 rem task).
    do 2 (split; [done|]).
    simpl in Hok. rewrite lookup_insert_eq in Hok. simpl in Hok.
    unfold task_ok in Hok.
    destruct (status (performAllTask clock 0 rem task));
      simpl in Hok; tauto.
  - destruct (never_failing_reachable _ Hreach) as (_ & Hstore).
    destruct (invariant_reachable _ Hreach) as (_ & _ & Hok).
    specialize (Hok _ _ Hin). specialize (Hstore _ _ Hin).
    rewrite Hrem in Hok. simpl in Hok. unfold task_ok in Hok.
    exists σ, task. split; [done|]. split; [done|].
    destruct (status task); simpl in Hok; tauto.
Qed.

(** ** The pipeline of src/server.js *)

Section Pipeline.
Import Server.
Variable env : Collaborators.

(** The loop pushes one analysis and makes one store call per file, and
    keeps what was pushed before. *)
Lemma imageLoop_shape total files : ∀ i imageAnalyses,
  ∃ ops pushed,
    imageLoop env total i files imageAnalyses
    = mkM ops (Normal (imageAnalyses ++ pushed)%list)
    ∧ List.length ops = List.length files
    ∧ List.length pushed = List.length files.
Proof.
  induction files as [|file rest IH]; intros i imageAnalyses.
  - exists [], []. by rewrite app_nil_r.
  - destruct (classifyAndAnalyze_pure env file) as [one Hpure].
    rewrite (imageLoop_unfold env _ _ _ _ _ _ Hpure).
    destruct (IH (i + 1) (imageAnalyses ++ [one])%list)
      as (ops & pushed & -> & Hops & Hpushed).
    eexists _, (one :: pushed). simpl. split.
    + by rewrite <- app_assoc.
    + simpl. by rewrite Hops, Hpushed.
Qed.

Lemma analyzeImages_shape uploadedFiles :
  ∃ ops imageAnalyses,
    analyzeImages env uploadedFiles = mkM ops (Normal imageAnalyses)
    ∧ List.length imageAnalyses
      = List.length (filter (fun file => validImageFile file) uploadedFiles)
    ∧ List.length ops = S (List.length imageAnalyses).
Proof.
  unfold analyzeImages.
  set (validImageFiles := filter _ uploadedFiles). clearbody validImageFiles.
  destruct (0 <? Z.of_nat (List.length validImageFiles)) eqn:Hsome.
  - destruct (imageLoop_shape (Z.of_nat (List.length validImageFiles))
                validImageFiles 0 []) as (ops & pushed & Hloop & Hops & Hn).
    eexists _, pushed. split.
    + unfold mbind, M_bind, bind. simpl. rewrite Hloop. reflexivity.
    + simpl. by rewrite Hops, Hn.
  - apply Z.ltb_ge in Hsome. eexists _, []. split; [reflexivity|].
    destruct validImageFiles; simpl in *; [done|lia].
Qed.

Lemma filter_valid_twice (uploadedFiles : list File) :
  filter (fun file => validImageFile file)
    (filter (fun file => validImageFile file) uploadedFiles)
  = filter (fun file => validImageFile file) uploadedFiles.
Proof.
  induction uploadedFiles as [|file rest IH]; [done|].
  rewrite filter_cons. case_decide as Hvalid; [|done].
  rewrite filter_cons. rewrite decide_True by done. by rewrite IH.
Qed.

End Pipeline.


(** X12.  A run of [processAnalysisTask] with a non-blank nickname ends
    with [setTaskResult]; the result holds one image analysis per uploaded
    file that passed the validity filter (path set, file on disk, size
    above 0), [images_processed] is that number, [images_successful] is at
    most that number, and the run makes 10 store calls plus one per such
    file. *)
Theorem one_analysis_per_valid_file
    (env : Server.Collaborators) (taskId : string)
    (userInfo : Server.UserInfo) (uploadedFiles : list Server.File) :
  all_whitespace (Server.nickname userInfo) = false →
  let n := List.length
             (filter (fun file => Server.validImageFile file) uploadedFiles) in
  let run := Server.processAnalysisTask env taskId userInfo uploadedFiles in
  ∃ response,
    last (calls run) = Some (OpSetTaskResult response)
    ∧ completion run = Normal tt
    ∧ List.length (Server.r_image_analyses response) = n
    ∧ Server.images_processed (Server.r_analysis_stats response) = Z.of_nat n
    ∧ 0 ≤ Server.images_successful (Server.r_analysis_stats response)
        ≤ Z.of_nat n
    ∧ List.length (calls run) = (10 + n)%nat.
Proof.
  intros Hvalid n run.
  destruct (processAnalysisTask_valid env taskId userInfo uploadedFiles Hvalid)
    as (middle & imageAnalyses & Himages & _ & Hrun).
  destruct (analyzeImages_shape env uploadedFiles)
    as (ops & found & Hshape & Hfound & Hops).
  rewrite Hshape in Himages. injection Himages as <- <-.
  exists (responseOf env taskId userInfo found). subst run. rewrite Hrun.
  cbn [calls completion]. split.
  { rewrite app_assoc.
    change [?a; ?b; ?c; ?d; ?e; ?f; ?g] with ([a; b; c; d; e; f] ++ [g])%list.
    by rewrite app_assoc, last_snoc. }
  split; [done|]. subst n. rewrite <- Hfound. simpl.
  rewrite length_map. split; [done|]. split; [done|]. split.
  - split; [lia|]. apply inj_le, length_filter.
  - rewrite length_app. simpl. rewrite Hops. lia.
Qed.

(** X13.  Uploaded files that fail the validity filter play no part in a
    run: its store calls and its result are those of the run on the valid
    files alone. *)
Theorem invalid_files_are_ignored
    (env : Server.Collaborators) (taskId : string)
    (userInfo : Server.UserInfo) (uploadedFiles : list Server.File) :
  Server.processAnalysisTask env taskId userInfo uploadedFiles
  = Server.processAnalysisTask env taskId userInfo
      (filter (fun file => Server.validImageFile file) uploadedFiles).
Proof.
  assert (Server.analyzeImages env uploadedFiles
          = Server.analyzeImages env
              (filter (fun file => Server.validImageFile file) uploadedFiles))
    as Himages.
  { unfold Server.analyzeImages. by rewrite filter_valid_twice. }
  unfold Server.processAnalysisTask, Server.stageSequence.
  by rewrite Himages.
Qed.

(** X14.  When every collaborator call fails, the result of the run still
    says [success: true], its statistics label the final analysis
    "success" (the fallback report is an object, so the test for a report
    passes), and the retrieval status is "active" whenever the retrieval
    system was found at start-up, although retrieval gave a fallback. *)
Theorem degraded_result_is_labelled_success
    (env : Server.Collaborators) (taskId : string)
    (userInfo : Server.UserInfo) (uploadedFiles : list Server.File) :
  all_whitespace (Server.nickname userInfo) = false →
  collaborators_fail env →
  ∃ response,
    last (calls (Server.processAnalysisTask env taskId userInfo uploadedFiles))
    = Some (OpSetTaskResult response)
    ∧ Server.r_success response = true
    ∧ Server.r_final_report response = Server.generateFallbackReport
    ∧ Server.final_analysis_status (Server.r_analysis_stats response)
      = "success"
    ∧ Server.query_optimization_success (Server.r_analysis_stats response)
      = false
    ∧ (Server.ragSystemReady env = true →
       Server.rag_status (Server.r_analysis_stats response) = "active").
Proof.
  intros Hvalid Hfail.
  destruct (processAnalysisTask_valid env taskId userInfo uploadedFiles Hvalid)
    as (middle & imageAnalyses & _ & _ & ->).
  exists (responseOf env taskId userInfo imageAnalyses). cbn [calls]. split.
  { rewrite app_assoc.
    change [?a; ?b; ?c; ?d; ?e; ?f; ?g] with ([a; b; c; d; e; f] ++ [g])%list.
    by rewrite app_assoc, last_snoc. }
  split; [done|]. unfold responseOf. simpl.
  assert (reportOf env userInfo imageAnalyses
            (knowledgeOf env userInfo imageAnalyses
               (queryOf env userInfo imageAnalyses).2)
          = Server.generateFallbackReport) as ->.
  { unfold reportOf. apply (synthesis_fails env Hfail). }
  split; [done|]. split; [done|]. split.
  - pose proof (expansion_fails env Hfail userInfo imageAnalyses) as Hexp.
    unfold queryOf.
    destruct (Server.enhanceQueryWithAI env userInfo imageAnalyses);
      simpl in *; done.
  - by intros ->.
Qed.

(** ** The client poller, whatever the answers *)

Section PollerShape.
Import Client.
Variables (responses : nat → Poll) (taskId : string).

Lemma lastIndicator_app (events1 events2 : list Event) :
  lastIndicator (events1 ++ events2)
  = match lastIndicator events2 with
    | Some s => Some s
    | None => lastIndicator events1
    end.
Proof.
  induction events1 as [|[i|s|ms] rest IH]; simpl.
  - by destruct (lastIndicator events2).
  - done.
  - rewrite IH. by destruct (lastIndicator events2).
  - done.
Qed.

Lemma totalWait_bound (ws : list Z) :
  Forall (fun w => w = 5000 ∨ w = 2000) ws →
  0 ≤ totalWait ws ≤ 5000 * Z.of_nat (List.length ws).
Proof.
  induction 1 as [|w rest Hw _ IH]; simpl; [lia|].
  unfold totalWait in *. simpl. destruct Hw; lia.
Qed.

(** One iteration, whatever the answer: one request; it returns without
    waiting, or goes on after one wait (none after the 60th poll), or
    throws, which only the 60th poll does. *)
Lemma pollIteration_shape (i : nat) :
  fetches (calls (pollIteration responses taskId i)) = 1%nat
  ∧ match completion (pollIteration responses taskId i) with
    | Normal (Some result) =>
        waits (calls (pollIteration responses taskId i)) = []
        ∧ lastIndicator (calls (pollIteration responses taskId i))
          = Some (mkTaskStatus taskId "completed" 100 "分析完成")
        ∧ ∃ statusResult,
            responses i = Answer statusResult
            ∧ sr_completed statusResult = true
            ∧ sr_failed statusResult = false
            ∧ result = sr_result statusResult
    | Normal None =>
        ((i < 59)%nat →
         ∃ w, waits (calls (pollIteration responses taskId i)) = [w]
              ∧ (w = 5000 ∨ w = 2000))
        ∧ (i = 59%nat → waits (calls (pollIteration responses taskId i)) = [])
    | Throw e =>
        i = 59%nat
        ∧ waits (calls (pollIteration responses taskId i)) = []
        ∧ lastIndicator (calls (pollIteration responses taskId i))
          = Some (mkTaskStatus taskId "failed" 0 "轮询失败")
    end.
Proof.
  split; [apply pollIteration_one_fetch|].
  unfold pollIteration, maxPolls, tryCatch, mbind, M_bind, bind. simpl.
  change (60 - 1)%nat with 59%nat.
  destruct (responses i) as [e|status statusText|statusResult] eqn:Hanswer;
    simpl.
  - case_bool_decide; simpl; [done|]. split; [eauto|done].
  - case_bool_decide; simpl; [done|]. split; [eauto|done].
  - destruct (sr_completed statusResult) eqn:Hcompleted; simpl.
    + destruct (sr_failed statusResult) eqn:Hfailed; simpl.
      * case_bool_decide; simpl; [done|]. split; [eauto|done].
      * split; [done|]. split; [done|]. by exists statusResult.
    + case_bool_decide; simpl; [|split; [lia|done]].
      split; [eauto|lia].
Qed.

(** The loop from poll [i] on, when [i] and the polls that remain add up
    to 60. *)
Lemma pollFrom_shape (remaining : nat) : ∀ i,
  (i + remaining = 60)%nat →
  Forall (fun w => w = 5000 ∨ w = 2000)
    (waits (calls (pollFrom responses taskId remaining i)))
  ∧ (fetches (calls (pollFrom responses taskId remaining i))
     = match remaining with
       | O => O
       | S _ => S (List.length
                     (waits (calls (pollFrom responses taskId remaining i))))
       end)
  ∧ match completion (pollFrom responses taskId remaining i) with
    | Normal result =>
        lastIndicator (calls (pollFrom responses taskId remaining i))
        = Some (mkTaskStatus taskId "completed" 100 "分析完成")
        ∧ ∃ j statusResult,
            (i ≤ j < 60)%nat
            ∧ responses j = Answer statusResult
            ∧ sr_completed statusResult = true
            ∧ sr_failed statusResult = false
            ∧ result = sr_result statusResult
            ∧ (i + fetches (calls (pollFrom responses taskId remaining i))
               = S j)%nat
    | Throw e =>
        fetches (calls (pollFrom responses taskId remaining i)) = remaining
        ∧ ∃ step,
            lastIndicator (calls (pollFrom responses taskId remaining i))
            = Some (mkTaskStatus taskId "failed" 0 step)
    end.
Proof.
  induction remaining as [|remaining IH]; intros i Hsum.
  - simpl. split; [done|]. split; [done|]. split; [done|eauto].
  - destruct (pollIteration_shape i) as (Hfetch & Hit).
    simpl. unfold mbind, M_bind, bind.
    destruct (completion (pollIteration responses taskId i))
      as [[result|]|e] eqn:Hend; simpl.
    + destruct Hit as (Hwaits & Hlast & statusResult & Hanswer & ? & ? & ?).
      rewrite app_nil_r, Hwaits, Hfetch. split; [done|]. split; [done|].
      split; [done|]. exists i, statusResult. repeat split; try done; lia.
    + destruct Hit as (Hearly & Hlate).
      destruct (IH (S i)) as (Hws & Hcount & Hrest); [lia|].
      rewrite waits_app, fetches_app, lastIndicator_app, Hfetch.
      destruct remaining as [|remaining'].
      * rewrite Hlate by lia. simpl. split; [done|]. split; [done|].
        split; [done|eauto].
      * destruct Hearly as (w & Hw & Hvalue); [lia|]. rewrite Hw.
        split; [by constructor|]. rewrite Hcount. split; [done|].
        destruct (completion (pollFrom responses taskId (S remaining') (S i)))
          as [result|e].
        -- destruct Hrest as (-> & j & statusResult & ? & ? & ? & ? & ? & ?).
           split; [done|]. exists j, statusResult.
           repeat split; try done; lia.
        -- destruct Hrest as (Hall & step & ->). split; [lia|eauto].
    + destruct Hit as (-> & Hwaits & Hlast).
      rewrite Hwaits, Hfetch. split; [done|]. split; [done|].
      split; [lia|eauto].
Qed.

Lemma pollTaskStatus_shape (remaining : nat) (initial : TaskStatus) :
  (0 + remaining = 60)%nat →
  let run := call (SetTaskStatus initial) ≫=
               fun _ => pollFrom responses taskId remaining 0 in
  (1 ≤ fetches (calls run) ≤ 60)%nat
  ∧ fetches (calls run) = S (List.length (waits (calls run)))
  ∧ Forall (fun w => w = 5000 ∨ w = 2000) (waits (calls run))
  ∧ 0 ≤ totalWait (waits (calls run)) ≤ 295000.
Proof.
  intros Hsum run.
  destruct (pollFrom_shape remaining 0 Hsum) as (Hws & Hcount & _).
  pose proof (pollFrom_fetches_bound responses taskId remaining 0) as Hbound.
  assert (calls run = SetTaskStatus initial
                      :: calls (pollFrom responses taskId remaining 0)) as ->.
  { subst run. unfold mbind, M_bind, bind. simpl.
    by destruct (completion (pollFrom responses taskId remaining 0)). }
  simpl. destruct remaining as [|remaining']; [done|].
  rewrite Hcount in *. split; [lia|]. split; [done|]. split; [done|].
  pose proof (totalWait_bound _ Hws). lia.
Qed.

Lemma pollTaskStatus_outcome (remaining : nat) (initial : TaskStatus) :
  (0 + remaining = 60)%nat →
  let run := call (SetTaskStatus initial) ≫=
               fun _ => pollFrom responses taskId remaining 0 in
  match completion run with
  | Normal result =>
      lastIndicator (calls run)
      = Some (mkTaskStatus taskId "completed" 100 "分析完成")
      ∧ ∃ j statusResult,
          (j < 60)%nat
          ∧ responses j = Answer statusResult
          ∧ sr_completed statusResult = true
          ∧ sr_failed statusResult = false
          ∧ result = sr_result statusResult
          ∧ fetches (calls run) = S j
  | Throw e =>
      fetches (calls run) = 60%nat
      ∧ ∃ step,
          lastIndicator (calls run)
          = Some (mkTaskStatus taskId "failed" 0 step)
  end.
Proof.
  intros Hsum run.
  destruct (pollFrom_shape remaining 0 Hsum) as (_ & _ & Hend).
  assert (calls run = SetTaskStatus initial
                      :: calls (pollFrom responses taskId remaining 0)) as ->.
  { subst run. unfold mbind, M_bind, bind. simpl.
    by destruct (completion (pollFrom responses taskId remaining 0)). }
  assert (completion run
          = completion (pollFrom responses taskId remaining 0)) as ->.
  { subst run. unfold mbind, M_bind, bind. simpl.
    by destruct (completion (pollFrom responses taskId remaining 0)). }
  simpl.
  destruct (completion (pollFrom responses taskId remaining 0)) as [result|e].
  - destruct Hend as (-> & j & statusResult & ? & ? & ? & ? & ? & ?).
    split; [done|]. exists j, statusResult. repeat split; try done; lia.
  - destruct Hend as (Hall & step & ->). split; [lia|eauto].
Qed.

End PollerShape.

(** X15.  Whatever the status endpoint answers, a run of [pollTaskStatus]
    makes between 1 and 60 requests and waits exactly once between two
    consecutive requests, 5 s or 2 s each time, so it ends after at most
    295 s of waiting. *)
Theorem poller_is_bounded (responses : nat → Client.Poll) (taskId : string) :
  let run := Client.pollTaskStatus responses taskId in
  (1 ≤ fetches (calls run) ≤ 60)%nat
  ∧ fetches (calls run) = S (List.length (waits (calls run)))
  ∧ Forall (fun w => w = 5000 ∨ w = 2000) (waits (calls run))
  ∧ 0 ≤ totalWait (waits (calls run)) ≤ 295000.
Proof.
  exact (pollTaskStatus_shape responses taskId Client.maxPolls
           (Client.mkTaskStatus taskId "processing" 0 "开始处理任务...")
           eq_refl).
Qed.

(** X16.  Whatever the status endpoint answers: when [pollTaskStatus]
    returns a result, it is the result of an answer reporting completed
    and not failed, no request follows that answer, and the progress
    indicator is left at completed, 100; when it throws, it has made all
    60 requests and leaves the indicator at failed, 0.  In particular an
    answer reporting a failed task before the 60th poll does not end the
    run. *)
Theorem poller_gives_up_only_after_60_polls
    (responses : nat → Client.Poll) (taskId : string) :
  let run := Client.pollTaskStatus responses taskId in
  match completion run with
  | Normal result =>
      lastIndicator (calls run)
      = Some (Client.mkTaskStatus taskId "completed" 100 "分析完成")
      ∧ ∃ j statusResult,
          (j < 60)%nat
          ∧ responses j = Client.Answer statusResult
          ∧ Client.sr_completed statusResult = true
          ∧ Client.sr_failed statusResult = false
          ∧ result = Client.sr_result statusResult
          ∧ fetches (calls run) = S j
  | Throw e =>
      fetches (calls run) = 60%nat
      ∧ ∃ step,
          lastIndicator (calls run)
          = Some (Client.mkTaskStatus taskId "failed" 0 step)
  end.
Proof.
  exact (pollTaskStatus_outcome responses taskId Client.maxPolls
           (Client.mkTaskStatus taskId "processing" 0 "开始处理任务...")
           eq_refl).
Qed.

(** ** The serverless variant, src/api/server.js *)

(** X17.  A run of [processAnalysisVercel] makes one store call.  It is
    [setTaskError] exactly when the retrieval promise rejects (the promise
    executor throws) or the process printed JSON [null]; a process that
    exits with another code, prints nothing or raises an error event does
    not fail the task: the run ends with [setTaskResult], [success: true],
    and the fallback answer of the retrieval step. *)
Theorem vercel_run_outcomes
    (env : Api.Collaborators) (taskId : string) (userInfo : Api.UserInfo) :
  let ragResult :=
    Api.callRAGSystemVercel env (Api.bioOrChatHistory userInfo)
      ("用户基本信息: " ++ Api.nickname userInfo ++ ", "
       ++ Api.profession userInfo ++ ", " ++ Api.age userInfo ++ "岁") in
  let run := Api.processAnalysisVercel env taskId userInfo in
  completion run = Normal tt
  ∧ match ragResult with
    | Rejected e => calls run = [OpSetTaskError e]
    | Resolved JNull =>
        calls run
        = [OpSetTaskError
             (mkError "Cannot read properties of null (reading 'error')")]
    | Resolved value =>
        ∃ result,
          calls run = [OpSetTaskResult result]
          ∧ Api.r_success result = true
          ∧ Api.r_user_info result = userInfo
          ∧ Api.generateFinalReport env userInfo value
            = Resolved (Api.r_final_report result)
    end.
Proof.
  intros ragResult run. subst run.
  unfold Api.processAnalysisVercel, Api.stageSequence.
  fold ragResult. destruct ragResult as [value|e]; [|done].
  destruct (generateFinalReport_resolves env userInfo value)
    as [report Hreport].
  unfold mbind, M_bind, bind, tryCatch. simpl. rewrite Hreport. simpl.
  destruct value; simpl; (split; [done|]); try done;
    eexists; (split; [reflexivity|]); done.
Qed.

(** X18.  In the serverless variant a retrieval process that exits with a
    code other than 0, or prints only white space, gives the fixed answer
    of general advice with [error] set, so the task completes with
    retrieval status "error" and no sources. *)
Theorem vercel_process_failure_completes_the_task
    (env : Api.Collaborators) (taskId : string) (userInfo : Api.UserInfo)
    (code : option Z) (outputData errorData : string) :
  Api.spawn env (Api.bioOrChatHistory userInfo)
    ("用户基本信息: " ++ Api.nickname userInfo ++ ", "
     ++ Api.profession userInfo ++ ", " ++ Api.age userInfo ++ "岁")
  = Api.CloseEvent code outputData errorData →
  code ≠ Some 0 ∨ all_whitespace outputData = true →
  ∃ result,
    calls (Api.processAnalysisVercel env taskId userInfo)
    = [OpSetTaskResult result]
    ∧ Api.r_success result = true
    ∧ Api.ra_status (Api.r_rag_analysis result) = "error"
    ∧ Api.sources_count (Api.r_rag_analysis result) = JNum 0
    ∧ Api.knowledge_references (Api.r_rag_analysis result) = JArr [].
Proof.
  intros Hrun Hbad.
  unfold Api.processAnalysisVercel, Api.stageSequence, Api.callRAGSystemVercel.
  rewrite Hrun.
  assert (bool_decide (code = Some 0) && negb (all_whitespace outputData)
          = false) as ->.
  { destruct Hbad as [Hcode| ->].
    - by rewrite bool_decide_eq_false_2.
    - by rewrite andb_false_r. }
  destruct (generateFinalReport_resolves env userInfo
              (Api.ragFallback "RAG查询失败"
                 "基于一般经验的建议：建议您在表达观点时注意方式方法，保持开放和理解的态度。"))
    as [report Hreport].
  unfold mbind, M_bind, bind, tryCatch. simpl. rewrite Hreport. simpl.
  eexists. split; [reflexivity|]. done.
Qed.

(** X19.  [/api/rag-status] of the serverless variant reports the system
    ready exactly when each of the four required variables is set to a
    non-empty value; [missing_variables] lists the others, in the order of
    the required variables, and [environment_variables] has one entry per
    required variable. *)
Theorem rag_status_ready_iff_all_configured
    (process_env : string → option string) :
  let answer := ApiEndpoints.rag_status process_env in
  (ApiEndpoints.rag_system_ready answer = true
   ↔ ∀ varName, varName ∈ ApiEndpoints.requiredVars →
       ∃ value, process_env varName = Some value ∧ value ≠ "")
  ∧ ApiEndpoints.missing_variables answer
    = filter (fun varName => ApiEndpoints.configured process_env varName = false)
        ApiEndpoints.requiredVars
  ∧ (ApiEndpoints.environment_variables answer).*1 = ApiEndpoints.requiredVars
  ∧ (ApiEndpoints.rag_system_ready answer = true
     ↔ ApiEndpoints.missing_variables answer = []).
Proof.
  assert (∀ varName,
            ApiEndpoints.configured process_env varName = true
            ↔ ∃ value, process_env varName = Some value ∧ value ≠ "")
    as Hconfigured.
  { intros varName. unfold ApiEndpoints.configured.
    destruct (process_env varName) as [value|].
    - rewrite negb_true_iff, String.eqb_neq. split; [eauto|].
      by intros (? & [= <-] & ?).
    - split; [done|]. by intros (? & ? & ?). }
  simpl. unfold ApiEndpoints.rag_status, ApiEndpoints.requiredVars. simpl.
  unfold ApiEndpoints.checkVar. simpl.
  split; [|split; [|split]].
  - rewrite bool_decide_eq_true. split.
    + intros Hnone varName Hin.
      apply Hconfigured.
      repeat (apply elem_of_cons in Hin as [->|Hin]);
        try (by apply elem_of_nil in Hin);
        destruct (ApiEndpoints.configured process_env "CLOUDFLARE_ACCOUNT_ID"),
                 (ApiEndpoints.configured process_env "R2_ACCESS_KEY_ID"),
                 (ApiEndpoints.configured process_env "R2_SECRET_ACCESS_KEY"),
                 (ApiEndpoints.configured process_env "BUCKET_NAME");
        done.
    + intros Hall.
      assert (∀ varName, varName ∈ ApiEndpoints.requiredVars →
                ApiEndpoints.configured process_env varName = true) as Hset.
      { intros varName Hin. by apply Hconfigured, Hall. }
      rewrite (Hset "CLOUDFLARE_ACCOUNT_ID"), (Hset "R2_ACCESS_KEY_ID"),
              (Hset "R2_SECRET_ACCESS_KEY"), (Hset "BUCKET_NAME");
        [done|unfold ApiEndpoints.requiredVars; repeat constructor..].
  - rewrite !filter_cons, filter_nil.
    destruct (ApiEndpoints.configured process_env "CLOUDFLARE_ACCOUNT_ID"),
             (ApiEndpoints.configured process_env "R2_ACCESS_KEY_ID"),
             (ApiEndpoints.configured process_env "R2_SECRET_ACCESS_KEY"),
             (ApiEndpoints.configured process_env "BUCKET_NAME");
      done.
  - done.
  - rewrite bool_decide_eq_true.
    destruct (ApiEndpoints.configured process_env "CLOUDFLARE_ACCOUNT_ID"),
             (ApiEndpoints.configured process_env "R2_ACCESS_KEY_ID"),
             (ApiEndpoints.configured process_env "R2_SECRET_ACCESS_KEY"),
             (ApiEndpoints.configured process_env "BUCKET_NAME");
      done.
Qed.

(** X20.  [/api/post_date_debrief] of the serverless variant answers 400
    exactly when [user_input] is missing, empty or white space, whether or
    not an audio file came with the request: it never reads the file.
    Otherwise it answers 200 with the provider's text when the provider
    call succeeds, and 500 when it fails. *)
Theorem vercel_debrief_outcomes
    (coach_completion : string → Promise Json)
    (req : ApiEndpoints.DebriefRequest) :
  let answer := ApiEndpoints.post_date_debrief coach_completion req in
  let userInput := default "" (ApiEndpoints.body_user_input req) in
  (ApiEndpoints.d_status answer = 400 ↔ all_whitespace userInput = true)
  ∧ (ApiEndpoints.d_status answer = 200
     ↔ all_whitespace userInput = false
       ∧ ∃ text, coach_completion userInput = Resolved text
                 ∧ ApiEndpoints.d_response answer = Some text)
  ∧ (ApiEndpoints.d_status answer = 500
     ↔ all_whitespace userInput = false
       ∧ ∃ error, coach_completion userInput = Rejected error)
  ∧ (ApiEndpoints.d_success answer = true ↔ ApiEndpoints.d_status answer = 200)
  ∧ ∀ audio,
      ApiEndpoints.post_date_debrief coach_completion
        (ApiEndpoints.mkDebriefRequest (ApiEndpoints.body_user_input req) audio)
      = answer.
Proof.
  simpl. unfold ApiEndpoints.post_date_debrief. simpl.
  assert (or_str (default "" (ApiEndpoints.body_user_input req)) ""
          = default "" (ApiEndpoints.body_user_input req)) as ->.
  { unfold or_str. destruct (String.eqb _ "") eqn:Hempty; [|done].
    by apply String.eqb_eq in Hempty. }
  destruct (all_whitespace (default "" (ApiEndpoints.body_user_input req)));
    simpl.
  { repeat split; try done; by intros (? & _). }
  destruct (coach_completion (default "" (ApiEndpoints.body_user_input req)))
    as [text|error]; simpl.
  - repeat split; try done; eauto. by intros (_ & ? & ?).
  - repeat split; try done; eauto. by intros (_ & ? & ? & _).
Qed.

(** ** The post-date debrief of src/server.js *)

Section DebriefFacts.
Import Debrief.
Variable env : Collaborators.

Lemma tryCatch_handled {Op A} (m : M Op A) (handler : Error → M Op A) :
  (∀ e, ∃ v, completion (handler e) = Normal v) →
  ∃ v, completion (tryCatch m handler) = Normal v.
Proof.
  intros Hhandler. unfold tryCatch.
  destruct (completion m) as [v|e] eqn:Hm; [by exists v|]. apply Hhandler.
Qed.

Lemma bind_normal {Op A B} (m : M Op A) (k : A → M Op B) (a : A) :
  completion m = Normal a →
  m ≫= k = mkM (calls m ++ calls (k a))%list (completion (k a)).
Proof. intros Hm. unfold mbind, M_bind, bind. by rewrite Hm. Qed.

Lemma bind_thrown {Op A B} (m : M Op A) (k : A → M Op B) (e : Error) :
  completion m = Throw e → m ≫= k = mkM (calls m) (Throw e).
Proof. intros Hm. unfold mbind, M_bind, bind. by rewrite Hm. Qed.

Lemma tryCatch_normal {Op A} (m : M Op A) (handler : Error → M Op A) a :
  completion m = Normal a → tryCatch m handler = m.
Proof. intros Hm. unfold tryCatch. by rewrite Hm. Qed.

Lemma tryCatch_thrown {Op A} (m : M Op A) (handler : Error → M Op A) e :
  completion m = Throw e →
  tryCatch m handler
  = mkM (calls m ++ calls (handler e))%list (completion (handler e)).
Proof. intros Hm. unfold tryCatch. by rewrite Hm. Qed.

(** A [try] whose block returns only values satisfying [P], and whose
    handler returns such a value for every error, gives such a value. *)
Lemma tryCatch_handled_or {Op A} (m : M Op A) (handler : Error → M Op A)
    (P : A → Prop) :
  (∀ v, completion m = Normal v → P v) →
  (∀ e, ∃ v, completion (handler e) = Normal v ∧ P v) →
  ∃ v, completion (tryCatch m handler) = Normal v ∧ P v.
Proof.
  intros Hblock Hhandler. unfold tryCatch.
  destruct (completion m) as [v|e] eqn:Hm; [|apply Hhandler].
  exists v. split; [done|]. by apply Hblock.
Qed.

(** White space only: [trim] gives the empty string, and conversely. *)
Lemma trimStart_all_whitespace_below (n : nat) : ∀ s,
  (String.length s < n)%nat → all_whitespace s = true → trimStart s = "".
Proof.
  induction n as [|n IH]; intros s Hlen; [lia|].
  destruct s as [|c [|c2 [|c3 rest3]]]; simpl in *; [done|..].
  - destruct (ascii_whitespace c); done.
  - destruct (ascii_whitespace c) eqn:Hc.
    + intros H. apply (IH (String c2 "")); [simpl; lia|done].
    + destruct (byte 194 c && byte 160 c2); done.
  - destruct (ascii_whitespace c) eqn:Hc.
    + intros H. apply (IH (String c2 (String c3 rest3))); [simpl; lia|done].
    + destruct (byte 194 c && byte 160 c2).
      * intros H. apply (IH (String c3 rest3)); [simpl; lia|done].
      * match goal with |- context [if ?b then all_whitespace rest3 else _] =>
          destruct b end; [|done].
        intros H. apply (IH rest3); [simpl; lia|done].
Qed.

Lemma trimStart_all_whitespace (s : string) :
  all_whitespace s = true → trimStart s = "".
Proof. apply (trimStart_all_whitespace_below (S (String.length s))). lia. Qed.

Lemma trim_all_whitespace (s : string) :
  all_whitespace s = true → trim s = "".
Proof. intros H. unfold trim. by rewrite trimStart_all_whitespace. Qed.



Lemma classifyUserIntent_spec (userInput : string) :
  ∃ intentResult,
    classifyUserIntent env userInput
    = mkM [Chat IntentPrompt [mkMessage "user" (JStr userInput)]]
          (Normal intentResult)
    ∧ (intent intentResult = "SIMPLE_REPLY"
       ∨ intent intentResult = "DEEP_ANALYSIS")
    ∧ (intent intentResult = "SIMPLE_REPLY" →
       ∃ completion text,
         openai_chat env IntentPrompt [mkMessage "user" (JStr userInput)]
         = Resolved completion
         ∧ first_content completion = Normal text
         ∧ trim text = "SIMPLE_REPLY")
    ∧ (i_success intentResult = false →
       intent intentResult = "DEEP_ANALYSIS"
       ∧ i_tokens_used intentResult = 0).
Proof.
  unfold classifyUserIntent, tryCatch, mbind, M_bind, bind. simpl.
  destruct (openai_chat env IntentPrompt _) as [completion|e] eqn:Hchat; simpl;
    [|eexists; split; [reflexivity|]; split; [by right|done]].
  destruct (first_content completion) as [text|e] eqn:Htext; simpl;
    [|eexists; split; [reflexivity|]; split; [by right|done]].
  destruct (String.eqb (trim text) "DEEP_ANALYSIS") eqn:Hdeep; simpl.
  { apply String.eqb_eq in Hdeep.
    eexists; split; [reflexivity|]. simpl. rewrite Hdeep.
    split; [by right|done]. }
  destruct (String.eqb (trim text) "SIMPLE_REPLY") eqn:Hsimple; simpl.
  { apply String.eqb_eq in Hsimple.
    eexists; split; [reflexivity|]. simpl. rewrite Hsimple.
    split; [by left|]. split; [eauto|done]. }
  eexists; split; [reflexivity|]; split; [by right|done].
Qed.

Lemma generateSimpleReply_normal (conversationHistory : list Json)
    (userInput : string) :
  ∃ simpleResponse,
    completion (generateSimpleReply env conversationHistory userInput)
    = Normal simpleResponse
    ∧ (s_success simpleResponse = true →
       is_Some (s_response simpleResponse)).
Proof.
  unfold generateSimpleReply. apply tryCatch_handled_or; [|by eexists].
  intros simpleResponse.
  destruct (completion (simpleHistory (lastN 5 conversationHistory)))
    as [history|e] eqn:Hhistory;
    [rewrite (bind_normal _ _ _ Hhistory)|by rewrite (bind_thrown _ _ _ Hhistory)].
  cbn [completion]. rewrite (bind_normal (call _) _ tt) by done.
  cbn [completion].
  destruct (openai_chat env SimpleReplyPrompt _) as [completed|e]; [|done].
  rewrite (bind_normal (await _) _ completed) by done. cbn [completion].
  destruct (first_content completed) as [text|e]; [|done].
  rewrite (bind_normal (settle _) _ text) by done. cbn [completion].
  intros [= <-]. by eexists.
Qed.


Lemma generateCoachResponse_normal (conversationHistory : list Json)
    (userQuestion : string) (ragResult : Json) :
  ∃ coachResponse,
    completion (generateCoachResponseWithGPT4o env conversationHistory
                  userQuestion ragResult)
    = Normal coachResponse
    ∧ (c_success coachResponse = true →
       is_Some (c_response coachResponse)).
Proof.
  unfold generateCoachResponseWithGPT4o.
  apply tryCatch_handled_or; [|by eexists].
  intros coachResponse.
  destruct (createEmotionalCoachSystemPrompt env ragResult)
    as [systemPrompt|e]; [|done].
  rewrite (bind_normal (settle _) _ systemPrompt) by done. cbn [completion].
  rewrite (bind_normal (call _) _ tt) by done. cbn [completion].
  destruct (openai_chat env (CoachPrompt systemPrompt) _) as [completed|e];
    [|done].
  rewrite (bind_normal (await _) _ completed) by done. cbn [completion].
  destruct (first_content completed) as [text|e]; [|done].
  rewrite (bind_normal (settle _) _ text) by done. cbn [completion].
  intros [= <-]. by eexists.
Qed.

Lemma expandQuery_normal (userQuestion : string) :
  ∃ query,
    expandQuery env userQuestion
    = mkM [EnhanceQuery
             (Server.mkUserInfo "咨询用户" "情感咨询" "未知" userQuestion)]
          (Normal query)
    ∧ (∀ e, enhanceQueryWithAI env
              (Server.mkUserInfo "咨询用户" "情感咨询" "未知" userQuestion) []
            = Rejected e →
       query.1 = userQuestion
       ∧ Server.q_success query.2 = false
       ∧ Server.token_usage query.2 = 0).
Proof.
  unfold expandQuery, tryCatch, mbind, M_bind, bind. simpl.
  destruct (enhanceQueryWithAI env _ []) as [q|e]; simpl;
    eexists; (split; [reflexivity|]); [done|].
  by intros ? [= <-].
Qed.

Lemma callPostDateRAG_resolved (enhancedQuery : string) (value : Json) :
  callPostDateRAGSystemWithEnhancedQuery env enhancedQuery = Resolved value →
  ∃ stdout stderr,
    spawn env enhancedQuery = CloseEvent (Some 0) stdout stderr
    ∧ JSON_parse env stdout = Some value
    ∧ value ≠ JNull
    ∧ ragLogThrows env value = None.
Proof.
  unfold callPostDateRAGSystemWithEnhancedQuery.
  destruct (spawn env enhancedQuery) as [e|e|code stdout stderr]; [done..|].
  case_bool_decide as Hcode; [subst code|done].
  destruct (JSON_parse env stdout) as [ragResult|] eqn:Hparse; [|done].
  destruct ragResult; try done;
    (destruct (ragLogThrows env _) eqn:Hlog; [done|]);
    intros [= <-]; by eexists _, _.
Qed.

Lemma hearInput_cases (userInput : option string)
    (audioFile : option AudioFile) :
  match audioFile with
  | None => hearInput env userInput None = mkM [] (Normal (userInput, None))
  | Some file =>
      match transcribeAudioWithWhisper env file with
      | Resolved transcriptionResult =>
          if t_success transcriptionResult then
            hearInput env userInput (Some file)
            = mkM [Transcribe file]
                (Normal (Some (transcription transcriptionResult),
                         Some transcriptionResult))
          else
            hearInput env userInput (Some file)
            = mkM [Transcribe file]
                (Throw (mkError ("音频转录失败: "
                                 ++ t_error transcriptionResult)))
      | Rejected e =>
          hearInput env userInput (Some file) = mkM [Transcribe file] (Throw e)
      end
  end.
Proof.
  destruct audioFile as [file|]; [|done].
  unfold hearInput, mbind, M_bind, bind. simpl.
  destruct (transcribeAudioWithWhisper env file) as [t|e]; simpl; [|done].
  by destruct (t_success t).
Qed.

Lemma simplePath_normal conversationHistory userQuestion firstStep
    intentResult transcriptionResult :
  ∃ result,
    simplePath env conversationHistory userQuestion firstStep intentResult
      transcriptionResult
    = mkM (calls (generateSimpleReply env conversationHistory userQuestion))
          (Normal result)
    ∧ d_success result = true
    ∧ is_Some (d_response result)
    ∧ d_error result = None
    ∧ processing_type (d_metadata result) = Some "simple_reply".
Proof.
  destruct (generateSimpleReply_normal conversationHistory userQuestion)
    as (simpleResponse & Hsimple & Hshape).
  unfold simplePath. rewrite (bind_normal _ _ _ Hsimple).
  destruct (s_success simpleResponse); cbn [negb];
    (eexists; split; [by rewrite app_nil_r|]); cbn; eauto.
Qed.

(** The deep path, step by step: the calls made, and how it ends. *)
Lemma deepPath_cases conversationHistory userQuestion firstStep
    intentResult transcriptionResult :
  ∃ query : string * Server.QueryOptimization,
    let asked := [EnhanceQuery
                    (Server.mkUserInfo "咨询用户" "情感咨询" "未知"
                       userQuestion);
                  Retrieve query.1] in
    let run := deepPath env conversationHistory userQuestion firstStep
                 intentResult transcriptionResult in
    (∀ e, enhanceQueryWithAI env
            (Server.mkUserInfo "咨询用户" "情感咨询" "未知" userQuestion) []
          = Rejected e → query.1 = userQuestion)
    ∧ match callPostDateRAGSystemWithEnhancedQuery env query.1 with
      | Rejected e => run = mkM asked (Throw e)
      | Resolved ragResult =>
          calls run
          = (asked ++ calls (generateCoachResponseWithGPT4o env
                               conversationHistory userQuestion ragResult))%list
          ∧ match completion run with
            | Normal result =>
                d_success result = true
                ∧ is_Some (d_response result)
                ∧ d_error result = None
                ∧ processing_type (d_metadata result)
                  = Some "deep_analysis_with_enhancement"
            | Throw e => True
            end
      end.
Proof.
  destruct (expandQuery_normal userQuestion) as (query & Hquery & Hrejected).
  exists query. cbn zeta. split; [intros e He; by apply (Hrejected e)|].
  unfold deepPath. rewrite Hquery.
  rewrite (bind_normal _ _ query) by done. cbn [calls completion].
  rewrite (bind_normal (call _) _ tt) by done. cbn [calls completion].
  destruct (callPostDateRAGSystemWithEnhancedQuery env query.1)
    as [ragResult|e] eqn:Hrag; [|done].
  rewrite (bind_normal (await _) _ ragResult) by done. cbn [calls completion].
  destruct (generateCoachResponse_normal conversationHistory userQuestion
              ragResult) as (coachResponse & Hcoach & Hshape).
  destruct (getField "success" ragResult) eqn:Hsuccess.
  - rewrite (bind_normal (mret tt) _ tt) by done. cbn [calls completion].
    rewrite (bind_normal _ _ _ Hcoach). cbn [calls completion].
    destruct (c_success coachResponse); cbn [negb].
    + rewrite (bind_normal (mret tt) _ tt) by done. cbn.
      rewrite app_nil_r. split; [done|]. eauto.
    + cbn. by rewrite app_nil_r.
  - (* the retrieval call does not resolve to [null] *)
    apply callPostDateRAG_resolved in Hrag as (_ & _ & _ & _ & Hvalue & _).
    by destruct ragResult.
Qed.

Lemma processPostDateDebrief_heard conversationHistory userInput audioFile
    userQuestion transcriptionResult intentResult :
  completion (hearInput env userInput audioFile)
  = Normal (Some userQuestion, transcriptionResult) →
  completion (classifyUserIntent env userQuestion) = Normal intentResult →
  processPostDateDebrief env conversationHistory userInput audioFile
  = tryCatch
      (mkM (calls (hearInput env userInput audioFile)
            ++ Chat IntentPrompt [mkMessage "user" (JStr userQuestion)]
               :: calls (pathOf env conversationHistory userQuestion audioFile
                           intentResult transcriptionResult))%list
         (completion (pathOf env conversationHistory userQuestion audioFile
                        intentResult transcriptionResult)))
      (fun error => mret (debriefFailure error)).
Proof.
  intros Hheard Hintent. unfold processPostDateDebrief. f_equal.
  rewrite (bind_normal _ _ _ Hheard). cbn [fst snd calls completion].
  rewrite (bind_normal (mret userQuestion) _ userQuestion) by done.
  cbn [calls completion].
  destruct (classifyUserIntent_spec userQuestion)
    as (found & Hclassify & _).
  rewrite Hclassify in Hintent |- *. injection Hintent as ->.
  rewrite (bind_normal _ _ intentResult) by done. cbn [calls completion].
  reflexivity.
Qed.

Lemma processPostDateDebrief_unheard conversationHistory userInput audioFile :
  match completion (hearInput env userInput audioFile) with
  | Normal (Some _, _) => True
  | Normal (None, _) =>
      processPostDateDebrief env conversationHistory userInput audioFile
      = mkM (calls (hearInput env userInput audioFile))
          (Normal (debriefFailure
                     (mkError
                        "Cannot read properties of undefined (reading 'substring')")))
  | Throw e =>
      processPostDateDebrief env conversationHistory userInput audioFile
      = mkM (calls (hearInput env userInput audioFile))
          (Normal (debriefFailure e))
  end.
Proof.
  unfold processPostDateDebrief.
  destruct (completion (hearInput env userInput audioFile))
    as [[[userQuestion|] transcriptionResult]|e] eqn:Hheard; [done|..].
  - rewrite (bind_normal _ _ _ Hheard). cbn [fst snd calls completion].
    unfold tryCatch. cbn. by rewrite !app_nil_r.
  - rewrite (bind_thrown _ _ _ Hheard). unfold tryCatch. cbn.
    by rewrite app_nil_r.
Qed.

Lemma pathOf_normal conversationHistory userQuestion audioFile intentResult
    transcriptionResult result :
  completion (pathOf env conversationHistory userQuestion audioFile intentResult
                transcriptionResult) = Normal result →
  d_success result = true ∧ is_Some (d_response result)
  ∧ d_error result = None.
Proof.
  unfold pathOf. destruct (String.eqb (intent intentResult) "SIMPLE_REPLY").
  - destruct (simplePath_normal conversationHistory userQuestion
                match audioFile with Some _ => "音频转录" | None => "文本输入" end
                intentResult transcriptionResult)
      as (found & -> & ? & ? & ? & _).
    by intros [= <-].
  - destruct (deepPath_cases conversationHistory userQuestion
                match audioFile with Some _ => "音频转录" | None => "文本输入" end
                intentResult transcriptionResult)
      as (query & _ & Hcases). cbn zeta in Hcases.
    destruct (callPostDateRAGSystemWithEnhancedQuery env query.1).
    + destruct Hcases as (_ & Hend). intros Hresult.
      rewrite Hresult in Hend. tauto.
    + by rewrite Hcases.
Qed.

(** [processPostDateDebrief] never rejects: it returns a success with a
    response, or a failure with the fixed fallback text. *)
Lemma processPostDateDebrief_normal conversationHistory userInput audioFile :
  ∃ result,
    completion (processPostDateDebrief env conversationHistory userInput
                  audioFile) = Normal result
    ∧ if d_success result
      then is_Some (d_response result) ∧ d_error result = None
      else d_response result = None ∧ is_Some (d_error result)
           ∧ d_fallback_response result = Some debriefFallback.
Proof.
  pose proof (processPostDateDebrief_unheard conversationHistory userInput
                audioFile) as Hunheard.
  destruct (completion (hearInput env userInput audioFile))
    as [[[userQuestion|] transcriptionResult]|e] eqn:Hheard.
  - destruct (classifyUserIntent_spec userQuestion)
      as (intentResult & Hclassify & _).
    rewrite (processPostDateDebrief_heard _ _ _ userQuestion
               transcriptionResult intentResult Hheard)
      by by rewrite Hclassify.
    unfold tryCatch. cbn [completion].
    destruct (completion (pathOf env conversationHistory userQuestion audioFile
                            intentResult transcriptionResult))
      as [result|e] eqn:Hpath.
    + exists result. split; [done|].
      apply pathOf_normal in Hpath as (-> & ? & ?). done.
    + eexists. split; [reflexivity|]. cbn. eauto.
  - rewrite Hunheard. eexists. split; [reflexivity|]. cbn. eauto.
  - rewrite Hunheard. eexists. split; [reflexivity|]. cbn. eauto.
Qed.

(** The answer of the endpoint, given what [processPostDateDebrief]
    returns. *)
Lemma post_date_debrief_answer (req : Request) (result : DebriefResult) :
  (String.eqb (default "" (user_input req)) ""
   && negb (bool_decide (is_Some (file req))) = false) →
  completion (processPostDateDebrief env
                (parseConversationHistory env (conversation_history req))
                (user_input req) (file req)) = Normal result →
  ∃ answer,
    post_date_debrief env req
    = mkM (calls (processPostDateDebrief env
                    (parseConversationHistory env (conversation_history req))
                    (user_input req) (file req)))
        (Normal answer)
    ∧ if d_success result
      then status answer = 200 ∧ success answer = true
           ∧ response answer = d_response result
           ∧ r_processing_type answer = processing_type (d_metadata result)
      else status answer = 202 ∧ success answer = false
           ∧ fallback_response answer = d_fallback_response result
           ∧ error answer = Some (or_str (default "" (d_error result))
                                    "处理失败").
Proof.
  intros Hgiven Hresult.
  destruct (processPostDateDebrief_normal
              (parseConversationHistory env (conversation_history req))
              (user_input req) (file req)) as (found & Hfound & Hshape).
  rewrite Hresult in Hfound. injection Hfound as <-.
  unfold post_date_debrief. rewrite Hgiven.
  rewrite (bind_normal _ _ _ Hresult). cbn [calls completion].
  rewrite app_nil_r.
  rewrite (tryCatch_normal _ _ (inl result)) by done.
  rewrite (bind_normal _ _ (inl result)) by done. cbn [calls completion].
  destruct (d_success result).
  - destruct Hshape as ([text Htext] & _). rewrite Htext.
    rewrite (bind_normal (mret text) _ text) by done. cbn [calls completion].
    unfold tryCatch. cbn [completion].
    eexists. split; [by rewrite !app_nil_r|]. done.
  - unfold tryCatch. cbn [completion].
    eexists. split; [by rewrite !app_nil_r|]. done.
Qed.

End DebriefFacts.

Section DebriefMore.
Import Debrief.

Lemma prefix_app (needle rest : string) :
  String.prefix needle (needle ++ rest) = true.
Proof.
  induction needle as [|c needle IH]; simpl; [by destruct rest|].
  destruct (Ascii.ascii_dec c c); [done|congruence].
Qed.

Lemma includes_app (needle rest : string) :
  includes needle (needle ++ rest) = true.
Proof.
  assert (∀ haystack, String.prefix needle haystack = true →
                      includes needle haystack = true) as Hprefix.
  { intros haystack H. destruct haystack; cbn [includes]; by rewrite H. }
  apply Hprefix, prefix_app.
Qed.

End DebriefMore.

(** X21.  [callPostDateRAGSystemWithEnhancedQuery] resolves only when the
    retrieval process exits with code 0 and prints JSON other than [null]
    whose statistics can be logged, and then with that JSON; in every other
    case it rejects (where [callRAGSystem] resolves with a fallback).  An
    exit with another code, or the kill of the 300 s timer, rejects with
    the exit code in the message. *)
Theorem post_date_retrieval_rejects_on_failure
    (env : Debrief.Collaborators) (enhancedQuery : string) :
  (∀ value,
     Debrief.callPostDateRAGSystemWithEnhancedQuery env enhancedQuery
     = Resolved value
     ↔ ∃ stdout stderr,
         Debrief.spawn env enhancedQuery
         = Debrief.CloseEvent (Some 0) stdout stderr
         ∧ Debrief.JSON_parse env stdout = Some value
         ∧ value ≠ JNull
         ∧ Debrief.ragLogThrows env value = None)
  ∧ (∀ code stdout stderr,
       Debrief.spawn env enhancedQuery = Debrief.CloseEvent code stdout stderr →
       code ≠ Some 0 →
       Debrief.callPostDateRAGSystemWithEnhancedQuery env enhancedQuery
       = Rejected (mkError ("RAG进程异常退出: "
                            ++ from_option pretty "null" code))).
Proof.
  split.
  - intros value. split; [apply callPostDateRAG_resolved|].
    intros (stdout & stderr & Hrun & Hparse & Hvalue & Hlog).
    unfold Debrief.callPostDateRAGSystemWithEnhancedQuery.
    rewrite Hrun. rewrite bool_decide_eq_true_2 by done. rewrite Hparse.
    destruct value; try done; by rewrite Hlog.
  - intros code stdout stderr Hrun Hcode.
    unfold Debrief.callPostDateRAGSystemWithEnhancedQuery.
    rewrite Hrun. by rewrite bool_decide_eq_false_2.
Qed.

(** X22.  [classifyUserIntent] never rejects and makes one provider call,
    with the user's input as the only message.  The intent it returns is
    SIMPLE_REPLY or DEEP_ANALYSIS; it is SIMPLE_REPLY exactly when the
    provider's text, trimmed, is SIMPLE_REPLY, and DEEP_ANALYSIS for any
    other text and when the provider fails. *)
Theorem classifyUserIntent_answers_one_of_two
    (env : Debrief.Collaborators) (userInput : string) :
  let asked := [Debrief.mkMessage "user" (JStr userInput)] in
  ∃ intentResult,
    Debrief.classifyUserIntent env userInput
    = mkM [Debrief.Chat Debrief.IntentPrompt asked] (Normal intentResult)
    ∧ (Debrief.intent intentResult = "SIMPLE_REPLY"
       ∨ Debrief.intent intentResult = "DEEP_ANALYSIS")
    ∧ (Debrief.intent intentResult = "SIMPLE_REPLY"
       ↔ ∃ completion text,
           Debrief.openai_chat env Debrief.IntentPrompt asked
           = Resolved completion
           ∧ Debrief.first_content completion = Normal text
           ∧ Debrief.trim text = "SIMPLE_REPLY")
    ∧ (Debrief.i_success intentResult = false
       ↔ (∃ e, Debrief.openai_chat env Debrief.IntentPrompt asked = Rejected e)
         ∨ ∃ completion e,
             Debrief.openai_chat env Debrief.IntentPrompt asked
             = Resolved completion
             ∧ Debrief.first_content completion = Throw e).
Proof.
  cbn zeta.
  unfold Debrief.classifyUserIntent, tryCatch, mbind, M_bind, bind. simpl.
  destruct (Debrief.openai_chat env Debrief.IntentPrompt _)
    as [completion|e] eqn:Hchat; simpl.
  2:{ eexists; split; [reflexivity|]. simpl. split; [by right|].
      split; [split; [done|by intros (? & ? & ? & _)]|].
      split; [eauto|done]. }
  destruct (Debrief.first_content completion) as [text|e] eqn:Htext; simpl.
  2:{ eexists; split; [reflexivity|]. simpl. split; [by right|].
      split; [split; [done|]|].
      - intros (? & ? & [= <-] & ? & _). congruence.
      - split; [intros _; right; eauto|done]. }
  assert (true = false
          ↔ (∃ e, Resolved completion = @Rejected Debrief.ChatCompletion e)
            ∨ ∃ completion0 e,
                Resolved completion = Resolved completion0
                ∧ Debrief.first_content completion0 = Throw e)
    as Hworked.
  { split; [done|].
    intros [(? & ?)|(? & ? & [= <-] & ?)]; congruence. }
  destruct (String.eqb (Debrief.trim text) "DEEP_ANALYSIS") eqn:Hdeep; simpl.
  { apply String.eqb_eq in Hdeep.
    eexists; split; [reflexivity|]. simpl. rewrite Hdeep.
    split; [by right|]. split; [|exact Hworked].
    split; [done|]. intros (? & ? & [= <-] & Hc & Ht).
    rewrite Htext in Hc. injection Hc as <-. congruence. }
  destruct (String.eqb (Debrief.trim text) "SIMPLE_REPLY") eqn:Hsimple; simpl.
  { apply String.eqb_eq in Hsimple.
    eexists; split; [reflexivity|]. simpl. rewrite Hsimple.
    split; [by left|]. split; [|exact Hworked].
    split; [eauto|done]. }
  apply String.eqb_neq in Hsimple.
  eexists; split; [reflexivity|]. simpl. split; [by right|].
  split; [|exact Hworked].
  split; [done|]. intros (? & ? & [= <-] & Hc & Ht).
  rewrite Htext in Hc. injection Hc as <-. congruence.
Qed.



(** X25.  The debrief endpoint of src/server.js answers every request
    (whose [user_input] is a string or missing) with 400, 200 or 202, and
    never with 422, 503 or 500: [processPostDateDebrief] catches every
    error itself, so the handlers for a failed call are never entered.  The
    answer is 400 exactly when there is neither text nor audio, and then no
    call to the outside is made; 200 goes with [success: true] and a
    response; 202 carries the fixed fallback text. *)
Theorem debrief_endpoint_statuses
    (env : Debrief.Collaborators) (req : Debrief.Request) :
  ∃ answer,
    completion (Debrief.post_date_debrief env req) = Normal answer
    ∧ (Debrief.status answer = 400 ∨ Debrief.status answer = 200
       ∨ Debrief.status answer = 202)
    ∧ (Debrief.status answer = 400
       ↔ default "" (Debrief.user_input req) = "" ∧ Debrief.file req = None)
    ∧ (Debrief.status answer = 400 →
       calls (Debrief.post_date_debrief env req) = [])
    ∧ (Debrief.success answer = true ↔ Debrief.status answer = 200)
    ∧ (Debrief.status answer = 200 → is_Some (Debrief.response answer))
    ∧ (Debrief.status answer = 202 →
       Debrief.fallback_response answer = Some Debrief.debriefFallback
       ∧ is_Some (Debrief.error answer)).
Proof.
  destruct (String.eqb (default "" (Debrief.user_input req)) ""
            && negb (bool_decide (is_Some (Debrief.file req)))) eqn:Hgiven.
  - unfold Debrief.post_date_debrief. rewrite Hgiven.
    apply andb_true_iff in Hgiven as (Htext%String.eqb_eq & Hfile).
    apply negb_true_iff, bool_decide_eq_false in Hfile.
    eexists. split; [reflexivity|]. cbn.
    split; [by left|]. split.
    { split; [intros _|done]. split; [done|].
      destruct (Debrief.file req); [|done]. destruct Hfile. eauto. }
    done.
  - destruct (processPostDateDebrief_normal env
                (Debrief.parseConversationHistory env
                   (Debrief.conversation_history req))
                (Debrief.user_input req) (Debrief.file req))
      as (result & Hresult & Hshape).
    destruct (post_date_debrief_answer env req result Hgiven Hresult)
      as (answer & -> & Hanswer).
    exists answer. split; [done|].
    assert (¬ (default "" (Debrief.user_input req) = ""
               ∧ Debrief.file req = None)) as Hsome.
    { intros (Htext & Hfile). rewrite Htext, Hfile in Hgiven. done. }
    destruct (Debrief.d_success result).
    + destruct Hanswer as (Hstatus & Hsuccess & Hresponse & _).
      destruct Hshape as (Htext & _).
      rewrite Hstatus, Hsuccess, Hresponse.
      split; [by right; left|]. repeat split; try done.
    + destruct Hanswer as (Hstatus & Hsuccess & Hfallback & Herror).
      destruct Hshape as (_ & _ & Hfixed).
      rewrite Hstatus, Hsuccess, Hfallback, Herror.
      split; [by right; right|]. repeat split; try done.
Qed.

(** X26.  A request with an audio file whose transcription fails is
    answered 202, with the transcription error as [error] and the fixed
    fallback text, after the transcription call alone.  The handler that
    would answer 422 for this very message is not reached. *)
Theorem failed_transcription_is_answered_202
    (env : Debrief.Collaborators) (req : Debrief.Request)
    (audioFile : Debrief.AudioFile)
    (transcriptionResult : Debrief.Transcription) :
  Debrief.file req = Some audioFile →
  Debrief.transcribeAudioWithWhisper env audioFile
  = Resolved transcriptionResult →
  Debrief.t_success transcriptionResult = false →
  let detail := "音频转录失败: " ++ Debrief.t_error transcriptionResult in
  ∃ answer,
    Debrief.post_date_debrief env req
    = mkM [Debrief.Transcribe audioFile] (Normal answer)
    ∧ Debrief.status answer = 202
    ∧ Debrief.success answer = false
    ∧ Debrief.error answer = Some detail
    ∧ Debrief.fallback_response answer = Some Debrief.debriefFallback
    ∧ Debrief.status (Debrief.processingFailure (mkError detail)) = 422.
Proof.
  intros Hfile Htranscribe Hfailed detail.
  set (history := Debrief.parseConversationHistory env
                    (Debrief.conversation_history req)).
  pose proof (hearInput_cases env (Debrief.user_input req)
                (Debrief.file req)) as Hheard.
  rewrite Hfile, Htranscribe, Hfailed in Hheard.
  pose proof (processPostDateDebrief_unheard env history
                (Debrief.user_input req) (Debrief.file req)) as Hrun.
  rewrite Hfile in Hrun. rewrite Hheard in Hrun. cbn [completion calls] in Hrun.
  assert (String.eqb (default "" (Debrief.user_input req)) ""
          && negb (bool_decide (is_Some (Debrief.file req))) = false)
    as Hgiven.
  { rewrite Hfile. rewrite (bool_decide_eq_true_2 _ (mk_is_Some _ _ eq_refl)).
    apply andb_false_r. }
  destruct (post_date_debrief_answer env req
              (Debrief.debriefFailure (mkError detail)) Hgiven)
    as (answer & Hanswer & Hshape).
  { fold history. rewrite Hfile, Hrun. done. }
  fold history in Hanswer. rewrite Hfile, Hrun in Hanswer.
  cbn [calls] in Hanswer. cbn in Hshape.
  destruct Hshape as (Hstatus & Hsuccess & Hfallback & Herror).
  exists answer. split; [exact Hanswer|].
  split; [done|]. split; [done|]. split.
  { rewrite Herror. unfold or_str.
    destruct (String.eqb detail "") eqn:Hempty; [|done].
    apply String.eqb_eq in Hempty. done. }
  split; [done|].
  unfold Debrief.processingFailure. cbn [message].
  assert (Debrief.includes "音频转录失败" detail = true) as ->; [|done].
  subst detail.
  change ("音频转录失败: " ++ Debrief.t_error transcriptionResult)
    with ("音频转录失败" ++ (": " ++ Debrief.t_error transcriptionResult)).
  apply includes_app.
Qed.

(** X27.  When the intent is recognised as SIMPLE_REPLY,
    [processPostDateDebrief] makes no query expansion, no retrieval and no
    coach call: after the intent call come the calls of
    [generateSimpleReply] only.  The result is a success with a response
    even when the reply generation fails. *)
Theorem simple_reply_path_makes_no_retrieval
    (env : Debrief.Collaborators) (conversationHistory : list Json)
    (userInput : option string) (audioFile : option Debrief.AudioFile)
    (userQuestion : string)
    (transcriptionResult : option Debrief.Transcription)
    (completed : Debrief.ChatCompletion) (text : string) :
  completion (Debrief.hearInput env userInput audioFile)
  = Normal (Some userQuestion, transcriptionResult) →
  Debrief.openai_chat env Debrief.IntentPrompt
    [Debrief.mkMessage "user" (JStr userQuestion)] = Resolved completed →
  Debrief.first_content completed = Normal text →
  Debrief.trim text = "SIMPLE_REPLY" →
  ∃ result,
    Debrief.processPostDateDebrief env conversationHistory userInput audioFile
    = mkM (calls (Debrief.hearInput env userInput audioFile)
           ++ Debrief.Chat Debrief.IntentPrompt
                [Debrief.mkMessage "user" (JStr userQuestion)]
              :: calls (Debrief.generateSimpleReply env conversationHistory
                          userQuestion))%list
        (Normal result)
    ∧ Debrief.d_success result = true
    ∧ is_Some (Debrief.d_response result)
    ∧ Debrief.processing_type (Debrief.d_metadata result)
      = Some "simple_reply".
Proof.
  intros Hheard Hchat Htext Hsimple.
  destruct (classifyUserIntent_spec env userQuestion)
    as (intentResult & Hclassify & _).
  assert (Debrief.intent intentResult = "SIMPLE_REPLY") as Hintent.
  { revert Hclassify.
    unfold Debrief.classifyUserIntent, tryCatch, mbind, M_bind, bind. simpl.
    rewrite Hchat. simpl. rewrite Htext. simpl. rewrite Hsimple. simpl.
    by intros [= <-]. }
  rewrite (processPostDateDebrief_heard env _ _ _ userQuestion
             transcriptionResult intentResult Hheard)
    by by rewrite Hclassify.
  unfold Debrief.pathOf. rewrite Hintent. cbn [String.eqb Ascii.eqb Bool.eqb].
  destruct (simplePath_normal env conversationHistory userQuestion
              match audioFile with Some _ => "音频转录" | None => "文本输入" end
              intentResult transcriptionResult)
    as (result & -> & Hsuccess & Hresponse & _ & Htype).
  exists result. cbn [calls completion].
  by rewrite (tryCatch_normal _ _ result).
Qed.

(** X28.  On the deep path a retrieval call that rejects ends the
    debrief: no coach call is made, and [processPostDateDebrief] returns a
    failure that carries the retrieval error and the fixed fallback text.
    A query expansion that rejects does not: the retrieval is then asked
    with the user's own question. *)
Theorem retrieval_failure_ends_the_debrief
    (env : Debrief.Collaborators) (conversationHistory : list Json)
    (userInput : option string) (audioFile : option Debrief.AudioFile)
    (userQuestion : string)
    (transcriptionResult : option Debrief.Transcription)
    (intentResult : Debrief.IntentResult) :
  completion (Debrief.hearInput env userInput audioFile)
  = Normal (Some userQuestion, transcriptionResult) →
  completion (Debrief.classifyUserIntent env userQuestion)
  = Normal intentResult →
  Debrief.intent intentResult ≠ "SIMPLE_REPLY" →
  (∀ query, ∃ e,
     Debrief.callPostDateRAGSystemWithEnhancedQuery env query = Rejected e) →
  ∃ query e,
    Debrief.processPostDateDebrief env conversationHistory userInput audioFile
    = mkM (calls (Debrief.hearInput env userInput audioFile)
           ++ [Debrief.Chat Debrief.IntentPrompt
                 [Debrief.mkMessage "user" (JStr userQuestion)];
               Debrief.EnhanceQuery
                 (Server.mkUserInfo "咨询用户" "情感咨询" "未知" userQuestion);
               Debrief.Retrieve query])%list
        (Normal (Debrief.debriefFailure e))
    ∧ Debrief.callPostDateRAGSystemWithEnhancedQuery env query = Rejected e
    ∧ ((∃ rejected,
          Debrief.enhanceQueryWithAI env
            (Server.mkUserInfo "咨询用户" "情感咨询" "未知" userQuestion) []
          = Rejected rejected) →
       query = userQuestion).
Proof.
  intros Hheard Hclassify Hdeep Hdown.
  rewrite (processPostDateDebrief_heard env _ _ _ userQuestion
             transcriptionResult intentResult Hheard Hclassify).
  unfold Debrief.pathOf.
  apply String.eqb_neq in Hdeep. rewrite Hdeep.
  destruct (deepPath_cases env conversationHistory userQuestion
              match audioFile with Some _ => "音频转录" | None => "文本输入" end
              intentResult transcriptionResult)
    as (query & Hexpanded & Hcases). cbn zeta in Hcases.
  destruct (Hdown query.1) as [e Hrejected]. rewrite Hrejected in Hcases.
  exists query.1, e. rewrite Hcases. cbn [calls completion].
  split; [|split; [done|]].
  - unfold tryCatch. cbn. by rewrite app_nil_r.
  - intros [rejected Hrej]. by apply (Hexpanded rejected).
Qed.

(** ** Image classification in the pipeline *)

Section VisionFacts.
Import Server.

Lemma classifyImageWithGPT4o_cases (vision : Vision.Collaborators)
    (filePath filename : string) :
  ∃ classification,
    completion (Vision.classifyImageWithGPT4o vision filePath filename)
    = Normal classification
    ∧ (if c_success classification
       then c_classification classification = "chat"
            ∨ c_classification classification = "photo"
       else c_classification classification = "unknown")
    ∧ (List.length
         (calls (Vision.classifyImageWithGPT4o vision filePath filename))
       ≤ 1)%nat.
Proof.
  unfold Vision.classifyImageWithGPT4o, tryCatch, mbind, M_bind, bind. simpl.
  destruct (Vision.existsSync vision filePath); simpl;
    [|eexists; split; [reflexivity|]; simpl; split; [done|lia]].
  destruct (Vision.readFileSync vision filePath) as [imageBuffer|e]; simpl;
    [|eexists; split; [reflexivity|]; simpl; split; [done|lia]].
  destruct (Vision.vision_chat vision _ imageBuffer) as [response|e]; simpl;
    [|eexists; split; [reflexivity|]; simpl; split; [done|lia]].
  destruct (Debrief.first_content response) as [text|e]; simpl;
    [|eexists; split; [reflexivity|]; simpl; split; [done|lia]].
  destruct (String.eqb (Vision.toLowerCase vision (Debrief.trim text)) "chat")
    eqn:Hchat; simpl.
  { apply String.eqb_eq in Hchat.
    eexists; split; [reflexivity|]. simpl. split; [by left|lia]. }
  destruct (String.eqb (Vision.toLowerCase vision (Debrief.trim text)) "photo")
    eqn:Hphoto; simpl.
  { apply String.eqb_eq in Hphoto.
    eexists; split; [reflexivity|]. simpl. split; [by right|lia]. }
  eexists; split; [reflexivity|]. simpl. split; [by right|lia].
Qed.

Lemma imageLoop_ext (env env' : Collaborators) total files :
  (∀ file, classifyAndAnalyze env file = classifyAndAnalyze env' file) →
  ∀ i imageAnalyses,
    imageLoop env total i files imageAnalyses
    = imageLoop env' total i files imageAnalyses.
Proof.
  intros Hsame. induction files as [|file rest IH]; intros i imageAnalyses;
    [done|].
  simpl. rewrite Hsame. unfold mbind, M_bind, bind. simpl.
  destruct (completion (classifyAndAnalyze env' file)); [|done].
  by rewrite IH.
Qed.

End VisionFacts.

(** X29.  [classifyImageWithGPT4o] never rejects and asks the provider at
    most once; when it succeeds its classification is chat or photo (any
    other answer of the provider counts as photo), and when it fails it is
    unknown.  Hence the pipeline, which stops at a failed classification,
    never calls the generic analyser [analyzeImageWithGPT4o]: a run is the
    same whatever that function would do. *)
Theorem pipeline_never_calls_the_generic_analyser
    (vision : Vision.Collaborators) (env : Server.Collaborators)
    (other : string → string → Promise Server.Analysis)
    (taskId : string) (userInfo : Server.UserInfo)
    (uploadedFiles : list Server.File) :
  (∀ filePath filename,
     Server.classifyImageWithGPT4o env filePath filename
     = Vision.promiseOf
         (Vision.classifyImageWithGPT4o vision filePath filename)) →
  (∀ filePath filename,
     ∃ classification,
       Server.classifyImageWithGPT4o env filePath filename
       = Resolved classification
       ∧ if Server.c_success classification
         then Server.c_classification classification = "chat"
              ∨ Server.c_classification classification = "photo"
         else Server.c_classification classification = "unknown")
  ∧ Server.processAnalysisTask env taskId userInfo uploadedFiles
    = Server.processAnalysisTask (Vision.withAnalyzer env other) taskId
        userInfo uploadedFiles.
Proof.
  intros Himplemented.
  assert (∀ filePath filename,
            ∃ classification,
              Server.classifyImageWithGPT4o env filePath filename
              = Resolved classification
              ∧ if Server.c_success classification
                then Server.c_classification classification = "chat"
                     ∨ Server.c_classification classification = "photo"
                else Server.c_classification classification = "unknown")
    as Hclassified.
  { intros filePath filename. rewrite Himplemented.
    destruct (classifyImageWithGPT4o_cases vision filePath filename)
      as (classification & Hrun & Hshape & _).
    exists classification. unfold Vision.promiseOf. by rewrite Hrun. }
  split; [exact Hclassified|].
  assert (∀ file, Server.classifyAndAnalyze env file
                  = Server.classifyAndAnalyze (Vision.withAnalyzer env other)
                      file) as Hsame.
  { intros file. unfold Server.classifyAndAnalyze. cbn [Vision.withAnalyzer
      Server.classifyImageWithGPT4o Server.analyzeChatImageWithGPT4o
      Server.analyzePhotoImageWithGPT4o Server.analyzeImageWithGPT4o].
    destruct (Hclassified (Server.path file) (Server.filename file))
      as (classification & -> & Hshape).
    unfold tryCatch, mbind, M_bind, bind. simpl.
    destruct (Server.c_success classification); simpl; [|done].
    destruct Hshape as [-> | ->]; reflexivity. }
  assert (Server.analyzeImages env uploadedFiles
          = Server.analyzeImages (Vision.withAnalyzer env other) uploadedFiles)
    as Himages.
  { unfold Server.analyzeImages.
    destruct (0 <? _); [|done].
    by rewrite (imageLoop_ext env (Vision.withAnalyzer env other) _ _ Hsame). }
  unfold Server.processAnalysisTask, Server.stageSequence.
  rewrite Himages. reflexivity.
Qed.

(** ** The layout of a coach reply *)

Section FormatFacts.
Import Debrief.

Lemma longestRun_ge (s : string) : ∀ run, (run ≤ longestRun run s)%nat.
Proof.
  induction s as [|c rest IH]; intros run; simpl; [done|].
  destruct (byte 10 c); [|lia]. specialize (IH (S run)). lia.
Qed.

Lemma longestRun_mono (s : string) : ∀ run run',
  (run ≤ run')%nat → (longestRun run s ≤ longestRun run' s)%nat.
Proof.
  induction s as [|c rest IH]; intros run run' Hle; simpl; [done|].
  destruct (byte 10 c); [apply IH; lia|lia].
Qed.

Lemma longestRun_suffix (before s : string) : ∀ run,
  (longestRun 0 s ≤ longestRun run (before ++ s))%nat.
Proof.
  induction before as [|c rest IH]; intros run; simpl.
  - apply longestRun_mono. lia.
  - destruct (byte 10 c); [apply IH|]. specialize (IH 0%nat). lia.
Qed.

Lemma longestRun_prefix (s after : string) : ∀ run,
  (longestRun run s ≤ longestRun run (s ++ after))%nat.
Proof.
  induction s as [|c rest IH]; intros run; simpl; [apply longestRun_ge|].
  destruct (byte 10 c); [apply IH|]. specialize (IH 0%nat). lia.
Qed.

(** After the replacement no run of line feeds is longer than three. *)
Lemma limitNewlines_bound (s : string) : ∀ run,
  (run ≤ 3)%nat → (longestRun run (limitNewlines run s) ≤ 3)%nat.
Proof.
  induction s as [|c rest IH]; intros run Hrun; simpl; [done|].
  destruct (byte 10 c) eqn:Hc.
  - destruct (run <? 3)%nat eqn:Hroom.
    + apply Nat.ltb_lt in Hroom. simpl. rewrite Hc. apply IH. lia.
    + by apply IH.
  - simpl. rewrite Hc. specialize (IH 0%nat). lia.
Qed.

(** A text without a run of more than three line feeds is left as it
    is. *)
Lemma limitNewlines_id (s : string) : ∀ run,
  (longestRun run s ≤ 3)%nat → limitNewlines run s = s.
Proof.
  induction s as [|c rest IH]; intros run Hshort; simpl in *; [done|].
  destruct (byte 10 c).
  - pose proof (longestRun_ge rest (S run)).
    rewrite (proj2 (Nat.ltb_lt run 3)) by lia. f_equal. by apply IH.
  - f_equal. apply IH. lia.
Qed.

Lemma string_app_assoc (a b c : string) : a ++ b ++ c = (a ++ b) ++ c.
Proof.
  induction a as [|x a IH]; [reflexivity|].
  change (String x (a ++ b ++ c) = String x ((a ++ b) ++ c)). by f_equal.
Qed.

Lemma trimStart_suffix_below (n : nat) : ∀ s,
  (String.length s < n)%nat → ∃ before, s = before ++ trimStart s.
Proof.
  induction n as [|n IH]; intros s Hlen; [lia|].
  assert (∀ before rest,
            (String.length rest < n)%nat →
            ∃ before', before ++ rest = before' ++ trimStart rest) as Hstep.
  { intros before rest Hrest. destruct (IH rest Hrest) as [middle Hmiddle].
    exists (before ++ middle). rewrite <- string_app_assoc. by f_equal. }
  destruct s as [|c [|c2 [|c3 rest3]]]; simpl in *.
  - by exists "".
  - destruct (ascii_whitespace c); [by exists (String c "")|by exists ""].
  - destruct (ascii_whitespace c).
    + apply (Hstep (String c "") (String c2 "")). simpl. lia.
    + destruct (byte 194 c && byte 160 c2);
        [by exists (String c (String c2 ""))|by exists ""].
  - destruct (ascii_whitespace c).
    + apply (Hstep (String c "") (String c2 (String c3 rest3))). simpl. lia.
    + destruct (byte 194 c && byte 160 c2).
      * apply (Hstep (String c (String c2 "")) (String c3 rest3)). simpl. lia.
      * match goal with |- context [if ?b then trimStart rest3 else _] =>
          destruct b end; [|by exists ""].
        apply (Hstep (String c (String c2 (String c3 ""))) rest3). lia.
Qed.

Lemma trimEnd_prefix (s : string) : ∃ after, s = trimEnd s ++ after.
Proof.
  induction s as [|c rest [after IH]]; [by exists ""|].
  cbn [trimEnd]. generalize (all_whitespace (String c rest)) as blank.
  intros [|].
  - exists (String c rest). reflexivity.
  - exists after. change (String c rest = String c (trimEnd rest ++ after)).
    by f_equal.
Qed.

Lemma longestRun_trim (s : string) :
  (longestRun 0 (trim s) ≤ longestRun 0 s)%nat.
Proof.
  unfold trim.
  destruct (trimStart_suffix_below (S (String.length s)) s) as [before Hs];
    [lia|].
  destruct (trimEnd_prefix (trimStart s)) as [after Hend].
  apply (Nat.le_trans _ (longestRun 0 (trimStart s))).
  - rewrite Hend at 2. apply longestRun_prefix.
  - rewrite Hs at 2. apply (longestRun_suffix before _ 0).
Qed.

Lemma byte_eq (n : N) (c : ascii) : byte n c = true → N_of_ascii c = n.
Proof. unfold byte. apply N.eqb_eq. Qed.

Lemma not_line_feed (c : ascii) : (32 ≤ N_of_ascii c)%N → byte 10 c = false.
Proof. unfold byte. intros H. apply N.eqb_neq. lia. Qed.

(** Dropping line feeds from white space leaves white space. *)
Lemma limitNewlines_blank_below (n : nat) : ∀ s run,
  (String.length s < n)%nat → all_whitespace s = true →
  all_whitespace (limitNewlines run s) = true.
Proof.
  induction n as [|n IH]; intros s run Hlen; [lia|].
  destruct s as [|c rest]; [done|].
  cbn [limitNewlines]. simpl in Hlen.
  destruct (ascii_whitespace c) eqn:Hc.
  { assert (all_whitespace (String c rest) = all_whitespace rest) as ->.
    { simpl. by rewrite Hc. }
    intros Hrest.
    assert (∀ tail, all_whitespace (String c tail) = all_whitespace tail)
      as Hhead.
    { intros tail. simpl. by rewrite Hc. }
    destruct (byte 10 c).
    - destruct (run <? 3)%nat; [rewrite Hhead|]; (apply IH; [lia|done]).
    - rewrite Hhead. apply IH; [lia|done]. }
  destruct rest as [|c2 rest2]; [simpl; by rewrite Hc|].
  destruct (byte 194 c && byte 160 c2) eqn:Htwo.
  { assert (all_whitespace (String c (String c2 rest2)) = all_whitespace rest2)
      as ->.
    { simpl. by rewrite Hc, Htwo. }
    intros Hrest. apply andb_true_iff in Htwo as (H1%byte_eq & H2%byte_eq).
    rewrite (not_line_feed c) by lia. cbn [limitNewlines].
    rewrite (not_line_feed c2) by lia.
    simpl. rewrite Hc. unfold byte. rewrite H1, H2. simpl.
    apply IH; [simpl in Hlen; lia|done]. }
  destruct rest2 as [|c3 rest3]; [simpl; by rewrite Hc, Htwo|].
  simpl all_whitespace at 1. rewrite Hc, Htwo.
  match goal with |- (if ?b then _ else _) = true → _ =>
    destruct b eqn:Hthree; [|done] end.
  intros Hrest.
  assert ((224 ≤ N_of_ascii c)%N ∧ (128 ≤ N_of_ascii c2)%N
          ∧ (128 ≤ N_of_ascii c3)%N) as (H1 & H2 & H3).
  { unfold byte in Hthree.
    repeat match type of Hthree with
           | (_ || _) = true => apply orb_true_iff in Hthree as [Hthree|Hthree]
           | (_ && _) = true => apply andb_true_iff in Hthree as [? Hthree]
           end;
      repeat match goal with
             | H : (_ && _) = true |- _ => apply andb_true_iff in H as [? ?]
             | H : (_ || _) = true |- _ => apply orb_true_iff in H as [?|?]
             | H : (_ =? _)%N = true |- _ => apply N.eqb_eq in H
             | H : (_ <=? _)%N = true |- _ => apply N.leb_le in H
             end; lia. }
  rewrite (not_line_feed c) by lia. cbn [limitNewlines].
  rewrite (not_line_feed c2) by lia. cbn [limitNewlines].
  rewrite (not_line_feed c3) by lia.
  simpl all_whitespace at 1. rewrite Hc, Htwo, Hthree.
  apply IH; [simpl in Hlen; lia|done].
Qed.

End FormatFacts.

(** X30.  [formatCoachResponse] leaves no more than three line feeds in a
    row, and a text that has no longer run to begin with is only trimmed;
    a text of white space only becomes the empty string. *)
Theorem formatCoachResponse_limits_blank_lines (response : string) :
  (Debrief.longestRun 0 (Debrief.formatCoachResponse response) ≤ 3)%nat
  ∧ ((Debrief.longestRun 0 response ≤ 3)%nat →
     Debrief.formatCoachResponse response = Debrief.trim response)
  ∧ (all_whitespace response = true →
     Debrief.formatCoachResponse response = "").
Proof.
  unfold Debrief.formatCoachResponse. split; [|split].
  - eapply Nat.le_trans; [apply longestRun_trim|].
    apply limitNewlines_bound. lia.
  - intros Hshort. by rewrite limitNewlines_id.
  - intros Hblank. apply trim_all_whitespace.
    by apply (limitNewlines_blank_below (S (String.length response))); [lia|].
Qed.

(** ** The statements at work on concrete runs *)

(** Alice's record was swept: the store calls of her pipeline find nothing
    to write. *)
Lemma missing_task_is_never_written_witness :
  getTask "task-1" (Server.taskStorage Scenario.swept) = None
  ∧ performAll "task-1" Scenario.ticking 0 Scenario.aliceScript
      (Server.taskStorage Scenario.swept)
    = Server.taskStorage Scenario.swept.
Proof.
  assert (getTask "task-1" (Server.taskStorage Scenario.swept) = None)
    as Hgone by by vm_compute.
  split; [exact Hgone|].
  exact (proj1 (missing_task_is_never_written "task-1" Scenario.ticking 0
                  Scenario.aliceScript (Server.taskStorage Scenario.swept)
                  Hgone)).
Defined.

(** A status update on the failed task of [Scenario.withFailed] goes
    through. *)
Lemma updateTaskStatus_frame_witness :
  getTask "task-2" (Server.taskStorage Scenario.withFailed)
  = Some Scenario.failedTask
  ∧ ∃ task',
      (updateTaskStatus "task-2" PROCESSING "again" 20 [] 1600
         (Server.taskStorage Scenario.withFailed)).1 = true
      ∧ (updateTaskStatus "task-2" PROCESSING "again" 20 [] 1600
           (Server.taskStorage Scenario.withFailed)).2 !! "task-2" = Some task'
      ∧ status task' = PROCESSING
      ∧ error task' = error Scenario.failedTask.
Proof.
  assert (getTask "task-2" (Server.taskStorage Scenario.withFailed)
          = Some Scenario.failedTask) as Hin by by vm_compute.
  split; [exact Hin|].
  destruct (updateTaskStatus_frame "task-2" PROCESSING "again" 20 1600
              (Server.taskStorage Scenario.withFailed) Scenario.failedTask Hin)
    as (task' & Heq & Hstatus & _ & _ & _ & _ & _ & Herror & _).
  exists task'. rewrite Heq. simpl.
  split; [reflexivity|]. split; [apply lookup_insert_eq|].
  split; [exact Hstatus|exact Herror].
Defined.

(** A result written on the failed task of [Scenario.withFailed] leaves
    its error in place. *)
Lemma setTaskResult_frame_witness :
  getTask "task-2" (Server.taskStorage Scenario.withFailed)
  = Some Scenario.failedTask
  ∧ ∃ task',
      getTask "task-2"
        (setTaskResult "task-2"
           (responseOf Scenario.failing "task-2" Scenario.alice []) 1600
           (Server.taskStorage Scenario.withFailed)) = Some task'
      ∧ status task' = COMPLETED
      ∧ processing_time task' = 600
      ∧ error task' = error Scenario.failedTask.
Proof.
  assert (getTask "task-2" (Server.taskStorage Scenario.withFailed)
          = Some Scenario.failedTask) as Hin by by vm_compute.
  split; [exact Hin|].
  destruct (setTaskResult_frame "task-2"
              (responseOf Scenario.failing "task-2" Scenario.alice []) 1600
              (Server.taskStorage Scenario.withFailed) Scenario.failedTask Hin)
    as (task' & Hget & _ & Hstatus & _ & Htime & _ & Herror & _).
  exists task'. split; [exact Hget|]. split; [exact Hstatus|].
  split; [exact Htime|exact Herror].
Defined.

(** Alice's whole run leaves an identifier other than hers as it was. *)
Lemma run_touches_only_its_own_record_witness :
  "task-2" ≠ "task-1"
  ∧ getTask "task-2"
      (performAll "task-1" Scenario.ticking 0 Scenario.aliceScript
         (Server.taskStorage Scenario.submitted))
    = getTask "task-2" (Server.taskStorage Scenario.submitted).
Proof.
  assert ("task-2" ≠ "task-1") as Hne by done.
  split; [exact Hne|].
  exact (run_touches_only_its_own_record "task-1" "task-2" Scenario.ticking 0
           Scenario.aliceScript (Server.taskStorage Scenario.submitted) Hne).
Defined.

(** The status endpoint after Alice's submission. *)
Lemma report_status_reads_the_store_witness :
  Server.reachable Scenario.submitted
  ∧ Server.taskStorage Scenario.submitted !! "task-1" = Some Scenario.aliceTask
  ∧ ∃ payload,
      Server.report_status "task-1" Scenario.submitted = Server.Ok payload
      ∧ Server.st_status payload = "pending"
      ∧ Server.st_completed payload = Some false.
Proof.
  split; [apply submitted_reachable|]. split; [apply submitted_lookup|].
  destruct (report_status_reads_the_store Scenario.submitted "task-1"
              Scenario.aliceTask submitted_reachable submitted_lookup)
    as (_ & payload & Hanswer & Hstatus & _ & Hcompleted & _).
  exists payload. split; [exact Hanswer|].
  split; [exact Hstatus|exact Hcompleted].
Defined.

(** Alice's submission with one photo: 200 and an estimate of 80
    seconds. *)
Lemma accepted_submission_witness :
  all_whitespace (default "" (Server.body_nickname Scenario.aliceRequest))
  = false
  ∧ let answer :=
      Server.generate_warning_report Scenario.failing "task-1" 1000
        Scenario.aliceRequest Server.initialState in
    Server.http_status answer.1 = 200
    ∧ Server.s_estimated_time answer.1 = Some "80 秒".
Proof.
  assert (all_whitespace
            (default "" (Server.body_nickname Scenario.aliceRequest)) = false)
    as Hvalid by reflexivity.
  split; [exact Hvalid|].
  destruct (accepted_submission Scenario.failing "task-1" 1000
              Scenario.aliceRequest Server.initialState Hvalid)
    as (Hstatus & _ & _ & _ & Hestimate & _).
  split; [exact Hstatus|exact Hestimate].
Defined.

(** Alice's task, submitted with collaborators that all fail, is not
    failed. *)
Lemma no_task_fails_behind_the_endpoint_witness :
  Server.reachable Scenario.finished
  ∧ Server.taskStorage Scenario.finished !! "task-1" = Some Scenario.aliceDone
  ∧ status Scenario.aliceDone ≠ FAILED
  ∧ error Scenario.aliceDone = None.
Proof.
  split; [apply finished_reachable|]. split; [apply finished_lookup|].
  destruct (no_task_fails_behind_the_endpoint Scenario.finished "task-1"
              Scenario.aliceDone finished_reachable finished_lookup)
    as (Hstatus & Herror & _).
  split; [exact Hstatus|exact Herror].
Defined.

(** Alice's pending task can be completed. *)
Lemma every_task_can_complete_witness :
  Server.reachable Scenario.submitted
  ∧ Server.taskStorage Scenario.submitted !! "task-1" = Some Scenario.aliceTask
  ∧ ∃ σ' task',
      rtc Server.step Scenario.submitted σ'
      ∧ Server.taskStorage σ' !! "task-1" = Some task'
      ∧ status task' = COMPLETED.
Proof.
  split; [apply submitted_reachable|]. split; [apply submitted_lookup|].
  destruct (every_task_can_complete Scenario.submitted "task-1"
              Scenario.aliceTask submitted_reachable submitted_lookup)
    as (σ' & task' & Hsteps & Hin & Hdone & _).
  exists σ', task'. split; [exact Hsteps|]. split; [exact Hin|exact Hdone].
Defined.

(** Alice's run with one photo: one analysis, eleven store calls. *)
Lemma one_analysis_per_valid_file_witness :
  all_whitespace (Server.nickname Scenario.alice) = false
  ∧ ∃ response,
      last Scenario.aliceScript = Some (OpSetTaskResult response)
      ∧ List.length (Server.r_image_analyses response) = 1%nat
      ∧ List.length Scenario.aliceScript = 11%nat.
Proof.
  assert (all_whitespace (Server.nickname Scenario.alice) = false)
    as Hvalid by reflexivity.
  split; [exact Hvalid|].
  destruct (one_analysis_per_valid_file Scenario.failing "task-1"
              Scenario.alice [Scenario.photo] Hvalid)
    as (response & Hlast & _ & Hcount & _ & _ & Hcalls).
  exists response. split; [exact Hlast|].
  split; [exact Hcount|exact Hcalls].
Defined.

(** Alice's run with collaborators that all fail is labelled a success. *)
Lemma degraded_result_is_labelled_success_witness :
  all_whitespace (Server.nickname Scenario.alice) = false
  ∧ collaborators_fail Scenario.failing
  ∧ ∃ response,
      last Scenario.aliceScript = Some (OpSetTaskResult response)
      ∧ Server.final_analysis_status (Server.r_analysis_stats response)
        = "success"
      ∧ Server.rag_status (Server.r_analysis_stats response) = "active".
Proof.
  assert (all_whitespace (Server.nickname Scenario.alice) = false)
    as Hvalid by reflexivity.
  split; [exact Hvalid|]. split; [apply failing_collaborators_fail|].
  destruct (degraded_result_is_labelled_success Scenario.failing "task-1"
              Scenario.alice [Scenario.photo] Hvalid
              failing_collaborators_fail)
    as (response & Hlast & _ & _ & Hlabel & _ & Hrag).
  exists response. split; [exact Hlast|].
  split; [exact Hlabel|exact (Hrag eq_refl)].
Defined.

(** A crashing retrieval process in the serverless variant: Bob's task
    completes. *)
Lemma vercel_process_failure_completes_the_task_witness :
  ∃ result,
    calls (Api.processAnalysisVercel Examples.crashing "task-3" Examples.bob)
    = [OpSetTaskResult result]
    ∧ Api.ra_status (Api.r_rag_analysis result) = "error".
Proof.
  destruct (vercel_process_failure_completes_the_task Examples.crashing
              "task-3" Examples.bob (Some 1) "" "Traceback" eq_refl)
    as (result & Hcalls & _ & Hstatus & _).
  { left. done. }
  exists result. split; [exact Hcalls|exact Hstatus].
Defined.

(** A voice note when transcription is not configured: 202 after the
    transcription call. *)
Lemma failed_transcription_is_answered_202_witness :
  ∃ answer,
    Debrief.post_date_debrief (Examples.coach "SIMPLE_REPLY")
      Examples.voiceRequest
    = mkM [Debrief.Transcribe Examples.note] (Normal answer)
    ∧ Debrief.status answer = 202
    ∧ Debrief.error answer
      = Some "音频转录失败: REPLICATE_API_TOKEN环境变量未设置".
Proof.
  destruct (failed_transcription_is_answered_202
              (Examples.coach "SIMPLE_REPLY") Examples.voiceRequest
              Examples.note
              (Debrief.mkTranscription false ""
                 "REPLICATE_API_TOKEN环境变量未设置")
              eq_refl eq_refl eq_refl)
    as (answer & Hrun & Hstatus & _ & Herror & _).
  exists answer. split; [exact Hrun|]. split; [exact Hstatus|exact Herror].
Defined.

(** "thanks", classified as a simple reply, with a provider that then
    fails: a success with the fallback text, after two provider calls. *)
Lemma simple_reply_path_makes_no_retrieval_witness :
  ∃ result,
    Debrief.processPostDateDebrief (Examples.coach "SIMPLE_REPLY") []
      (Some "thanks") None
    = mkM [Debrief.Chat Debrief.IntentPrompt
             [Debrief.mkMessage "user" (JStr "thanks")];
           Debrief.Chat Debrief.SimpleReplyPrompt
             [Debrief.mkMessage "user" (JStr "thanks")]]
        (Normal result)
    ∧ Debrief.d_success result = true.
Proof.
  destruct (simple_reply_path_makes_no_retrieval
              (Examples.coach "SIMPLE_REPLY") [] (Some "thanks") None "thanks"
              None
              (Debrief.mkChatCompletion (Normal "SIMPLE_REPLY") (Some 12)
                 "gpt-4o")
              "SIMPLE_REPLY" eq_refl eq_refl eq_refl eq_refl)
    as (result & Hrun & Hsuccess & _).
  exists result. split; [exact Hrun|exact Hsuccess].
Defined.

(** A question classified for deep analysis when the retrieval process
    does not start: a failure after the retrieval call, asked with the
    user's own words. *)
Lemma retrieval_failure_ends_the_debrief_witness :
  Debrief.processPostDateDebrief (Examples.coach "DEEP_ANALYSIS") []
    (Some "he never called back") None
  = mkM [Debrief.Chat Debrief.IntentPrompt
           [Debrief.mkMessage "user" (JStr "he never called back")];
         Debrief.EnhanceQuery
           (Server.mkUserInfo "咨询用户" "情感咨询" "未知"
              "he never called back");
         Debrief.Retrieve "he never called back"]
      (Normal (Debrief.debriefFailure Scenario.down)).
Proof.
  destruct (retrieval_failure_ends_the_debrief
              (Examples.coach "DEEP_ANALYSIS") [] (Some "he never called back")
              None "he never called back" None
              (Debrief.mkIntentResult true "DEEP_ANALYSIS" None 12)
              eq_refl eq_refl)
    as (query & e & Hrun & Hrejected & Hquery).
  { done. }
  { intros query. exists Scenario.down. reflexivity. }
  rewrite (Hquery (ex_intro _ Scenario.down eq_refl)) in Hrun, Hrejected.
  injection Hrejected as <-. exact Hrun.
Defined.

(** With the classification of the source in place, Alice's run is the
    same when the generic analyser answers instead of failing. *)
Lemma pipeline_never_calls_the_generic_analyser_witness :
  Server.processAnalysisTask Examples.wired "task-1" Scenario.alice
    [Scenario.photo]
  = Server.processAnalysisTask
      (Vision.withAnalyzer Examples.wired
         (fun _ name =>
            Resolved (Server.mkAnalysis name None None [] true None)))
      "task-1" Scenario.alice [Scenario.photo].
Proof.
  apply (pipeline_never_calls_the_generic_analyser Examples.camera
           Examples.wired).
  intros filePath filename. reflexivity.
Defined.
